(** * Rentverse backend: login, lockout, MFA and lease signing

    A shallow embedding of the request handlers of
    [src/routes/auth.js], [src/routes/mfa.js], [src/routes/lease.js] and of
    [src/services/leases.service.js].

    The handlers are [async] functions that read and write the database
    through the ORM and leave a handler early with [return res...] or with
    a thrown [Error].  They are embedded as programs of a state-and-exception
    monad over an explicit database value.  Calls into third-party libraries
    (express-validator, bcrypt, jsonwebtoken, speakeasy) are taken as the
    fields of a record of functions, so that every statement holds for every
    behaviour of these libraries. *)

From Stdlib Require Import ZArith String Ascii List Bool Lia.
From stdpp Require Import gmap strings list fin_maps.
Import ListNotations.

Local Open Scope string_scope.
Local Open Scope Z_scope.

(** ** JavaScript values and string operations *)

Module Js.

(** A value that is a string or [undefined]/[null]. *)
Definition value := option string.

(** Truthiness of such a value: [undefined], [null] and the empty string
    are falsy. *)
Definition truthy (v : value) : bool :=
  match v with
  | Some s => negb (String.eqb s "")
  | None => false
  end.

(** [a || b]. *)
Definition or (a b : value) : value := if truthy a then a else b.

(** [a || 'literal'], whose result is always a string. *)
Definition or_lit (a : value) (d : string) : string :=
  match a with
  | Some s => if String.eqb s "" then d else s
  | None => d
  end.

(** [v === s] for a stored string [s]. *)
Definition strict_eq (s : string) (v : value) : bool :=
  match v with
  | Some s' => String.eqb s s'
  | None => false
  end.

(** [s.includes(sub)]. *)
Fixpoint includes (s sub : string) : bool :=
  if String.prefix sub s then true
  else match s with
       | EmptyString => false
       | String _ s' => includes s' sub
       end.

(** [s.replace(pat, rep)] with a string pattern: the first occurrence only. *)
Fixpoint replace (s pat rep : string) : string :=
  if String.prefix pat s
  then String.append rep
         (String.substring (String.length pat)
            (String.length s - String.length pat) s)
  else match s with
       | EmptyString => EmptyString
       | String c s' => String c (replace s' pat rep)
       end.

End Js.

(** ** Data model *)

Module User.
Record t := mk {
  id : string;
  email : string;
  password : string;          (* bcrypt hash *)
  name : string;
  role : string;
  isActive : bool;
  mfaEnabled : bool;
  mfaSecret : option string
}.
End User.

Module ActivityLog.
Record t := mk {
  userId : string;
  action : string;
  status : string;
  ipAddress : string;
  userAgent : string;
  details : list (string * string);
  createdAt : Z                (* milliseconds since the epoch *)
}.
End ActivityLog.

Module Notification.
(** The [message] is a template literal; its interpolated parts are kept
    apart: the word chosen by [isNewDevice ? 'device' : 'IP address'], the
    current IP and the time. *)
Record t := mk {
  userId : string;
  title : string;
  what : string;
  ip : Js.value;
  time : Z;
  type : string
}.
End Notification.

Module Lease.
Record t := mk {
  id : string;
  tenantId : string;
  landlordId : string;
  tenantSignature : option string;
  landlordSignature : option string;
  tenantSignedAt : option Z;
  landlordSignedAt : option Z;
  signatureStatus : string
}.
End Lease.

(** The database.  [activityLogs] and [notifications] hold the most
    recently created row first; leases are keyed by their primary key. *)
Record Db := mkDb {
  users : list User.t;
  activityLogs : list ActivityLog.t;
  notifications : list Notification.t;
  leases : gmap string Lease.t
}.

(** Which of the monitoring queries fail (the ORM call rejects).  These are
    the calls the handlers wrap in a [try]/[catch] of their own; the other
    calls are taken to succeed, apart from an update of a missing row. *)
Record Faults := mkFaults {
  activityLogCreateFails : bool;
  activityLogCountFails : bool;
  activityLogFindManyFails : bool;
  notificationCreateFails : bool
}.

Definition noFaults : Faults := mkFaults false false false false.

(** What a request sees of its environment: [Date.now()] and the faults. *)
Record Env := mkEnv {
  now : Z;
  faults : Faults
}.

(** The payload of a signed token. *)
Record JwtPayload := mkJwtPayload {
  jwt_userId : string;
  jwt_email : string;
  jwt_role : string
}.

(** Third-party library calls. *)
Record Libs := mkLibs {
  isEmail : string -> bool;                       (* express-validator *)
  normalizeEmail : string -> string;              (* express-validator *)
  bcrypt_compare : string -> string -> bool;      (* bcrypt.compare(password, hash) *)
  jwt_sign : JwtPayload -> string;                (* jwt.sign(payload, secret, opts) *)
  totp_verify : string -> string -> nat -> Z -> bool
    (* speakeasy.totp.verify({secret, token, window}) at a given time *)
}.

(** An incoming request, after the JSON body parser. Body fields are strings;
    an absent field is [None]. *)
Record Request := mkRequest {
  body_email : Js.value;
  body_password : Js.value;
  body_userId : Js.value;
  body_token : Js.value;
  body_signature : Js.value;
  params_id : string;
  req_ip : Js.value;                 (* req.ip *)
  header_user_agent : Js.value;      (* req.headers['user-agent'] *)
  header_x_forwarded_for : Js.value; (* req.headers['x-forwarded-for'] *)
  socket_remoteAddress : Js.value;   (* req.socket.remoteAddress *)
  req_user_id : string               (* req.user.id, set by the auth middleware *)
}.

(** The user object sent back: [password] is always removed, [mfaSecret] is
    removed by [/mfa/login] only ([None] is a removed field). *)
Record UserView := mkUserView {
  v_id : string;
  v_email : string;
  v_name : string;
  v_role : string;
  v_isActive : bool;
  v_mfaEnabled : bool;
  v_mfaSecret : option (option string)
}.

Inductive Body :=
| BErrors                                           (* { success: false, errors } *)
| BMessage (success : bool) (message : string)      (* { success, message } *)
| BMfaRequired (userId : string) (message : string) (* { success: true, requiresMFA: true, userId, message } *)
| BLogin (message : string) (user : UserView) (token : string)
                                                    (* { success: true, message, data: { user, token } } *)
| BLease (message : string) (data : Lease.t).       (* { success: true, message, data } *)

Record Response := mkResponse {
  statusCode : nat;
  body : Body
}.

(** ** The monad of handlers: database state and thrown errors *)

Inductive Outcome (A : Type) :=
| Returned (a : A)
| Thrown (message : string).
Arguments Returned {A} a.
Arguments Thrown {A} message.

Definition Prog (A : Type) := Db -> Outcome A * Db.

Definition ret {A} (a : A) : Prog A := fun db => (Returned a, db).

Definition throw {A} (message : string) : Prog A := fun db => (Thrown message, db).

Definition bind {A B} (p : Prog A) (k : A -> Prog B) : Prog B :=
  fun db =>
    match p db with
    | (Returned a, db') => k a db'
    | (Thrown e, db') => (Thrown e, db')
    end.

(** [try { p } catch (error) { h error.message }] *)
Definition try_catch {A} (p : Prog A) (h : string -> Prog A) : Prog A :=
  fun db =>
    match p db with
    | (Returned a, db') => (Returned a, db')
    | (Thrown e, db') => h e db'
    end.

Definition gets {A} (f : Db -> A) : Prog A := fun db => (Returned (f db), db).

Definition modify (f : Db -> Db) : Prog unit := fun db => (Returned tt, f db).

Declare Scope prog_scope.
Delimit Scope prog_scope with prog.
Notation "'let!' x ':=' p 'in' k" := (bind p (fun x => k))
  (at level 10, x name, p at level 100, k at level 200) : prog_scope.
Notation "p ';;' k" := (bind p (fun _ => k))
  (at level 100, k at level 200, right associativity) : prog_scope.
Local Open Scope prog_scope.

(** ** ORM calls

    The queries of the third-party ORM, with their documented meaning on the
    database value. *)

Definition set_activityLogs (l : list ActivityLog.t) (db : Db) : Db :=
  mkDb (users db) l (notifications db) (leases db).

Definition set_notifications (l : list Notification.t) (db : Db) : Db :=
  mkDb (users db) (activityLogs db) l (leases db).

Definition set_users (l : list User.t) (db : Db) : Db :=
  mkDb l (activityLogs db) (notifications db) (leases db).

Definition set_leases (m : gmap string Lease.t) (db : Db) : Db :=
  mkDb (users db) (activityLogs db) (notifications db) m.

Definition userByEmail (db : Db) (email : string) : option User.t :=
  List.find (fun u => String.eqb (User.email u) email) (users db).

Definition userById (db : Db) (id : string) : option User.t :=
  List.find (fun u => String.eqb (User.id u) id) (users db).

(** [prisma.user.findUnique({ where: { email } })] *)
Definition user_findUnique_email (email : string) : Prog (option User.t) :=
  gets (fun db => userByEmail db email).

(** [prisma.user.findUnique({ where: { id } })] *)
Definition user_findUnique_id (id : string) : Prog (option User.t) :=
  gets (fun db => userById db id).

(** [prisma.user.update({ where: { id }, data })]; it rejects when no
    such record exists. *)
Definition user_update (id : string) (data : User.t -> User.t) : Prog unit :=
  fun db =>
    match userById db id with
    | None => (Thrown "Record to update not found.", db)
    | Some _ =>
        (Returned tt,
         set_users (List.map (fun u => if String.eqb (User.id u) id then data u else u)
                      (users db)) db)
    end.

(** [prisma.activityLog.create({ data })]; [createdAt] defaults to the
    current time. *)
Definition activityLog_create (env : Env) (l : ActivityLog.t) : Prog unit :=
  if activityLogCreateFails (faults env) then throw "activityLog.create failed"
  else modify (fun db => set_activityLogs (l :: activityLogs db) db).

(** [prisma.activityLog.count({ where })] *)
Definition activityLog_count (env : Env) (where_ : ActivityLog.t -> bool) : Prog nat :=
  if activityLogCountFails (faults env) then throw "activityLog.count failed"
  else gets (fun db => length (List.filter where_ (activityLogs db))).

(** [orderBy: { createdAt: 'desc' }]: rows with equal [createdAt] keep the
    most recently created one first. *)
Fixpoint insert_desc (x : ActivityLog.t) (l : list ActivityLog.t) : list ActivityLog.t :=
  match l with
  | [] => [x]
  | y :: l' =>
      if ActivityLog.createdAt y <=? ActivityLog.createdAt x
      then x :: l
      else y :: insert_desc x l'
  end.

Definition orderBy_createdAt_desc (l : list ActivityLog.t) : list ActivityLog.t :=
  List.fold_right insert_desc [] l.

(** [prisma.activityLog.findMany({ where, orderBy: { createdAt: 'desc' }, take })] *)
Definition activityLog_findMany (env : Env) (where_ : ActivityLog.t -> bool) (take_ : nat)
  : Prog (list ActivityLog.t) :=
  if activityLogFindManyFails (faults env) then throw "activityLog.findMany failed"
  else gets (fun db =>
               firstn take_ (orderBy_createdAt_desc (List.filter where_ (activityLogs db)))).

(** [prisma.notification.create({ data })] *)
Definition notification_create (env : Env) (n : Notification.t) : Prog unit :=
  if notificationCreateFails (faults env) then throw "notification.create failed"
  else modify (fun db => set_notifications (n :: notifications db) db).

(** [prisma.lease.findUnique({ where: { id } })] *)
Definition lease_findUnique (id : string) : Prog (option Lease.t) :=
  gets (fun db => leases db !! id).

(** [prisma.lease.update({ where: { id }, data })] returns the updated row and
    rejects when no such record exists. *)
Definition lease_update (id : string) (data : Lease.t -> Lease.t) : Prog Lease.t :=
  fun db =>
    match leases db !! id with
    | None => (Thrown "Record to update not found.", db)
    | Some l => (Returned (data l), set_leases (<[id := data l]> (leases db)) db)
    end.

(** ** [src/routes/auth.js] *)

Module AuthRoutes.
Section WithLibs.

Variable L : Libs.
Variable env : Env.

(** The action and status columns [logActivity] derives from [fullAction]. *)
Definition split_action (fullAction : string) : string * string :=
  if Js.includes fullAction "_SUCCESS" then (Js.replace fullAction "_SUCCESS" "", "SUCCESS")
  else if Js.includes fullAction "_FAILED" then (Js.replace fullAction "_FAILED" "", "FAILURE")
  else (fullAction, "INFO").

(** [req.ip || req.headers['x-forwarded-for'] || req.socket.remoteAddress] *)
Definition request_ip (req : Request) : Js.value :=
  Js.or (Js.or (req_ip req) (header_x_forwarded_for req)) (socket_remoteAddress req).

(** The row [logActivity] writes. *)
Definition log_entry (userId fullAction : string) (req : Request)
    (details : list (string * string)) : ActivityLog.t :=
  ActivityLog.mk userId (fst (split_action fullAction)) (snd (split_action fullAction))
    (Js.or_lit (request_ip req) "0.0.0.0")
    (Js.or_lit (header_user_agent req) "Unknown")
    details (now env).

Definition logActivity (userId fullAction : string) (req : Request)
    (details : list (string * string)) : Prog unit :=
  try_catch
    (activityLog_create env (log_entry userId fullAction req details))
    (fun _ => ret tt).

(** The [where] clause of the lockout count. *)
Definition is_recent_failure (userId : string) (l : ActivityLog.t) : bool :=
  String.eqb (ActivityLog.userId l) userId
  && String.eqb (ActivityLog.action l) "LOGIN"
  && String.eqb (ActivityLog.status l) "FAILURE"
  && (now env - 15 * 60 * 1000 <=? ActivityLog.createdAt l).

Definition isAccountLocked (userId : string) : Prog bool :=
  try_catch
    (let! failedLogins := activityLog_count env (is_recent_failure userId) in
     if (5 <=? failedLogins)%nat then ret true else ret false)
    (fun _ => ret false).

(** The [where] clause of the login history read. *)
Definition is_recent_success (userId : string) (l : ActivityLog.t) : bool :=
  String.eqb (ActivityLog.userId l) userId
  && String.eqb (ActivityLog.action l) "LOGIN"
  && String.eqb (ActivityLog.status l) "SUCCESS"
  && (now env - 30 * 24 * 60 * 60 * 1000 <=? ActivityLog.createdAt l).

Definition isNewDevice (req : Request) (previousHistory : list ActivityLog.t) : bool :=
  negb (existsb (fun log => Js.strict_eq (ActivityLog.userAgent log) (header_user_agent req))
          previousHistory).

Definition isNewIp (req : Request) (previousHistory : list ActivityLog.t) : bool :=
  negb (existsb (fun log => Js.strict_eq (ActivityLog.ipAddress log) (request_ip req))
          previousHistory).

Definition security_notification (user : User.t) (req : Request)
    (previousHistory : list ActivityLog.t) : Notification.t :=
  Notification.mk (User.id user) "Security Alert: New Sign-in"
    (if isNewDevice req previousHistory then "device" else "IP address")
    (request_ip req) (now env) "security".

(** The body of the zero-trust [try] block of [/login]. *)
Definition detect_new_context (user : User.t) (req : Request) : Prog unit :=
  let! recentLogins := activityLog_findMany env (is_recent_success (User.id user)) 20 in
  let previousHistory := List.tl recentLogins in   (* recentLogins.slice(1) *)
  if isNewDevice req previousHistory || isNewIp req previousHistory
  then notification_create env (security_notification user req previousHistory)
  else ret tt.

Definition token_for (user : User.t) : string :=
  jwt_sign L (mkJwtPayload (User.id user) (User.email user) (User.role user)).

(** [const { password: _, ...userWithoutPassword } = user] *)
Definition userWithoutPassword (user : User.t) : UserView :=
  mkUserView (User.id user) (User.email user) (User.name user) (User.role user)
    (User.isActive user) (User.mfaEnabled user) (Some (User.mfaSecret user)).

(** [const { password: _, mfaSecret: __, ...safeUser } = user] *)
Definition safeUser (user : User.t) : UserView :=
  mkUserView (User.id user) (User.email user) (User.name user) (User.role user)
    (User.isActive user) (User.mfaEnabled user) None.

(** The validation chain of [/login]:
    [body('email').isEmail().normalizeEmail(), body('password').notEmpty()].
    An absent field is validated as the empty string. *)
Definition login_valid (req : Request) : bool :=
  isEmail L (Js.or_lit (body_email req) "") && Js.truthy (body_password req).

Definition invalid_credentials : Response :=
  mkResponse 401 (BMessage false "Invalid credentials").

Definition account_locked : Response :=
  mkResponse 423 (BMessage false
    "Account temporarily locked due to repeated failed login attempts. Please try again in 15 minutes.").

Definition internal_error : Response :=
  mkResponse 500 (BMessage false "Internal server error").

(** [router.post('/login', ...)] *)
Definition login (req : Request) : Prog Response :=
  try_catch
    (if negb (login_valid req) then ret (mkResponse 400 BErrors) else
     let email := normalizeEmail L (Js.or_lit (body_email req) "") in
     let password := Js.or_lit (body_password req) "" in
     let! user := user_findUnique_email email in
     match user with
     | None => ret invalid_credentials
     | Some user =>
         if negb (User.isActive user) then ret invalid_credentials else
         let! locked := isAccountLocked (User.id user) in
         if locked then
           logActivity (User.id user) "LOGIN_BLOCKED" req [("reason", "account_locked")] ;;
           ret account_locked
         else
         if negb (bcrypt_compare L password (User.password user)) then
           logActivity (User.id user) "LOGIN_FAILED" req [("reason", "wrong_password")] ;;
           ret invalid_credentials
         else
         logActivity (User.id user) "LOGIN_SUCCESS" req [] ;;
         try_catch (detect_new_context user req) (fun _ => ret tt) ;;
         if User.mfaEnabled user then
           ret (mkResponse 200 (BMfaRequired (User.id user) "MFA required"))
         else
           ret (mkResponse 200
                  (BLogin "Login successful" (userWithoutPassword user) (token_for user)))
     end)
    (fun _ => ret internal_error).

(** [!user || !user.mfaEnabled || !user.mfaSecret] *)
Definition mfa_not_configured (user : option User.t) : bool :=
  match user with
  | None => true
  | Some user => negb (User.mfaEnabled user) || negb (Js.truthy (User.mfaSecret user))
  end.

(** [router.post('/mfa/login', ...)] *)
Definition mfa_login (req : Request) : Prog Response :=
  try_catch
    (if negb (Js.truthy (body_userId req)) || negb (Js.truthy (body_token req)) then
       ret (mkResponse 400 (BMessage false "userId and token are required"))
     else
     let userId := Js.or_lit (body_userId req) "" in
     let token := Js.or_lit (body_token req) "" in
     let! user := user_findUnique_id userId in
     if mfa_not_configured user then
       ret (mkResponse 400 (BMessage false "MFA not configured for this user"))
     else
     match user with
     | None => ret (mkResponse 400 (BMessage false "MFA not configured for this user"))
     | Some user =>
         let verified :=
           totp_verify L (Js.or_lit (User.mfaSecret user) "") token 2 (now env) in
         if negb verified then
           ret (mkResponse 401 (BMessage false "Invalid or expired MFA code"))
         else
           ret (mkResponse 200
                  (BLogin "Login successful with MFA" (safeUser user) (token_for user)))
     end)
    (fun _ => ret internal_error).

(** [!token || token.length !== 6] *)
Definition bad_code (token : Js.value) : bool :=
  negb (Js.truthy token) || negb (Nat.eqb (String.length (Js.or_lit token "")) 6).

Definition enable_mfa (u : User.t) : User.t :=
  User.mk (User.id u) (User.email u) (User.password u) (User.name u) (User.role u)
    (User.isActive u) true (User.mfaSecret u).

(** [router.post('/mfa/verify', auth, ...)] *)
Definition mfa_verify (req : Request) : Prog Response :=
  try_catch
    (if bad_code (body_token req) then
       ret (mkResponse 400 (BMessage false "Please provide a valid 6-digit code"))
     else
     let token := Js.or_lit (body_token req) "" in
     let! user := user_findUnique_id (req_user_id req) in
     match user with
     | Some user =>
         if Js.truthy (User.mfaSecret user) then
           let verified :=
             totp_verify L (Js.or_lit (User.mfaSecret user) "") token 2 (now env) in
           if verified then
             user_update (req_user_id req) enable_mfa ;;
             ret (mkResponse 200
                    (BMessage true "Two-Factor Authentication enabled successfully!"))
           else
             ret (mkResponse 400 (BMessage false "Invalid or expired code. Please try again."))
         else
           ret (mkResponse 400
                  (BMessage false "MFA setup not completed. Please generate a new QR code."))
     | None =>
         ret (mkResponse 400
                (BMessage false "MFA setup not completed. Please generate a new QR code."))
     end)
    (fun _ => ret (mkResponse 500
                     (BMessage false "Verification failed. Please try again later."))).

End WithLibs.
End AuthRoutes.

(** ** [src/routes/mfa.js] *)

Module MfaRoutes.
Section WithLibs.

Variable L : Libs.
Variable env : Env.

(** [logActivity] is neither defined nor imported in this file: evaluating
    the call throws a [ReferenceError]. *)
Definition logActivity (userId : Js.value) (fullAction : string) (req : Request)
    (details : list (string * string)) : Prog unit :=
  throw "logActivity is not defined".

(** [router.post('/verify', auth, ...)] *)
Definition verify (req : Request) : Prog Response :=
  try_catch
    (if AuthRoutes.bad_code (body_token req) then
       ret (mkResponse 400 (BMessage false "Enter a valid 6-digit code"))
     else
     let token := Js.or_lit (body_token req) "" in
     let! user := user_findUnique_id (req_user_id req) in
     match user with
     | Some user =>
         if Js.truthy (User.mfaSecret user) then
           let verified :=
             totp_verify L (Js.or_lit (User.mfaSecret user) "") token 6 (now env) in
           (* the record was read with [select: { mfaSecret: true }]: [user.id] is undefined *)
           logActivity None "LOGIN_SUCCESS" req [("mfa", "true")] ;;
           if verified then
             user_update (req_user_id req) AuthRoutes.enable_mfa ;;
             ret (mkResponse 200 (BMessage true "MFA enabled successfully!"))
           else
             ret (mkResponse 400
                    (BMessage false "Invalid code – try again or sync your device time"))
         else
           ret (mkResponse 400
                  (BMessage false "MFA setup not completed. Generate a new QR code."))
     | None =>
         ret (mkResponse 400
                (BMessage false "MFA setup not completed. Generate a new QR code."))
     end)
    (fun _ => ret (mkResponse 500 (BMessage false "Server error during verification"))).

End WithLibs.
End MfaRoutes.

(** ** [src/services/leases.service.js] and [src/routes/lease.js] *)

Module Leases.
Section WithEnv.

Variable env : Env.

(** The status [signLease] computes from the two flags. *)
Definition new_status (newTenantSigned newLandlordSigned : bool) : string :=
  if newTenantSigned && newLandlordSigned then "FULLY_SIGNED"
  else if newTenantSigned then "TENANT_SIGNED"
  else if newLandlordSigned then "LANDLORD_SIGNED"
  else "PENDING".

(** [lease.tenantSignature !== null] *)
Definition not_null {A} (v : option A) : bool :=
  match v with Some _ => true | None => false end.

(** The [data] of the update, computed from the row read at the start. *)
Definition signed (lease : Lease.t) (signature : Js.value) (userId : string)
    (row : Lease.t) : Lease.t :=
  let isTenant := String.eqb (Lease.tenantId lease) userId in
  let isLandlord := String.eqb (Lease.landlordId lease) userId in
  let currentTenantSigned := not_null (Lease.tenantSignature lease) in
  let currentLandlordSigned := not_null (Lease.landlordSignature lease) in
  let newTenantSigned := if isTenant then true else currentTenantSigned in
  let newLandlordSigned := if isLandlord then true else currentLandlordSigned in
  let newStatus := new_status newTenantSigned newLandlordSigned in
  Lease.mk (Lease.id row) (Lease.tenantId row) (Lease.landlordId row)
    (if isTenant then signature else Lease.tenantSignature lease)
    (if isLandlord then signature else Lease.landlordSignature lease)
    (if isTenant then Some (now env) else Lease.tenantSignedAt lease)
    (if isLandlord then Some (now env) else Lease.landlordSignedAt lease)
    newStatus.

(** [signLease(leaseId, signature, userId)] *)
Definition signLease (leaseId : string) (signature : Js.value) (userId : string)
  : Prog Lease.t :=
  let! lease := lease_findUnique leaseId in
  match lease with
  | None => throw "Lease not found"
  | Some lease =>
      let isTenant := String.eqb (Lease.tenantId lease) userId in
      let isLandlord := String.eqb (Lease.landlordId lease) userId in
      if negb isTenant && negb isLandlord then throw "UNAUTHORIZED"
      else lease_update leaseId (signed lease signature userId)
  end.

(** [router.post('/:id/sign', auth, ...)] *)
Definition sign_route (req : Request) : Prog Response :=
  try_catch
    (if negb (Js.truthy (body_signature req)) then
       ret (mkResponse 400 (BMessage false "Signature is required"))
     else
       let! result := signLease (params_id req) (body_signature req) (req_user_id req) in
       ret (mkResponse 200 (BLease "Signature saved successfully" result)))
    (fun message =>
       if String.eqb message "Lease not found" then
         ret (mkResponse 404 (BMessage false "Lease not found"))
       else if String.eqb message "UNAUTHORIZED" then
         ret (mkResponse 403 (BMessage false "You are not authorized to sign this lease"))
       else ret (mkResponse 500 (BMessage false "Internal Server Error"))).

End WithEnv.
End Leases.

(** * Notions used in the statements *)

(** The number of rows the lockout count sees. *)
Definition recent_failures (env : Env) (userId : string) (db : Db) : nat :=
  length (List.filter (AuthRoutes.is_recent_failure env userId) (activityLogs db)).

(** What [isAccountLocked] answers on a database. *)
Definition locked_out (env : Env) (userId : string) (db : Db) : bool :=
  if activityLogCountFails (faults env) then false
  else (5 <=? recent_failures env userId db)%nat.

(** The database after a call of [logActivity]. *)
Definition after_log (env : Env) (userId fullAction : string) (req : Request)
    (details : list (string * string)) (db : Db) : Db :=
  if activityLogCreateFails (faults env) then db
  else set_activityLogs
         (AuthRoutes.log_entry env userId fullAction req details :: activityLogs db) db.

(** The email the handler looks the user up with. *)
Definition login_email (L : Libs) (req : Request) : string :=
  normalizeEmail L (Js.or_lit (body_email req) "").

(** Whether the submitted password matches the stored hash. *)
Definition password_ok (L : Libs) (req : Request) (user : User.t) : bool :=
  bcrypt_compare L (Js.or_lit (body_password req) "") (User.password user).

(** The database after the zero-trust block, run on [db]. *)
Definition after_detection (env : Env) (user : User.t) (req : Request) (db : Db) : Db :=
  snd (try_catch (AuthRoutes.detect_new_context env user req) (fun _ => ret tt) db).

(** The response of a login that passed the password check. *)
Definition success_response (L : Libs) (user : User.t) : Response :=
  if User.mfaEnabled user
  then mkResponse 200 (BMfaRequired (User.id user) "MFA required")
  else mkResponse 200
         (BLogin "Login successful" (AuthRoutes.userWithoutPassword user)
            (AuthRoutes.token_for L user)).

(** [recentLogins.slice(1)] as the handler computes it on a database. *)
Definition previousHistory (env : Env) (userId : string) (db : Db) : list ActivityLog.t :=
  List.tl (firstn 20 (orderBy_createdAt_desc
                        (List.filter (AuthRoutes.is_recent_success env userId)
                           (activityLogs db)))).

(** Whether the handler sees a new context. *)
Definition new_context (env : Env) (user : User.t) (req : Request) (db : Db) : bool :=
  AuthRoutes.isNewDevice req (previousHistory env (User.id user) db)
  || AuthRoutes.isNewIp req (previousHistory env (User.id user) db).

(** The response of [/login], path by path. *)
Definition login_response (L : Libs) (env : Env) (req : Request) (db : Db) : Response :=
  if AuthRoutes.login_valid L req then
    match userByEmail db (login_email L req) with
    | None => AuthRoutes.invalid_credentials
    | Some user =>
        if User.isActive user then
          if locked_out env (User.id user) db then AuthRoutes.account_locked
          else if password_ok L req user then success_response L user
               else AuthRoutes.invalid_credentials
        else AuthRoutes.invalid_credentials
    end
  else mkResponse 400 BErrors.

(** The one-time code of a request verifies against the secret stored for
    the signed-in user, within [window] time steps. *)
Definition code_verifies (L : Libs) (env : Env) (window : nat) (req : Request) (db : Db) : bool :=
  match userById db (req_user_id req) with
  | Some user =>
      Js.truthy (User.mfaSecret user)
      && totp_verify L (Js.or_lit (User.mfaSecret user) "") (Js.or_lit (body_token req) "")
           window (now env)
  | None => false
  end.


(** The libraries with another password comparison. *)
Definition with_bcrypt (L : Libs) (cmp : string -> string -> bool) : Libs :=
  mkLibs (isEmail L) (normalizeEmail L) cmp (jwt_sign L) (totp_verify L).

(** Whether a response carries a bearer token. *)
Definition carries_token (r : Response) : bool :=
  match body r with
  | BLogin _ _ _ => true
  | _ => false
  end.

(** The database after [user.update({ where: { id }, data: { mfaEnabled: true } })]. *)
Definition enable_mfa_for (id : string) (db : Db) : Db :=
  set_users (List.map (fun u => if String.eqb (User.id u) id then AuthRoutes.enable_mfa u else u)
               (users db)) db.

(** The faults with the three writes and reads around a login all working
    but the lockout count as in [f]. *)
Definition only_count_fault (f : Faults) : Faults :=
  mkFaults false (activityLogCountFails f) false false.

(** Whether [userId] is a party of the lease. *)
Definition is_party (lease : Lease.t) (userId : string) : bool :=
  String.eqb (Lease.tenantId lease) userId || String.eqb (Lease.landlordId lease) userId.

(** The rule of the specification: the status as a function of the two
    signature-presence flags. *)
Definition spec_status (tenantSigned landlordSigned : bool) : string :=
  match tenantSigned, landlordSigned with
  | true, true => "FULLY_SIGNED"
  | true, false => "TENANT_SIGNED"
  | false, true => "LANDLORD_SIGNED"
  | false, false => "PENDING"
  end.

(** A lease whose status field agrees with its two signatures. *)
Definition status_consistent (lease : Lease.t) : Prop :=
  Lease.signatureStatus lease =
  spec_status (Leases.not_null (Lease.tenantSignature lease))
    (Leases.not_null (Lease.landlordSignature lease)).

(** Everything of a lease row but the tenant's signature, the tenant's
    timestamp and the status. *)
Definition same_but_tenant_side (old new : Lease.t) : Prop :=
  Lease.id new = Lease.id old
  /\ Lease.tenantId new = Lease.tenantId old
  /\ Lease.landlordId new = Lease.landlordId old
  /\ Lease.landlordSignature new = Lease.landlordSignature old
  /\ Lease.landlordSignedAt new = Lease.landlordSignedAt old.

(** Everything of a lease row but the landlord's signature, the landlord's
    timestamp and the status. *)
Definition same_but_landlord_side (old new : Lease.t) : Prop :=
  Lease.id new = Lease.id old
  /\ Lease.tenantId new = Lease.tenantId old
  /\ Lease.landlordId new = Lease.landlordId old
  /\ Lease.tenantSignature new = Lease.tenantSignature old
  /\ Lease.tenantSignedAt new = Lease.tenantSignedAt old.

(** ** Sample data *)

Module Sample.

(** One behaviour of the libraries: an address is valid when it has an
    [@], is normalised to itself, a hash is the password itself, a token
    names its user, and the one-time code is [123456]. *)
Definition libs : Libs :=
  mkLibs (fun s => Js.includes s "@") (fun s => s) String.eqb
    (fun p => String.append "jwt." (jwt_userId p))
    (fun secret token window time => String.eqb token "123456").

Definition t0 : Z := 1700000000000.

Definition env : Env := mkEnv t0 noFaults.

Definition alice : User.t :=
  User.mk "u1" "alice@example.com" "correct horse" "Alice" "USER" true false None.

(** Alice with MFA switched on. *)
Definition alice_mfa : User.t :=
  User.mk "u1" "alice@example.com" "correct horse" "Alice" "USER" true true
    (Some "JBSWY3DPEHPK3PXP").

(** Alice after MFA setup, before verification: the secret is stored,
    MFA is not switched on yet. *)
Definition alice_setup : User.t :=
  User.mk "u1" "alice@example.com" "correct horse" "Alice" "USER" true false
    (Some "JBSWY3DPEHPK3PXP").

(** Alice deactivated. *)
Definition alice_inactive : User.t :=
  User.mk "u1" "alice@example.com" "correct horse" "Alice" "USER" false false None.

(** Alice deactivated, with MFA switched on. *)
Definition alice_inactive_mfa : User.t :=
  User.mk "u1" "alice@example.com" "correct horse" "Alice" "USER" false true
    (Some "JBSWY3DPEHPK3PXP").

Definition failure (userId : string) (createdAt : Z) : ActivityLog.t :=
  ActivityLog.mk userId "LOGIN" "FAILURE" "10.0.0.1" "Firefox"
    [("reason", "wrong_password")] createdAt.

Definition success (userId ip userAgent : string) (createdAt : Z) : ActivityLog.t :=
  ActivityLog.mk userId "LOGIN" "SUCCESS" ip userAgent [] createdAt.

(** Five wrong passwords within the last five seconds. *)
Definition five_failures (userId : string) : list ActivityLog.t :=
  [failure userId (t0 - 1000); failure userId (t0 - 2000); failure userId (t0 - 3000);
   failure userId (t0 - 4000); failure userId (t0 - 5000)].

Definition db_of (u : User.t) (logs : list ActivityLog.t) : Db :=
  mkDb [u] logs [] ∅.

(** A login request with the given credentials, address and browser. *)
Definition login_request (email password ip userAgent : string) : Request :=
  mkRequest (Some email) (Some password) None None None ""
    (Some ip) (Some userAgent) None None "".

(** A request to [/mfa/login]. *)
Definition mfa_request (userId token : string) : Request :=
  mkRequest None None (Some userId) (Some token) None ""
    (Some "10.0.0.1") (Some "Firefox") None None "".

(** A request of the signed-in user [userId] carrying a one-time code. *)
Definition code_request (userId token : string) : Request :=
  mkRequest None None None (Some token) None ""
    (Some "10.0.0.1") (Some "Firefox") None None userId.

(** A request of the signed-in user [userId] to sign lease [leaseId]. *)
Definition sign_request (leaseId userId : string) (signature : Js.value) : Request :=
  mkRequest None None None None signature leaseId
    (Some "10.0.0.1") (Some "Firefox") None None userId.

(** An unsigned lease between two different people. *)
Definition lease1 : Lease.t :=
  Lease.mk "l1" "tenant1" "landlord1" None None None None "PENDING".

Definition db_lease (lease : Lease.t) : Db :=
  mkDb [] [] [] {[ Lease.id lease := lease ]}.

End Sample.

(** * More of [src/routes/auth.js] and [src/routes/mfa.js] *)

(** What [speakeasy.generateSecret] returns: fresh randomness, an input of
    the handler. *)
Record GeneratedSecret := mkGeneratedSecret {
  base32 : string;
  otpauth_url : string
}.

(** More third-party calls. *)
Record MoreLibs := mkMoreLibs {
  jwt_verify : string -> option JwtPayload;      (* [None]: jwt.verify throws *)
  qrcode_toDataURL : string -> option string     (* [None]: QRCode.toDataURL rejects *)
}.

(** [req.user] as the [auth] middleware selects it. *)
Record RequestUser := mkRequestUser {
  ru_id : string;
  ru_email : string;
  ru_name : string;
  ru_role : string;
  ru_isActive : bool;
  ru_mfaEnabled : bool
}.

(** What a middleware does: call [next()] with [req.user] set, or answer.
    [Denied m] is the response [{ success: false, message: m }] with the
    status of the middleware (401 for [auth], 403 for [authorize]). *)
Inductive Admission :=
| Next (user : RequestUser)
| Denied (message : string).

Inductive Payload :=
| PMessage (success : bool) (message : string)   (* { success, message } *)
| PError (error : string)                        (* { error } *)
| PSetup (qrCode secret message : string)        (* { qrCode, secret, message } *)
| PUser (user : User.t) (select : list string).  (* { success: true, data: { user } }, the row
                                                    restricted to the selected columns *)

Record Reply := mkReply {
  replyStatus : nat;
  payload : Payload
}.

Module AuthMiddleware.
Section WithLibs.

Variable M : MoreLibs.

(** [req.headers.authorization?.replace('Bearer ', '')] *)
Definition bearer_token (authorization : Js.value) : Js.value :=
  match authorization with
  | Some header => Some (Js.replace header "Bearer " "")
  | None => None
  end.

(** The [select] of the middleware. *)
Definition selected (user : User.t) : RequestUser :=
  mkRequestUser (User.id user) (User.email user) (User.name user) (User.role user)
    (User.isActive user) (User.mfaEnabled user).

(** [const auth = async (req, res, next) => ...] *)
Definition auth (authorization : Js.value) : Prog Admission :=
  try_catch
    (let token := bearer_token authorization in
     if negb (Js.truthy token) then ret (Denied "Access denied. No token provided.") else
     match jwt_verify M (Js.or_lit token "") with
     | None => throw "invalid token"
     | Some decoded =>
         let! user := user_findUnique_id (jwt_userId decoded) in
         match user with
         | None => ret (Denied "Access denied. User not found or inactive.")
         | Some user =>
             if negb (User.isActive user)
             then ret (Denied "Access denied. User not found or inactive.")
             else ret (Next (selected user))
         end
     end)
    (fun _ => ret (Denied "Access denied. Invalid token.")).

(** [const authorize = (...roles) => (req, res, next) => ...], on the
    [req.user] a preceding middleware has set, if any. *)
Definition authorize (roles : list string) (user : option RequestUser) : Admission :=
  match user with
  | None => Denied "Access denied. Insufficient permissions."
  | Some user =>
      if negb (existsb (String.eqb (ru_role user)) roles)
      then Denied "Access denied. Insufficient permissions."
      else Next user
  end.

(** [router.get('/me', ...)] *)
Definition me (authorization : Js.value) : Prog Reply :=
  try_catch
    (let token := bearer_token authorization in
     if negb (Js.truthy token) then ret (mkReply 401 (PMessage false "No token")) else
     match jwt_verify M (Js.or_lit token "") with
     | None => throw "invalid token"
     | Some decoded =>
         let! user := user_findUnique_id (jwt_userId decoded) in
         match user with
         | None => ret (mkReply 401 (PMessage false "User not found"))
         | Some user =>
             ret (mkReply 200
                    (PUser user ["id"; "email"; "firstName"; "lastName"; "role"; "isActive"]))
         end
     end)
    (fun _ => ret (mkReply 401 (PMessage false "Invalid token"))).

End WithLibs.
End AuthMiddleware.

(** [data: { mfaSecret: secret.base32 }] *)
Definition store_secret (secret : string) (u : User.t) : User.t :=
  User.mk (User.id u) (User.email u) (User.password u) (User.name u) (User.role u)
    (User.isActive u) (User.mfaEnabled u) (Some secret).

(** [data: { mfaEnabled: false, mfaSecret: null }] *)
Definition clear_mfa (u : User.t) : User.t :=
  User.mk (User.id u) (User.email u) (User.password u) (User.name u) (User.role u)
    (User.isActive u) false None.

(** The MFA setup and disable handlers of [auth.js], run after [auth]. *)
Module AuthMfa.
Section WithLibs.

Variable M : MoreLibs.

(** [router.get('/mfa/setup', auth, ...)] *)
Definition mfa_setup (generated : GeneratedSecret) (req : Request) : Prog Reply :=
  try_catch
    (user_update (req_user_id req) (store_secret (base32 generated)) ;;
     match qrcode_toDataURL M (otpauth_url generated) with
     | None => throw "QRCode.toDataURL failed"
     | Some qrCodeUrl =>
         ret (mkReply 200
                (PSetup qrCodeUrl (base32 generated) "Scan QR code with authenticator app"))
     end)
    (fun _ => ret (mkReply 500 (PError "Failed to generate MFA setup"))).

(** [router.post('/mfa/disable', auth, ...)] *)
Definition mfa_disable (req : Request) : Prog Reply :=
  try_catch
    (user_update (req_user_id req) clear_mfa ;;
     ret (mkReply 200 (PMessage true "Two-Factor Authentication has been disabled.")))
    (fun _ => ret (mkReply 500
                     (PMessage false "Failed to disable MFA. Please try again later."))).

End WithLibs.
End AuthMfa.

(** The setup and disable handlers of [mfa.js], run after [auth]. *)
Module MfaFile.
Section WithLibs.

Variable M : MoreLibs.

(** [router.get('/setup', auth, ...)] *)
Definition setup (generated : GeneratedSecret) (req : Request) : Prog Reply :=
  try_catch
    (user_update (req_user_id req) (store_secret (base32 generated)) ;;
     match qrcode_toDataURL M (otpauth_url generated) with
     | None => throw "QRCode.toDataURL failed"
     | Some qrUrl =>
         ret (mkReply 200
                (PSetup qrUrl (base32 generated) "Scan with your authenticator app"))
     end)
    (fun _ => ret (mkReply 500 (PError "Failed to generate MFA setup"))).

(** [router.post('/disable', auth, ...)] *)
Definition disable (req : Request) : Prog Reply :=
  try_catch
    (user_update (req_user_id req) clear_mfa ;;
     ret (mkReply 200 (PMessage true "MFA disabled")))
    (fun _ => ret (mkReply 500 (PError "Failed to disable MFA"))).

End WithLibs.
End MfaFile.

(** The database after [user.update({ where: { id }, data })]. *)
Definition update_user_row (id : string) (data : User.t -> User.t) (db : Db) : Db :=
  set_users (List.map (fun u => if String.eqb (User.id u) id then data u else u) (users db)) db.

(** * Handlers over other states *)

(** The monad of handlers over a state [S]. *)
Definition ProgOn (S A : Type) := S -> Outcome A * S.

Definition ret_on {S A} (a : A) : ProgOn S A := fun s => (Returned a, s).

Definition throw_on {S A} (message : string) : ProgOn S A := fun s => (Thrown message, s).

Definition bind_on {S A B} (p : ProgOn S A) (k : A -> ProgOn S B) : ProgOn S B :=
  fun s =>
    match p s with
    | (Returned a, s') => k a s'
    | (Thrown e, s') => (Thrown e, s')
    end.

(** [try { p } catch (error) { h error.message }] *)
Definition try_on {S A} (p : ProgOn S A) (h : string -> ProgOn S A) : ProgOn S A :=
  fun s =>
    match p s with
    | (Returned a, s') => (Returned a, s')
    | (Thrown e, s') => h e s'
    end.

Definition gets_on {S A} (f : S -> A) : ProgOn S A := fun s => (Returned (f s), s).

Definition modify_on {S} (f : S -> S) : ProgOn S unit := fun s => (Returned tt, f s).

Declare Scope on_scope.
Delimit Scope on_scope with on.
Notation "'let*' x ':=' p 'in' k" := (bind_on p (fun x => k))
  (at level 10, x name, p at level 100, k at level 200) : on_scope.
Notation "p ';;;' k" := (bind_on p (fun _ => k))
  (at level 100, k at level 200, right associativity) : on_scope.

(** ** [src/services/monitoring.service.js] *)

Module SecurityAlert.
(** The [message] is a template literal; its interpolated parts, the count
    and the address, are kept apart. *)
Record t := mk {
  userId : string;
  type : string;
  severity : string;
  failedAttempts : nat;
  ipAddress : string
}.
End SecurityAlert.

(** The activity log with the table of security alerts. *)
Record Store := mkStore {
  logs : list ActivityLog.t;         (* most recently created row first *)
  securityAlerts : list SecurityAlert.t
}.

(** The time of a call of the service and which of its queries fail. *)
Record ServiceEnv := mkServiceEnv {
  service_now : Z;
  logCreateFails : bool;
  logCountFails : bool;
  alertCreateFails : bool
}.

Module Monitoring.
Section WithEnv.

Local Open Scope on_scope.

Variable env : ServiceEnv.

(** [createAlert({ userId, type, severity, message })] *)
Definition createAlert (userId type severity : string) (failedAttempts : nat)
    (ipAddress : string) : ProgOn Store unit :=
  try_on
    (if alertCreateFails env then throw_on "securityAlert.create failed"
     else modify_on (fun s =>
            mkStore (logs s)
              (SecurityAlert.mk userId type severity failedAttempts ipAddress
                 :: securityAlerts s)))
    (fun _ => ret_on tt).

Definition windowMinutes : Z := 15.

Definition maxAttempts : nat := 5.

(** The [where] clause of the count. *)
Definition is_recent_ip_failure (ipAddress : string) (l : ActivityLog.t) : bool :=
  String.eqb (ActivityLog.ipAddress l) ipAddress
  && String.eqb (ActivityLog.action l) "LOGIN"
  && String.eqb (ActivityLog.status l) "FAILURE"
  && (service_now env - windowMinutes * 60 * 1000 <=? ActivityLog.createdAt l).

(** [checkBruteForce(ipAddress, userId)] *)
Definition checkBruteForce (ipAddress userId : string) : ProgOn Store unit :=
  try_on
    (let* failedAttempts :=
       (if logCountFails env then throw_on "activityLog.count failed"
        else gets_on (fun s => length (List.filter (is_recent_ip_failure ipAddress) (logs s)))) in
     if (maxAttempts <=? failedAttempts)%nat
     then createAlert userId "BRUTE_FORCE_ATTACK" "HIGH" failedAttempts ipAddress
     else ret_on tt)
    (fun _ => ret_on tt).

(** [logActivity({ userId, action, status, ipAddress, userAgent, details })],
    for callers that pass an address and a user agent. *)
Definition logActivity (userId action status ipAddress userAgent : string)
    (details : list (string * string)) : ProgOn Store unit :=
  try_on
    ((if logCreateFails env then throw_on "activityLog.create failed"
      else modify_on (fun s =>
             mkStore
               (ActivityLog.mk userId action status ipAddress userAgent details
                  (service_now env) :: logs s)
               (securityAlerts s))) ;;;
     if String.eqb action "LOGIN" && String.eqb status "FAILURE"
     then checkBruteForce ipAddress userId
     else ret_on tt)
    (fun _ => ret_on tt).

(** Failed logins reported to the service one after the other, from one
    address, for the users listed. *)
Fixpoint report_failures (ipAddress userAgent : string) (userIds : list string)
  : ProgOn Store unit :=
  match userIds with
  | [] => ret_on tt
  | userId :: rest =>
      logActivity userId "LOGIN" "FAILURE" ipAddress userAgent [] ;;;
      report_failures ipAddress userAgent rest
  end.

End WithEnv.
End Monitoring.

(** The number of rows the brute-force count sees for an address. *)
Definition recent_ip_failures (env : ServiceEnv) (ipAddress : string) (s : Store) : nat :=
  length (List.filter (Monitoring.is_recent_ip_failure env ipAddress) (logs s)).

(** The row the service writes. *)
Definition service_row (env : ServiceEnv) (userId action status ip userAgent : string)
    (details : list (string * string)) : ActivityLog.t :=
  ActivityLog.mk userId action status ip userAgent details (service_now env).

(** ** OAuth callbacks of [src/routes/auth.js] *)

Module OAuthCallbacks.
Section WithLibs.

Variable L : Libs.

(** [process.env.FRONTEND_URL] *)
Variable frontend_url : Js.value.

(** [process.env.FRONTEND_URL || 'http://localhost:3000'] *)
Definition frontend : string := Js.or_lit frontend_url "http://localhost:3000".

(** The handler behind [passport.authenticate(provider, { session: false })]
    in [router.get('/<provider>/callback', ...)], on the [req.user] passport
    has set ([None]: none); the four handlers differ in the provider name
    only.  The result is the address of [res.redirect].  The handler reads
    [id], [email] and [role] of [req.user] and nothing else: neither the
    request body, nor the database, nor [mfaEnabled].  [jwt.sign] returns, as
    in [/login], so the handler's [catch] (a redirect to
    [/login?error=oauth_error]) is not entered. *)
Definition callback (provider : string) (req_user : option User.t) : string :=
  match req_user with
  | None => frontend +:+ "/login?error=oauth_failed"
  | Some user =>
      let token := AuthRoutes.token_for L user in
      frontend +:+ "/auth/callback?token=" +:+ token +:+ "&provider=" +:+ provider
  end.

(** [router.get('/google/callback', ...)] *)
Definition google_callback : option User.t -> string := callback "google".

(** [router.get('/facebook/callback', ...)] *)
Definition facebook_callback : option User.t -> string := callback "facebook".

(** [router.get('/github/callback', ...)] *)
Definition github_callback : option User.t -> string := callback "github".

(** [router.get('/twitter/callback', ...)] *)
Definition twitter_callback : option User.t -> string := callback "twitter".

End WithLibs.
End OAuthCallbacks.

(** ** OAuth link and unlink of [src/routes/auth.js] *)

(** The user table is here a map from the primary key to the row.  A user
    row as these handlers see it: the provider-id columns
    ([googleId], [facebookId], [appleId], [githubId], [twitterId]) that are
    not null, by column name, and the other columns, which they pass on. *)
Record Account (R : Type) := mkAccount {
  providerIds : gmap string string;
  columns : R
}.
Arguments mkAccount {R} providerIds columns.
Arguments providerIds {R} a.
Arguments columns {R} a.

Inductive OAuthPayload (R : Type) :=
| OMessage (success : bool) (message : string)   (* { success, message } *)
| OUser (message : string) (user : Account R).   (* { success: true, message, data: { user } } *)
Arguments OMessage {R} success message.
Arguments OUser {R} message user.

Record OAuthReply (R : Type) := mkOAuthReply {
  oauthStatus : nat;
  oauthPayload : OAuthPayload R
}.
Arguments mkOAuthReply {R} oauthStatus oauthPayload.
Arguments oauthStatus {R} o.
Arguments oauthPayload {R} o.

Module OAuth.
Section WithLibs.

Local Open Scope on_scope.

Context {R : Type}.
Variable M : MoreLibs.

Definition providers : list string := ["google"; "facebook"; "apple"; "github"; "twitter"].

(** Whether [prisma.user.findFirst({ where: { [fieldName]: providerId,
    id: { not: userId } } })] finds a row. *)
Definition linked_to_other (fieldName providerId userId : string) (m : gmap string (Account R)) : bool :=
  existsb (fun kr => negb (String.eqb (fst kr) userId)
                     && bool_decide (providerIds (snd kr) !! fieldName = Some providerId))
    (map_to_list m).

(** [prisma.user.update({ where: { id }, data })]: the updated row; it
    rejects when no such record exists. *)
Definition account_update (id : string) (data : gmap string string -> gmap string string)
  : ProgOn (gmap string (Account R)) (Account R) :=
  fun m =>
    match m !! id with
    | None => (Thrown "Record to update not found.", m)
    | Some a =>
        let a' := mkAccount (data (providerIds a)) (columns a) in
        (Returned a', <[id := a']> m)
    end.

Definition message (success : bool) (status : nat) (text : string) : OAuthReply R :=
  mkOAuthReply status (OMessage success text).

(** [router.post('/oauth/link', ...)] *)
Definition link (authorization provider providerId : Js.value) : ProgOn (gmap string (Account R)) (OAuthReply R) :=
  try_on
    (let token := AuthMiddleware.bearer_token authorization in
     if negb (Js.truthy token) then ret_on (message false 401 "No token provided") else
     match jwt_verify M (Js.or_lit token "") with
     | None => throw_on "invalid token"
     | Some decoded =>
         if negb (Js.truthy provider) || negb (Js.truthy providerId) then
           ret_on (message false 400 "Provider and providerId are required")
         else
         let provider := Js.or_lit provider "" in
         let providerId := Js.or_lit providerId "" in
         if negb (existsb (String.eqb provider) providers) then
           ret_on (message false 400 "Invalid provider")
         else
         let fieldName := String.append provider "Id" in
         let* existingUser :=
           gets_on (linked_to_other fieldName providerId (jwt_userId decoded)) in
         if existingUser then
           ret_on (message false 409
                     (String.append "This "
                        (String.append provider " account is already linked to another user")))
         else
         let* updatedUser :=
           account_update (jwt_userId decoded) (fun ids => <[fieldName := providerId]> ids) in
         ret_on (mkOAuthReply 200
                   (OUser (String.append provider " account linked successfully") updatedUser))
     end)
    (fun _ => ret_on (message false 500 "Internal server error")).

(** [router.post('/oauth/unlink', ...)] *)
Definition unlink (authorization provider : Js.value) : ProgOn (gmap string (Account R)) (OAuthReply R) :=
  try_on
    (let token := AuthMiddleware.bearer_token authorization in
     if negb (Js.truthy token) then ret_on (message false 401 "No token provided") else
     match jwt_verify M (Js.or_lit token "") with
     | None => throw_on "invalid token"
     | Some decoded =>
         if negb (Js.truthy provider) then ret_on (message false 400 "Provider is required") else
         let provider := Js.or_lit provider "" in
         if negb (existsb (String.eqb provider) providers) then
           ret_on (message false 400 "Invalid provider")
         else
         let fieldName := String.append provider "Id" in
         let* updatedUser :=
           account_update (jwt_userId decoded) (fun ids => delete fieldName ids) in
         ret_on (mkOAuthReply 200
                   (OUser (String.append provider " account unlinked successfully") updatedUser))
     end)
    (fun _ => ret_on (message false 500 "Internal server error")).

End WithLibs.
End OAuth.

(** No provider id is held by two users. *)
Definition ids_unique {R} (m : gmap string (Account R)) : Prop :=
  forall fieldName k1 k2 a1 a2 providerId,
    m !! k1 = Some a1 -> m !! k2 = Some a2 ->
    providerIds a1 !! fieldName = Some providerId ->
    providerIds a2 !! fieldName = Some providerId ->
    k1 = k2.

(** The token a header carries, as a string. *)
Definition bearer_of (authorization : Js.value) : string :=
  Js.or_lit (AuthMiddleware.bearer_token authorization) "".

(** ** [updateProfile] of [src/modules/users/users.controller.js] *)

(** A value of a JSON body, over a type [Num] of numbers. *)
Inductive Json (Num : Type) :=
| JNull
| JBool (b : bool)
| JNumber (n : Num)
| JString (s : string)
| JObject.                 (* an object or an array *)
Arguments JNull {Num}.
Arguments JBool {Num} b.
Arguments JNumber {Num} n.
Arguments JString {Num} s.
Arguments JObject {Num}.

Module UsersController.
Section WithDates.

Context {Num : Type}.
Variable is_zero : Num -> bool.                     (* 0, -0 *)
Variable date_of_string : string -> option string.  (* [new Date(s).toISOString()]; [None]: an invalid date *)
Variable date_of_number : Num -> option string.     (* [new Date(n).toISOString()]; [None]: an invalid date *)

Definition allowedFields : list string :=
  ["firstName"; "lastName"; "dateOfBirth"; "phone"; "profilePicture"].

(** [if (dateValue)] *)
Definition json_truthy (v : Json Num) : bool :=
  match v with
  | JNull => false
  | JBool b => b
  | JNumber n => negb (is_zero n)
  | JString s => negb (String.eqb s "")
  | JObject => true
  end.

(** The [dateOfBirth] branch of the loop body. *)
Definition dateOfBirth_value (dateValue : Json Num) : Outcome (Json Num) :=
  if json_truthy dateValue then
    let parsedDate :=
      match dateValue with
      | JString s =>
          if Js.includes s "T" then date_of_string s
          else date_of_string (String.append s "T00:00:00.000Z")
      | JNumber n => date_of_number n
      | _ => None
      end in
    match parsedDate with
    | None => Thrown "Invalid date format."
    | Some iso => Returned (JString iso)
    end
  else Returned JNull.

(** [allowedFields.forEach(field => ...)] filling [profileUpdateData], whose
    entries are listed in the order they are set. *)
Fixpoint collect (fields : list string) (updateData : gmap string (Json Num))
  : Outcome (list (string * Json Num)) :=
  match fields with
  | [] => Returned []
  | field :: rest =>
      match updateData !! field with
      | None => collect rest updateData
      | Some value =>
          let entry :=
            if String.eqb field "dateOfBirth" then dateOfBirth_value value
            else Returned value in
          match entry with
          | Thrown e => Thrown e
          | Returned v =>
              match collect rest updateData with
              | Thrown e => Thrown e
              | Returned data => Returned ((field, v) :: data)
              end
          end
      end
  end.

(** The [profileUpdateData] that [updateProfile] passes to the users
    service, or the error thrown while building it. *)
Definition profileUpdateData (updateData : gmap string (Json Num))
  : Outcome (list (string * Json Num)) :=
  collect allowedFields updateData.

End WithDates.
End UsersController.

(** * Sequences of login attempts *)

(** Login attempts made one after the other, each at its own time and with
    its own faults: the responses in order, and the database at the end. *)
Fixpoint attempts (L : Libs) (steps : list (Env * Request)) (db : Db)
  : list (Outcome Response) * Db :=
  match steps with
  | [] => ([], db)
  | (env, req) :: rest =>
      let '(r, db1) := AuthRoutes.login L env req db in
      let '(rs, db2) := attempts L rest db1 in
      (r :: rs, db2)
  end.

(** A LOGIN/FAILURE row of the user, whatever its age. *)
Definition is_failure_row (userId : string) (l : ActivityLog.t) : bool :=
  String.eqb (ActivityLog.userId l) userId
  && String.eqb (ActivityLog.action l) "LOGIN"
  && String.eqb (ActivityLog.status l) "FAILURE".

(** The times of the failed logins on record for the user, newest row first. *)
Definition failure_times (userId : string) (db : Db) : list Z :=
  List.map ActivityLog.createdAt (List.filter (is_failure_row userId) (activityLogs db)).

(** An attempt with a wrong password for [user]. *)
Definition wrong_password (L : Libs) (user : User.t) (step : Env * Request) : bool :=
  negb (password_ok L (snd step) user).

(** ** Sample sequences *)

Module Cases.

(** The environment at time [t], without faults. *)
Definition at_time (t : Z) : Env := mkEnv t noFaults.

Definition good : Request :=
  Sample.login_request "alice@example.com" "correct horse" "10.0.0.1" "Firefox".

Definition bad : Request :=
  Sample.login_request "alice@example.com" "guess" "10.0.0.1" "Firefox".

(** The correct credentials from a client that sends no User-Agent header. *)
Definition no_agent : Request :=
  mkRequest (Some "alice@example.com") (Some "correct horse") None None None ""
    (Some "10.0.0.1") None None None "".

(** Two wrong passwords, the correct one, three more wrong ones, a minute
    apart, the last one a minute before [Sample.t0]. *)
Definition six_attempts : list (Env * Request) :=
  [(at_time (Sample.t0 - 360000), bad); (at_time (Sample.t0 - 300000), bad);
   (at_time (Sample.t0 - 240000), good); (at_time (Sample.t0 - 180000), bad);
   (at_time (Sample.t0 - 120000), bad); (at_time (Sample.t0 - 60000), bad)].

(** Three attempts within three seconds. *)
Definition three_attempts : list (Env * Request) :=
  [(at_time Sample.t0, good); (at_time (Sample.t0 + 1000), bad);
   (at_time (Sample.t0 + 2000), good)].

(** More library behaviour: a token [jwt.<id>] verifies and names the user
    [<id>]; a QR code can always be drawn. *)
Definition more : MoreLibs :=
  mkMoreLibs
    (fun t => if String.prefix "jwt." t
              then Some (mkJwtPayload (String.substring 4 (String.length t - 4) t) "" "")
              else None)
    (fun url => Some (String.append "data:image/png;base64," url)).

(** The same, with a QR code that cannot be drawn. *)
Definition no_qr : MoreLibs := mkMoreLibs (jwt_verify more) (fun _ => None).

Definition generated : GeneratedSecret :=
  mkGeneratedSecret "KRSXG5CTMVRXEZLU" "otpauth://totp/Rentverse?secret=KRSXG5CTMVRXEZLU".

(** The signed-in user [u1], asking for setup or disable. *)
Definition as_u1 : Request := Sample.code_request "u1" "".

Definition service_env : ServiceEnv := mkServiceEnv Sample.t0 false false false.

(** One user without linked providers. *)
Definition one_account : gmap string (Account unit) := {[ "u1" := mkAccount ∅ tt ]}.

(** Two users, the second linked to the Google account [g-2]. *)
Definition two_accounts : gmap string (Account unit) :=
  {[ "u1" := mkAccount ∅ tt; "u2" := mkAccount {[ "googleId" := "g-2" ]} tt ]}.

(** A body that also asks for a role. *)
Definition profile_body : gmap string (Json Z) :=
  {[ "firstName" := JString "Al"; "role" := JString "ADMIN"; "phone" := JNull ]}.

End Cases.

(** * Properties *)

(** ** Running the monitoring helpers *)

Section Helpers.

Variable env : Env.

Lemma split_action_blocked :
  AuthRoutes.split_action "LOGIN_BLOCKED" = ("LOGIN_BLOCKED", "INFO").
Proof. reflexivity. Qed.

Lemma split_action_failed :
  AuthRoutes.split_action "LOGIN_FAILED" = ("LOGIN", "FAILURE").
Proof. reflexivity. Qed.

Lemma split_action_success :
  AuthRoutes.split_action "LOGIN_SUCCESS" = ("LOGIN", "SUCCESS").
Proof. reflexivity. Qed.

(** [logActivity] always returns normally; it adds its row unless the
    write fails. *)
Lemma logActivity_run userId fullAction req details db :
  AuthRoutes.logActivity env userId fullAction req details db =
  (Returned tt,
   if activityLogCreateFails (faults env) then db
   else set_activityLogs
          (AuthRoutes.log_entry env userId fullAction req details :: activityLogs db) db).
Proof.
  unfold AuthRoutes.logActivity, try_catch, activityLog_create.
  destruct (activityLogCreateFails (faults env)); reflexivity.
Qed.

(** [isAccountLocked] always returns normally and leaves the database as
    it is. *)
Lemma isAccountLocked_run userId db :
  AuthRoutes.isAccountLocked env userId db =
  (Returned (if activityLogCountFails (faults env) then false
             else (5 <=? recent_failures env userId db)%nat), db).
Proof.
  unfold AuthRoutes.isAccountLocked, try_catch, bind, activityLog_count, recent_failures.
  destruct (activityLogCountFails (faults env)); [reflexivity|].
  unfold gets, ret.
  match goal with |- context [Nat.leb ?a ?b] => destruct (Nat.leb a b) end; reflexivity.
Qed.

(** A row whose action is not [LOGIN] or whose status is not [FAILURE] is
    not counted. *)
Lemma recent_failures_cons userId l db :
  AuthRoutes.is_recent_failure env userId l = false ->
  recent_failures env userId (set_activityLogs (l :: activityLogs db) db) =
  recent_failures env userId db.
Proof. intros H. unfold recent_failures. cbn. rewrite H. reflexivity. Qed.

Lemma blocked_entry_not_counted userId uid req details :
  AuthRoutes.is_recent_failure env userId
    (AuthRoutes.log_entry env uid "LOGIN_BLOCKED" req details) = false.
Proof.
  unfold AuthRoutes.is_recent_failure, AuthRoutes.log_entry.
  rewrite split_action_blocked. cbn [fst snd ActivityLog.action ActivityLog.status].
  replace (String.eqb "LOGIN_BLOCKED" "LOGIN") with false by reflexivity.
  rewrite andb_false_r. reflexivity.
Qed.

End Helpers.

(** ** The paths through [/login] *)

Section LoginPaths.

Variable L : Libs.
Variable env : Env.

Ltac start :=
  unfold AuthRoutes.login, try_catch, bind, user_findUnique_email, gets, ret.

Lemma login_invalid req db :
  AuthRoutes.login_valid L req = false ->
  AuthRoutes.login L env req db = (Returned (mkResponse 400 BErrors), db).
Proof. intros Hv. start. rewrite Hv. reflexivity. Qed.

Lemma login_unknown req db :
  AuthRoutes.login_valid L req = true ->
  userByEmail db (login_email L req) = None ->
  AuthRoutes.login L env req db = (Returned AuthRoutes.invalid_credentials, db).
Proof.
  intros Hv Hu. start. rewrite Hv. cbn [negb]. unfold login_email in Hu.
  rewrite Hu. reflexivity.
Qed.

Lemma login_inactive req db user :
  AuthRoutes.login_valid L req = true ->
  userByEmail db (login_email L req) = Some user ->
  User.isActive user = false ->
  AuthRoutes.login L env req db = (Returned AuthRoutes.invalid_credentials, db).
Proof.
  intros Hv Hu Ha. start. rewrite Hv. cbn [negb]. unfold login_email in Hu.
  rewrite Hu, Ha. reflexivity.
Qed.

Lemma login_locked req db user :
  AuthRoutes.login_valid L req = true ->
  userByEmail db (login_email L req) = Some user ->
  User.isActive user = true ->
  locked_out env (User.id user) db = true ->
  AuthRoutes.login L env req db =
  (Returned AuthRoutes.account_locked,
   after_log env (User.id user) "LOGIN_BLOCKED" req [("reason", "account_locked")] db).
Proof.
  intros Hv Hu Ha Hl. start. rewrite Hv. cbn [negb]. unfold login_email in Hu.
  rewrite Hu, Ha. cbn [negb]. rewrite isAccountLocked_run.
  fold (locked_out env (User.id user) db). rewrite Hl.
  rewrite logActivity_run. reflexivity.
Qed.

Lemma login_wrong_password req db user :
  AuthRoutes.login_valid L req = true ->
  userByEmail db (login_email L req) = Some user ->
  User.isActive user = true ->
  locked_out env (User.id user) db = false ->
  password_ok L req user = false ->
  AuthRoutes.login L env req db =
  (Returned AuthRoutes.invalid_credentials,
   after_log env (User.id user) "LOGIN_FAILED" req [("reason", "wrong_password")] db).
Proof.
  intros Hv Hu Ha Hl Hp. start. rewrite Hv. cbn [negb]. unfold login_email in Hu.
  rewrite Hu, Ha. cbn [negb]. rewrite isAccountLocked_run.
  fold (locked_out env (User.id user) db). rewrite Hl.
  unfold password_ok in Hp. rewrite Hp. cbn [negb].
  rewrite logActivity_run. reflexivity.
Qed.

Lemma login_success req db user :
  AuthRoutes.login_valid L req = true ->
  userByEmail db (login_email L req) = Some user ->
  User.isActive user = true ->
  locked_out env (User.id user) db = false ->
  password_ok L req user = true ->
  AuthRoutes.login L env req db =
  (Returned (success_response L user),
   after_detection env user req (after_log env (User.id user) "LOGIN_SUCCESS" req [] db)).
Proof.
  intros Hv Hu Ha Hl Hp. start. rewrite Hv. cbn [negb]. unfold login_email in Hu.
  rewrite Hu, Ha. cbn [negb]. rewrite isAccountLocked_run.
  fold (locked_out env (User.id user) db). rewrite Hl.
  unfold password_ok in Hp. rewrite Hp. cbn [negb].
  rewrite logActivity_run. fold (after_log env (User.id user) "LOGIN_SUCCESS" req [] db).
  unfold after_detection, success_response, try_catch, ret.
  destruct (AuthRoutes.detect_new_context env user req _) as [[[]|e] db'];
    destruct (User.mfaEnabled user); reflexivity.
Qed.

End LoginPaths.

(** ** The zero-trust block *)

Section Detection.

Variable env : Env.

Lemma after_detection_run user req db :
  after_detection env user req db =
  if activityLogFindManyFails (faults env) then db
  else if new_context env user req db then
         if notificationCreateFails (faults env) then db
         else set_notifications
                (AuthRoutes.security_notification env user req
                   (previousHistory env (User.id user) db) :: notifications db) db
       else db.
Proof.
  unfold after_detection, try_catch, AuthRoutes.detect_new_context, bind,
    activityLog_findMany, new_context, previousHistory.
  destruct (activityLogFindManyFails (faults env)); [reflexivity|].
  unfold gets. cbv beta iota.
  destruct (AuthRoutes.isNewDevice req _ || AuthRoutes.isNewIp req _); [|reflexivity].
  unfold notification_create.
  destruct (notificationCreateFails (faults env)); reflexivity.
Qed.

(** The zero-trust block never touches the activity log or the users. *)
Lemma after_detection_logs user req db :
  activityLogs (after_detection env user req db) = activityLogs db
  /\ users (after_detection env user req db) = users db.
Proof.
  rewrite after_detection_run.
  destruct (activityLogFindManyFails (faults env)); [tauto|].
  destruct (new_context env user req db); [|tauto].
  destruct (notificationCreateFails (faults env)); tauto.
Qed.

(** Sorting keeps every row and every property of the rows. *)
Lemma insert_desc_Forall (P : ActivityLog.t -> Prop) x l :
  P x -> Forall P l -> Forall P (insert_desc x l).
Proof.
  intros Hx Hl. induction Hl as [|y l Hy Hl IH]; cbn.
  - constructor; [assumption|constructor].
  - destruct (ActivityLog.createdAt y <=? ActivityLog.createdAt x).
    + constructor; [assumption|]. constructor; assumption.
    + constructor; assumption.
Qed.

Lemma orderBy_Forall (P : ActivityLog.t -> Prop) l :
  Forall P l -> Forall P (orderBy_createdAt_desc l).
Proof.
  unfold orderBy_createdAt_desc. induction 1 as [|x l Hx Hl IH]; cbn.
  - constructor.
  - apply insert_desc_Forall; assumption.
Qed.

Lemma filter_Forall (P : ActivityLog.t -> Prop) f l :
  Forall P l -> Forall P (List.filter f l).
Proof.
  induction 1 as [|x l Hx Hl IH]; cbn; [constructor|].
  destruct (f x); [constructor|]; assumption.
Qed.

(** A row at least as recent as every other one sorts first. *)
Lemma insert_desc_newest x l :
  Forall (fun y => ActivityLog.createdAt y <= ActivityLog.createdAt x) l ->
  insert_desc x l = x :: l.
Proof.
  intros H. destruct H as [|y l Hy Hl]; cbn; [reflexivity|].
  apply Z.leb_le in Hy. rewrite Hy. reflexivity.
Qed.

(** The row a successful login has just written is the first one of the
    history read, so that [slice(1)] leaves the 19 most recent earlier
    successful logins of the last 30 days. *)
Lemma previousHistory_after_log user req details db :
  activityLogCreateFails (faults env) = false ->
  Forall (fun l => ActivityLog.createdAt l <= now env) (activityLogs db) ->
  previousHistory env (User.id user)
    (after_log env (User.id user) "LOGIN_SUCCESS" req details db) =
  firstn 19 (orderBy_createdAt_desc
               (List.filter (AuthRoutes.is_recent_success env (User.id user))
                  (activityLogs db))).
Proof.
  intros Hw Hpast. unfold previousHistory, after_log. rewrite Hw.
  cbn [activityLogs set_activityLogs List.filter].
  assert (Hin : AuthRoutes.is_recent_success env (User.id user)
                  (AuthRoutes.log_entry env (User.id user) "LOGIN_SUCCESS" req details) = true).
  { unfold AuthRoutes.is_recent_success, AuthRoutes.log_entry.
    rewrite split_action_success.
    cbn [fst snd ActivityLog.userId ActivityLog.action ActivityLog.status
           ActivityLog.createdAt].
    rewrite String.eqb_refl. cbn [andb].
    replace (String.eqb "LOGIN" "LOGIN") with true by reflexivity.
    replace (String.eqb "SUCCESS" "SUCCESS") with true by reflexivity.
    cbn [andb]. apply Z.leb_le. lia. }
  rewrite Hin. unfold orderBy_createdAt_desc. cbn [List.fold_right].
  fold (orderBy_createdAt_desc
          (List.filter (AuthRoutes.is_recent_success env (User.id user)) (activityLogs db))).
  rewrite insert_desc_newest.
  - reflexivity.
  - apply orderBy_Forall, filter_Forall. exact Hpast.
Qed.

End Detection.

(** ** Lockout *)

(** C1, as amended: for every ACTIVE user found by the validated email of the
    request who has at least 5 FAILURE-status LOGIN rows within the trailing
    15 minutes, when the lockout count can be read, the login returns
    AccountLocked (423) whatever the password comparison would answer; the
    blocked attempt is logged (when the write succeeds) as action
    LOGIN_BLOCKED with status INFO, and the failure count is unchanged. *)
Theorem C1_locked_account_login_returns_423 (L : Libs) (env : Env) (req : Request)
    (db : Db) (user : User.t) :
  AuthRoutes.login_valid L req = true ->
  userByEmail db (login_email L req) = Some user ->
  User.isActive user = true ->
  activityLogCountFails (faults env) = false ->
  (5 <= recent_failures env (User.id user) db)%nat ->
  let blocked :=
    AuthRoutes.log_entry env (User.id user) "LOGIN_BLOCKED" req [("reason", "account_locked")] in
  (forall cmp,
      AuthRoutes.login (with_bcrypt L cmp) env req db =
      (Returned AuthRoutes.account_locked,
       if activityLogCreateFails (faults env) then db
       else set_activityLogs (blocked :: activityLogs db) db))
  /\ statusCode AuthRoutes.account_locked = 423%nat
  /\ ActivityLog.action blocked = "LOGIN_BLOCKED"
  /\ ActivityLog.status blocked = "INFO"
  /\ (forall cmp,
        recent_failures env (User.id user)
          (snd (AuthRoutes.login (with_bcrypt L cmp) env req db)) =
        recent_failures env (User.id user) db).
Proof.
  intros Hv Hu Ha Hc H5 blocked.
  assert (Hrun : forall cmp,
             AuthRoutes.login (with_bcrypt L cmp) env req db =
             (Returned AuthRoutes.account_locked,
              after_log env (User.id user) "LOGIN_BLOCKED" req
                [("reason", "account_locked")] db)).
  { intros cmp. apply login_locked; try assumption.
    unfold locked_out. rewrite Hc. apply Nat.leb_le. exact H5. }
  split; [exact Hrun|]. split; [reflexivity|]. split; [reflexivity|]. split; [reflexivity|].
  intros cmp. rewrite Hrun. cbn [snd]. unfold after_log.
  destruct (activityLogCreateFails (faults env)); [reflexivity|].
  apply recent_failures_cons, blocked_entry_not_counted.
Qed.

(** A locked-out, active account: the correct password is answered with 423. *)
Lemma C1_locked_account_witness :
  AuthRoutes.login Sample.libs Sample.env
    (Sample.login_request "alice@example.com" "correct horse" "10.0.0.1" "Firefox")
    (Sample.db_of Sample.alice (Sample.five_failures "u1")) =
  (Returned AuthRoutes.account_locked,
   set_activityLogs
     (AuthRoutes.log_entry Sample.env "u1" "LOGIN_BLOCKED"
        (Sample.login_request "alice@example.com" "correct horse" "10.0.0.1" "Firefox")
        [("reason", "account_locked")] :: Sample.five_failures "u1")
     (Sample.db_of Sample.alice (Sample.five_failures "u1"))).
Proof.
  exact (proj1 (C1_locked_account_login_returns_423 Sample.libs Sample.env
                  (Sample.login_request "alice@example.com" "correct horse" "10.0.0.1" "Firefox")
                  (Sample.db_of Sample.alice (Sample.five_failures "u1")) Sample.alice
                  eq_refl eq_refl eq_refl eq_refl
                  ltac:(vm_compute; lia)) String.eqb).
Defined.

(** C1 as stated fails for a deactivated user: with five recent failures and
    the correct password the login answers 401 Invalid credentials, not 423.
    It fails as well for an active user when the lockout count cannot be
    read (the correct password signs in) and when the password is empty (400). *)
Lemma C1_inactive_user_counterexample :
  let req := Sample.login_request "alice@example.com" "correct horse" "10.0.0.1" "Firefox" in
  let db := Sample.db_of Sample.alice_inactive (Sample.five_failures "u1") in
  let db_active := Sample.db_of Sample.alice (Sample.five_failures "u1") in
  userByEmail db "alice@example.com" = Some Sample.alice_inactive
  /\ (5 <= recent_failures Sample.env "u1" db)%nat
  /\ AuthRoutes.login Sample.libs Sample.env req db =
     (Returned (mkResponse 401 (BMessage false "Invalid credentials")), db)
  /\ fst (AuthRoutes.login Sample.libs Sample.env req db) <> Returned AuthRoutes.account_locked
  /\ (5 <= recent_failures Sample.env "u1" db_active)%nat
  /\ fst (AuthRoutes.login Sample.libs (mkEnv Sample.t0 (mkFaults false true false false))
            req db_active) =
     Returned (mkResponse 200
                 (BLogin "Login successful" (AuthRoutes.userWithoutPassword Sample.alice) "jwt.u1"))
  /\ fst (AuthRoutes.login Sample.libs Sample.env
            (Sample.login_request "alice@example.com" "" "10.0.0.1" "Firefox") db_active) =
     Returned (mkResponse 400 BErrors).
Proof.
  cbv zeta. split; [reflexivity|]. split; [vm_compute; lia|].
  split; [reflexivity|]. split; [vm_compute; discriminate|].
  split; [vm_compute; lia|]. split; reflexivity.
Qed.

(** ** New device or address *)




(** ** Lease signing *)

Section LeaseFacts.

Variable env : Env.

Lemma signLease_not_found leaseId signature userId db :
  leases db !! leaseId = None ->
  Leases.signLease env leaseId signature userId db = (Thrown "Lease not found", db).
Proof.
  intros H. unfold Leases.signLease, bind, lease_findUnique, gets.
  rewrite H. reflexivity.
Qed.

Lemma signLease_unauthorized leaseId signature userId db lease :
  leases db !! leaseId = Some lease ->
  is_party lease userId = false ->
  Leases.signLease env leaseId signature userId db = (Thrown "UNAUTHORIZED", db).
Proof.
  intros H Hp. unfold Leases.signLease, bind, lease_findUnique, gets.
  rewrite H. unfold is_party in Hp. apply orb_false_elim in Hp as [Ht Hl].
  rewrite Ht, Hl. reflexivity.
Qed.

Lemma signLease_signed leaseId signature userId db lease :
  leases db !! leaseId = Some lease ->
  is_party lease userId = true ->
  Leases.signLease env leaseId signature userId db =
  (Returned (Leases.signed env lease signature userId lease),
   set_leases (<[leaseId := Leases.signed env lease signature userId lease]> (leases db)) db).
Proof.
  intros H Hp. unfold Leases.signLease, bind, lease_findUnique, gets.
  rewrite H. unfold is_party in Hp.
  destruct (String.eqb (Lease.tenantId lease) userId);
    destruct (String.eqb (Lease.landlordId lease) userId);
    try discriminate; cbn [negb andb]; unfold lease_update; rewrite H; reflexivity.
Qed.

(** The route, path by path. *)
Lemma sign_route_no_signature req db :
  Js.truthy (body_signature req) = false ->
  Leases.sign_route env req db =
  (Returned (mkResponse 400 (BMessage false "Signature is required")), db).
Proof. intros H. unfold Leases.sign_route, try_catch. rewrite H. reflexivity. Qed.

Lemma sign_route_not_found req db :
  Js.truthy (body_signature req) = true ->
  leases db !! params_id req = None ->
  Leases.sign_route env req db =
  (Returned (mkResponse 404 (BMessage false "Lease not found")), db).
Proof.
  intros Hs H. unfold Leases.sign_route, try_catch, bind. rewrite Hs. cbn [negb].
  rewrite signLease_not_found by exact H. reflexivity.
Qed.

Lemma sign_route_unauthorized req db lease :
  Js.truthy (body_signature req) = true ->
  leases db !! params_id req = Some lease ->
  is_party lease (req_user_id req) = false ->
  Leases.sign_route env req db =
  (Returned (mkResponse 403 (BMessage false "You are not authorized to sign this lease")), db).
Proof.
  intros Hs H Hp. unfold Leases.sign_route, try_catch, bind. rewrite Hs. cbn [negb].
  rewrite (signLease_unauthorized _ _ _ _ lease) by assumption. reflexivity.
Qed.

Lemma sign_route_signed req db lease :
  Js.truthy (body_signature req) = true ->
  leases db !! params_id req = Some lease ->
  is_party lease (req_user_id req) = true ->
  Leases.sign_route env req db =
  (Returned (mkResponse 200
               (BLease "Signature saved successfully"
                  (Leases.signed env lease (body_signature req) (req_user_id req) lease))),
   set_leases
     (<[params_id req := Leases.signed env lease (body_signature req) (req_user_id req) lease]>
        (leases db)) db).
Proof.
  intros Hs H Hp. unfold Leases.sign_route, try_catch, bind. rewrite Hs. cbn [negb].
  rewrite (signLease_signed _ _ _ _ lease) by assumption. reflexivity.
Qed.

End LeaseFacts.

(** The chain of conditions in [signLease] computes the rule of the
    specification. *)
Lemma new_status_spec (tenantSigned landlordSigned : bool) :
  Leases.new_status tenantSigned landlordSigned = spec_status tenantSigned landlordSigned.
Proof. destruct tenantSigned, landlordSigned; reflexivity. Qed.

(** The four statuses are distinct: the status tells the two flags. *)
Lemma spec_status_inj (a b c d : bool) :
  spec_status a b = spec_status c d -> a = c /\ b = d.
Proof. destruct a, b, c, d; cbn; intros H; try discriminate H; split; reflexivity. Qed.

Lemma truthy_not_null (v : Js.value) : Js.truthy v = true -> Leases.not_null v = true.
Proof. destruct v; [reflexivity | discriminate]. Qed.

(** The row written by a signing with a present signature is consistent,
    whatever the row was before. *)
Lemma signed_consistent env lease signature userId :
  Js.truthy signature = true ->
  status_consistent (Leases.signed env lease signature userId lease).
Proof.
  intros Hs. apply truthy_not_null in Hs.
  unfold status_consistent, Leases.signed, Leases.new_status.
  cbn [Lease.signatureStatus Lease.tenantSignature Lease.landlordSignature].
  destruct (String.eqb (Lease.tenantId lease) userId);
    destruct (String.eqb (Lease.landlordId lease) userId);
    rewrite ?Hs;
    destruct (Lease.tenantSignature lease); destruct (Lease.landlordSignature lease);
    reflexivity.
Qed.

(** C3: every lease row the signing route writes carries the status the
    rule of the specification gives for its two signatures: FULLY_SIGNED for
    both, TENANT_SIGNED for the tenant's only, LANDLORD_SIGNED for the
    landlord's only, PENDING for none.  A party's signing succeeds and stores
    such a row; on a PENDING lease the tenant's signing gives TENANT_SIGNED
    and the landlord's signing after it gives FULLY_SIGNED. *)
Theorem C3_status_is_function_of_signatures :
  (forall env req db k lease',
      leases (snd (Leases.sign_route env req db)) !! k = Some lease' ->
      leases db !! k = Some lease' \/ status_consistent lease')
  /\ (forall env req db lease,
         Js.truthy (body_signature req) = true ->
         leases db !! params_id req = Some lease ->
         is_party lease (req_user_id req) = true ->
         exists lease',
           Leases.sign_route env req db =
           (Returned (mkResponse 200 (BLease "Signature saved successfully" lease')),
            set_leases (<[params_id req := lease']> (leases db)) db)
           /\ Lease.signatureStatus lease' =
              spec_status (Leases.not_null (Lease.tenantSignature lease'))
                (Leases.not_null (Lease.landlordSignature lease')))
  /\ (forall env1 env2 req1 req2 db lease,
         leases db !! params_id req1 = Some lease ->
         status_consistent lease ->
         Lease.signatureStatus lease = "PENDING" ->
         Lease.tenantId lease <> Lease.landlordId lease ->
         Js.truthy (body_signature req1) = true ->
         Js.truthy (body_signature req2) = true ->
         params_id req2 = params_id req1 ->
         req_user_id req1 = Lease.tenantId lease ->
         req_user_id req2 = Lease.landlordId lease ->
         let db1 := snd (Leases.sign_route env1 req1 db) in
         let db2 := snd (Leases.sign_route env2 req2 db1) in
         (Lease.signatureStatus <$> leases db1 !! params_id req1) = Some "TENANT_SIGNED"
         /\ (Lease.signatureStatus <$> leases db2 !! params_id req1) = Some "FULLY_SIGNED").
Proof.
  split; [|split].
  - intros env req db k lease' H.
    destruct (Js.truthy (body_signature req)) eqn:Hs.
    2:{ rewrite sign_route_no_signature in H by exact Hs. left. exact H. }
    destruct (leases db !! params_id req) as [lease|] eqn:Hl.
    2:{ rewrite sign_route_not_found in H by assumption. left. exact H. }
    destruct (is_party lease (req_user_id req)) eqn:Hp.
    2:{ rewrite (sign_route_unauthorized _ _ _ lease) in H by assumption. left. exact H. }
    rewrite (sign_route_signed _ _ _ lease) in H by assumption.
    cbn [snd leases set_leases] in H.
    destruct (decide (params_id req = k)) as [Heq|Hne].
    + subst k. rewrite lookup_insert_eq in H. injection H as <-. right.
      apply signed_consistent. exact Hs.
    + rewrite lookup_insert_ne in H by exact Hne. left. exact H.
  - intros env req db lease Hs Hl Hp. eexists. split.
    + apply sign_route_signed; eassumption.
    + apply signed_consistent. exact Hs.
  - intros env1 env2 req1 req2 db lease Hl Hc Hpend Hne Hs1 Hs2 Hid Hu1 Hu2 db1 db2.
    assert (Hnone : Lease.tenantSignature lease = None /\ Lease.landlordSignature lease = None).
    { unfold status_consistent in Hc. rewrite Hpend in Hc.
      destruct (Lease.tenantSignature lease); destruct (Lease.landlordSignature lease);
        cbn in Hc; try discriminate; split; reflexivity. }
    destruct Hnone as [Hts Hls].
    assert (Ht1 : String.eqb (Lease.tenantId lease) (req_user_id req1) = true)
      by (rewrite Hu1; apply String.eqb_refl).
    assert (Hl1 : String.eqb (Lease.landlordId lease) (req_user_id req1) = false).
    { rewrite Hu1. apply String.eqb_neq. congruence. }
    assert (Ht2 : String.eqb (Lease.tenantId lease) (req_user_id req2) = false).
    { rewrite Hu2. apply String.eqb_neq. exact Hne. }
    assert (Hl2 : String.eqb (Lease.landlordId lease) (req_user_id req2) = true)
      by (rewrite Hu2; apply String.eqb_refl).
    assert (Hdb1 : db1 =
              set_leases (<[params_id req1 :=
                            Leases.signed env1 lease (body_signature req1) (req_user_id req1) lease]>
                            (leases db)) db).
    { subst db1. rewrite (sign_route_signed _ _ _ lease); try assumption; [reflexivity|].
      unfold is_party. rewrite Ht1. reflexivity. }
    set (lease1 := Leases.signed env1 lease (body_signature req1) (req_user_id req1) lease) in *.
    assert (Hlook1 : leases db1 !! params_id req1 = Some lease1).
    { rewrite Hdb1. cbn [leases set_leases]. apply lookup_insert_eq. }
    split.
    + rewrite Hlook1. cbn [fmap option_fmap option_map]. f_equal.
      subst lease1. unfold Leases.signed. cbn [Lease.signatureStatus].
      rewrite Ht1, Hl1, Hls. reflexivity.
    + subst db2. rewrite (sign_route_signed _ _ _ lease1); try assumption.
      * cbn [snd leases set_leases]. rewrite Hid, lookup_insert_eq.
        cbn [fmap option_fmap option_map]. f_equal.
        unfold Leases.signed. cbn [Lease.signatureStatus].
        subst lease1. unfold Leases.signed.
        cbn [Lease.tenantId Lease.landlordId Lease.tenantSignature Lease.landlordSignature].
        rewrite Ht1, Ht2, Hl2.
        rewrite (truthy_not_null _ Hs1). reflexivity.
      * rewrite Hid. exact Hlook1.
      * unfold is_party. subst lease1. unfold Leases.signed.
        cbn [Lease.tenantId Lease.landlordId]. rewrite Hl2. apply orb_true_r.
Qed.

(** The scenario on a sample lease: the tenant signs, then the landlord. *)
Lemma C3_tenant_then_landlord_witness :
  let db1 := snd (Leases.sign_route Sample.env
                    (Sample.sign_request "l1" "tenant1" (Some "sig-T"))
                    (Sample.db_lease Sample.lease1)) in
  let db2 := snd (Leases.sign_route Sample.env
                    (Sample.sign_request "l1" "landlord1" (Some "sig-L")) db1) in
  (Lease.signatureStatus <$> leases db1 !! "l1") = Some "TENANT_SIGNED"
  /\ (Lease.signatureStatus <$> leases db2 !! "l1") = Some "FULLY_SIGNED".
Proof.
  exact (proj2 (proj2 C3_status_is_function_of_signatures) Sample.env Sample.env
           (Sample.sign_request "l1" "tenant1" (Some "sig-T"))
           (Sample.sign_request "l1" "landlord1" (Some "sig-L"))
           (Sample.db_lease Sample.lease1) Sample.lease1
           eq_refl eq_refl eq_refl ltac:(discriminate) eq_refl eq_refl eq_refl eq_refl eq_refl).
Defined.

(** Called with a [null] signature, as the route never does, [signLease]
    would store a status that disagrees with the signatures. *)
Example signLease_null_signature :
  (Lease.signatureStatus <$>
     leases (snd (Leases.signLease Sample.env "l1" None "tenant1"
                    (Sample.db_lease Sample.lease1))) !! "l1") = Some "TENANT_SIGNED"
  /\ (Lease.tenantSignature <$>
        leases (snd (Leases.signLease Sample.env "l1" None "tenant1"
                       (Sample.db_lease Sample.lease1))) !! "l1") = Some None.
Proof. split; reflexivity. Qed.

(** C4: when the caller is exactly one party of the lease, [signLease]
    writes that party's signature and timestamp and leaves the other party's
    signature and timestamp, and every other lease, as they were; signing a
    second time overwrites the caller's own signature only. *)
Theorem C4_signLease_changes_only_the_signer (env : Env) (leaseId : string)
    (signature : Js.value) (userId : string) (db : Db) (lease : Lease.t) :
  leases db !! leaseId = Some lease ->
  xorb (String.eqb (Lease.tenantId lease) userId)
       (String.eqb (Lease.landlordId lease) userId) = true ->
  exists lease',
    Leases.signLease env leaseId signature userId db =
    (Returned lease', set_leases (<[leaseId := lease']> (leases db)) db)
    /\ (forall k, k <> leaseId ->
          leases (snd (Leases.signLease env leaseId signature userId db)) !! k = leases db !! k)
    /\ (Lease.tenantId lease = userId ->
          Lease.tenantSignature lease' = signature
          /\ Lease.tenantSignedAt lease' = Some (now env)
          /\ same_but_tenant_side lease lease')
    /\ (Lease.landlordId lease = userId ->
          Lease.landlordSignature lease' = signature
          /\ Lease.landlordSignedAt lease' = Some (now env)
          /\ same_but_landlord_side lease lease')
    /\ (forall env2 signature2,
          exists lease'',
            Leases.signLease env2 leaseId signature2 userId
              (snd (Leases.signLease env leaseId signature userId db)) =
            (Returned lease'', set_leases (<[leaseId := lease'']> (leases db)) db)
            /\ (Lease.tenantId lease = userId ->
                  Lease.tenantSignature lease'' = signature2
                  /\ same_but_tenant_side lease lease'')
            /\ (Lease.landlordId lease = userId ->
                  Lease.landlordSignature lease'' = signature2
                  /\ same_but_landlord_side lease lease'')).
Proof.
  intros Hl Hx.
  assert (Hp : is_party lease userId = true).
  { unfold is_party. destruct (String.eqb (Lease.tenantId lease) userId);
      destruct (String.eqb (Lease.landlordId lease) userId); try discriminate; reflexivity. }
  pose proof (signLease_signed env leaseId signature userId db lease Hl Hp) as Hrun.
  set (lease' := Leases.signed env lease signature userId lease) in *.
  assert (Hcases :
            (String.eqb (Lease.tenantId lease) userId = true
             /\ String.eqb (Lease.landlordId lease) userId = false)
            \/ (String.eqb (Lease.tenantId lease) userId = false
                /\ String.eqb (Lease.landlordId lease) userId = true)).
  { destruct (String.eqb (Lease.tenantId lease) userId);
      destruct (String.eqb (Lease.landlordId lease) userId); try discriminate; auto. }
  exists lease'. split; [exact Hrun|]. split.
  { intros k Hk. rewrite Hrun. cbn [snd leases set_leases].
    apply lookup_insert_ne. congruence. }
  split; [|split].
  - intros Ht. apply String.eqb_eq in Ht as Ht'.
    destruct Hcases as [[_ Hlf]|[Htf _]]; [|congruence].
    subst lease'. unfold Leases.signed, same_but_tenant_side. cbn.
    rewrite Ht', Hlf. repeat split; reflexivity.
  - intros Hll. apply String.eqb_eq in Hll as Hl'.
    destruct Hcases as [[_ Hlf]|[Htf _]]; [congruence|].
    subst lease'. unfold Leases.signed, same_but_landlord_side. cbn.
    rewrite Htf, Hl'. repeat split; reflexivity.
  - intros env2 signature2. rewrite Hrun. cbn [snd].
    assert (Hl2 : leases (set_leases (<[leaseId := lease']> (leases db)) db) !! leaseId
                  = Some lease').
    { cbn [leases set_leases]. apply lookup_insert_eq. }
    assert (Hp2 : is_party lease' userId = true) by exact Hp.
    rewrite (signLease_signed env2 leaseId signature2 userId _ lease' Hl2 Hp2).
    cbn [leases set_leases]. rewrite insert_insert_eq.
    eexists. split; [reflexivity|]. split.
    + intros Ht. destruct Hcases as [[Ht' Hlf]|[Htf _]];
        [|apply String.eqb_eq in Ht; congruence].
      subst lease'. unfold Leases.signed, same_but_tenant_side. cbn.
      rewrite Ht', Hlf. repeat split; reflexivity.
    + intros Hll. destruct Hcases as [[_ Hlf]|[Htf Hl']];
        [apply String.eqb_eq in Hll; congruence|].
      subst lease'. unfold Leases.signed, same_but_landlord_side. cbn.
      rewrite Htf, Hl'. repeat split; reflexivity.
Qed.

(** The tenant signs the sample lease: the landlord's side stays empty. *)
Lemma C4_tenant_signs_witness :
  exists lease',
    Leases.signLease Sample.env "l1" (Some "sig-T") "tenant1" (Sample.db_lease Sample.lease1) =
    (Returned lease',
     set_leases (<["l1" := lease']> (leases (Sample.db_lease Sample.lease1)))
       (Sample.db_lease Sample.lease1))
    /\ Lease.tenantSignature lease' = Some "sig-T"
    /\ Lease.landlordSignature lease' = None
    /\ Lease.landlordSignedAt lease' = None.
Proof.
  destruct (C4_signLease_changes_only_the_signer Sample.env "l1" (Some "sig-T") "tenant1"
              (Sample.db_lease Sample.lease1) Sample.lease1 eq_refl eq_refl)
    as (lease' & Hrun & _ & Ht & _).
  destruct (Ht eq_refl) as (Hsig & _ & _ & _ & _ & Hls & Hla).
  exists lease'. repeat split; assumption.
Defined.

(** C5: [signLease] fails with "Lease not found" when no lease has the id
    and with "UNAUTHORIZED" when the signer is neither the tenant nor the
    landlord; in both cases the database is left as it was, and the route
    answers 404 and 403. *)
Theorem C5_signLease_errors_change_nothing (env : Env) (db : Db) :
  (forall leaseId signature userId,
      leases db !! leaseId = None ->
      Leases.signLease env leaseId signature userId db = (Thrown "Lease not found", db))
  /\ (forall leaseId signature userId lease,
         leases db !! leaseId = Some lease ->
         Lease.tenantId lease <> userId ->
         Lease.landlordId lease <> userId ->
         Leases.signLease env leaseId signature userId db = (Thrown "UNAUTHORIZED", db))
  /\ (forall req,
         Js.truthy (body_signature req) = true ->
         leases db !! params_id req = None ->
         Leases.sign_route env req db =
         (Returned (mkResponse 404 (BMessage false "Lease not found")), db))
  /\ (forall req lease,
         Js.truthy (body_signature req) = true ->
         leases db !! params_id req = Some lease ->
         Lease.tenantId lease <> req_user_id req ->
         Lease.landlordId lease <> req_user_id req ->
         Leases.sign_route env req db =
         (Returned (mkResponse 403
                      (BMessage false "You are not authorized to sign this lease")), db)).
Proof.
  assert (Hparty : forall lease userId,
             Lease.tenantId lease <> userId -> Lease.landlordId lease <> userId ->
             is_party lease userId = false).
  { intros lease userId Ht Hl. unfold is_party.
    apply String.eqb_neq in Ht. apply String.eqb_neq in Hl. rewrite Ht, Hl. reflexivity. }
  repeat split.
  - intros. apply signLease_not_found. assumption.
  - intros leaseId signature userId lease Hl Ht Hla.
    apply (signLease_unauthorized env _ _ _ _ lease); auto.
  - intros. apply sign_route_not_found; assumption.
  - intros req lease Hs Hl Ht Hla.
    apply (sign_route_unauthorized env _ _ lease); auto.
Qed.

(** A stranger and an unknown lease id on the sample lease. *)
Lemma C5_errors_witness :
  Leases.sign_route Sample.env (Sample.sign_request "l2" "tenant1" (Some "sig"))
    (Sample.db_lease Sample.lease1) =
  (Returned (mkResponse 404 (BMessage false "Lease not found")), Sample.db_lease Sample.lease1)
  /\ Leases.sign_route Sample.env (Sample.sign_request "l1" "mallory" (Some "sig"))
       (Sample.db_lease Sample.lease1) =
     (Returned (mkResponse 403 (BMessage false "You are not authorized to sign this lease")),
      Sample.db_lease Sample.lease1).
Proof.
  pose proof (C5_signLease_errors_change_nothing Sample.env (Sample.db_lease Sample.lease1))
    as (_ & _ & H404 & H403).
  split.
  - exact (H404 (Sample.sign_request "l2" "tenant1" (Some "sig")) eq_refl eq_refl).
  - exact (H403 (Sample.sign_request "l1" "mallory" (Some "sig")) Sample.lease1
             eq_refl eq_refl ltac:(discriminate) ltac:(discriminate)).
Defined.

(** ** The response of [/login] *)

Section LoginResponse.

Variable L : Libs.
Variable env : Env.

(** [/login] always answers, and with [login_response]. *)
Lemma login_fst req db :
  fst (AuthRoutes.login L env req db) = Returned (login_response L env req db).
Proof.
  unfold login_response.
  destruct (AuthRoutes.login_valid L req) eqn:Hv.
  2:{ rewrite login_invalid by exact Hv. reflexivity. }
  destruct (userByEmail db (login_email L req)) as [user|] eqn:Hu.
  2:{ rewrite login_unknown by assumption. reflexivity. }
  destruct (User.isActive user) eqn:Ha.
  2:{ rewrite (login_inactive L env req db user) by assumption. reflexivity. }
  destruct (locked_out env (User.id user) db) eqn:Hl.
  { rewrite (login_locked L env req db user) by assumption. reflexivity. }
  destruct (password_ok L req user) eqn:Hp.
  - rewrite (login_success L env req db user) by assumption. reflexivity.
  - rewrite (login_wrong_password L env req db user) by assumption. reflexivity.
Qed.

End LoginResponse.

(** ** MFA *)

Section MfaFacts.

Variable L : Libs.
Variable env : Env.

(** [/mfa/login] never changes the database. *)
Lemma mfa_login_db req db : snd (AuthRoutes.mfa_login L env req db) = db.
Proof.
  unfold AuthRoutes.mfa_login, try_catch, bind, user_findUnique_id, gets, ret.
  destruct (negb (Js.truthy (body_userId req)) || negb (Js.truthy (body_token req)));
    [reflexivity|].
  destruct (userById db _) as [user|]; cbn [AuthRoutes.mfa_not_configured]; [|reflexivity].
  destruct (negb (User.mfaEnabled user) || negb (Js.truthy (User.mfaSecret user)));
    [reflexivity|].
  destruct (negb (totp_verify L _ _ _ _)); reflexivity.
Qed.

(** [/mfa/login] for a user with MFA configured: the token or 401, by the
    one-time code alone. *)
Lemma mfa_login_configured req db user :
  Js.truthy (body_userId req) = true ->
  Js.truthy (body_token req) = true ->
  userById db (Js.or_lit (body_userId req) "") = Some user ->
  User.mfaEnabled user = true ->
  Js.truthy (User.mfaSecret user) = true ->
  fst (AuthRoutes.mfa_login L env req db) =
  Returned
    (if totp_verify L (Js.or_lit (User.mfaSecret user) "") (Js.or_lit (body_token req) "")
          2 (now env)
     then mkResponse 200
            (BLogin "Login successful with MFA" (AuthRoutes.safeUser user)
               (AuthRoutes.token_for L user))
     else mkResponse 401 (BMessage false "Invalid or expired MFA code")).
Proof.
  intros Hu Ht Hf Hm Hs.
  unfold AuthRoutes.mfa_login, try_catch, bind, user_findUnique_id, gets, ret.
  rewrite Hu, Ht. cbn [negb orb]. rewrite Hf. cbn [AuthRoutes.mfa_not_configured].
  rewrite Hm, Hs. cbn [negb orb].
  destruct (totp_verify L _ _ _ _); reflexivity.
Qed.

(** Whenever [/mfa/login] issues a token, the user has MFA configured and
    the code verified against the stored secret. *)
Lemma mfa_login_token_inv req db r :
  fst (AuthRoutes.mfa_login L env req db) = Returned r ->
  carries_token r = true ->
  exists user,
    userById db (Js.or_lit (body_userId req) "") = Some user
    /\ User.mfaEnabled user = true
    /\ Js.truthy (User.mfaSecret user) = true
    /\ totp_verify L (Js.or_lit (User.mfaSecret user) "") (Js.or_lit (body_token req) "")
         2 (now env) = true.
Proof.
  unfold AuthRoutes.mfa_login, try_catch, bind, user_findUnique_id, gets, ret.
  destruct (negb (Js.truthy (body_userId req)) || negb (Js.truthy (body_token req)));
    [cbn; intros [= <-]; discriminate|].
  destruct (userById db _) as [user|]; cbn [AuthRoutes.mfa_not_configured];
    [|cbn; intros [= <-]; discriminate].
  destruct (User.mfaEnabled user) eqn:Hm; [|cbn; intros [= <-]; discriminate].
  destruct (Js.truthy (User.mfaSecret user)) eqn:Hs; [|cbn; intros [= <-]; discriminate].
  cbn [negb orb].
  destruct (totp_verify L _ _ _ _) eqn:Hv; [|cbn; intros [= <-]; discriminate].
  intros _ _. exists user. repeat split; assumption.
Qed.

(** [/mfa/verify] of [auth.js]: a code of another length is refused, and
    MFA is switched on exactly when the code verifies. *)
Lemma auth_mfa_verify_run req db :
  AuthRoutes.mfa_verify L env req db =
  if AuthRoutes.bad_code (body_token req) then
    (Returned (mkResponse 400 (BMessage false "Please provide a valid 6-digit code")), db)
  else if code_verifies L env 2 req db then
    (Returned (mkResponse 200 (BMessage true "Two-Factor Authentication enabled successfully!")),
     enable_mfa_for (req_user_id req) db)
  else
    (Returned
       (mkResponse 400
          (BMessage false
             (match userById db (req_user_id req) with
              | Some user =>
                  if Js.truthy (User.mfaSecret user)
                  then "Invalid or expired code. Please try again."
                  else "MFA setup not completed. Please generate a new QR code."
              | None => "MFA setup not completed. Please generate a new QR code."
              end))), db).
Proof.
  unfold AuthRoutes.mfa_verify, code_verifies, try_catch, bind, user_findUnique_id, gets, ret.
  destruct (AuthRoutes.bad_code (body_token req)); [reflexivity|].
  destruct (userById db (req_user_id req)) as [user|] eqn:Hu; [|reflexivity].
  destruct (Js.truthy (User.mfaSecret user)); [|reflexivity]. cbn [andb].
  destruct (totp_verify L _ _ _ _); [|reflexivity].
  unfold user_update. rewrite Hu. reflexivity.
Qed.

(** [/verify] of [mfa.js] never changes the database: the call of the
    undefined [logActivity] throws before the update. *)
Lemma mfa_router_verify_db req db : snd (MfaRoutes.verify L env req db) = db.
Proof.
  unfold MfaRoutes.verify, MfaRoutes.logActivity, try_catch, bind, user_findUnique_id,
    gets, ret, throw.
  destruct (AuthRoutes.bad_code (body_token req)); [reflexivity|].
  destruct (userById db (req_user_id req)) as [user|]; [|reflexivity].
  destruct (Js.truthy (User.mfaSecret user)); reflexivity.
Qed.

(** With a code of six characters and a stored secret it answers 500,
    whether the code verifies or not. *)
Lemma mfa_router_verify_500 req db user :
  AuthRoutes.bad_code (body_token req) = false ->
  userById db (req_user_id req) = Some user ->
  Js.truthy (User.mfaSecret user) = true ->
  fst (MfaRoutes.verify L env req db) =
  Returned (mkResponse 500 (BMessage false "Server error during verification")).
Proof.
  intros Hb Hu Hs.
  unfold MfaRoutes.verify, MfaRoutes.logActivity, try_catch, bind, user_findUnique_id,
    gets, ret, throw.
  rewrite Hb, Hu, Hs. reflexivity.
Qed.

End MfaFacts.

(** C6: the verify operation is to switch MFA on exactly when the six-digit
    code verifies against the stored secret.  The handler of [mfa.js] does
    not: on the signed-in user with a stored secret and the verifying code
    [123456] it answers 500 and leaves [mfaEnabled] false, where the handler
    of [auth.js] answers 200 and sets it.  Both refuse a code of another
    length with 400 and leave the user as it was on a code that does not
    verify. *)
Theorem C6_mfa_router_verify_failing_input :
  let db := Sample.db_of Sample.alice_setup [] in
  let good := Sample.code_request "u1" "123456" in
  let wrong := Sample.code_request "u1" "654321" in
  let short := Sample.code_request "u1" "12345" in
  code_verifies Sample.libs Sample.env 6 good db = true
  /\ MfaRoutes.verify Sample.libs Sample.env good db =
     (Returned (mkResponse 500 (BMessage false "Server error during verification")), db)
  /\ (User.mfaEnabled <$> userById (snd (MfaRoutes.verify Sample.libs Sample.env good db)) "u1")
     = Some false
  /\ AuthRoutes.mfa_verify Sample.libs Sample.env good db =
     (Returned (mkResponse 200 (BMessage true "Two-Factor Authentication enabled successfully!")),
      Sample.db_of Sample.alice_mfa [])
  /\ AuthRoutes.mfa_verify Sample.libs Sample.env wrong db =
     (Returned (mkResponse 400 (BMessage false "Invalid or expired code. Please try again.")), db)
  /\ AuthRoutes.mfa_verify Sample.libs Sample.env short db =
     (Returned (mkResponse 400 (BMessage false "Please provide a valid 6-digit code")), db)
  /\ MfaRoutes.verify Sample.libs Sample.env short db =
     (Returned (mkResponse 400 (BMessage false "Enter a valid 6-digit code")), db).
Proof. cbv zeta. repeat split; reflexivity. Qed.

(** ** MFA at login *)

(** C7, as amended: for every ACTIVE, NOT LOCKED-OUT user with
    [mfaEnabled = true], a validated request and the correct password, the
    login answers "MFA required" with the user's id; the login never answers
    with a token for a user with [mfaEnabled = true]; and [/mfa/login], given
    a user id and a code, answers a user who has MFA configured with the token
    exactly when the code verifies against the stored secret, and issues no
    token otherwise.  [/mfa/login] is NOT the only issuer: each of the four
    OAuth callbacks redirects with the same signed token when passport has
    put such a user in [req.user], with no code asked for. *)
Theorem C7_mfa_user_token_by_code_or_oauth (L : Libs) (env : Env) (db : Db) (user : User.t) :
  User.mfaEnabled user = true ->
  (forall req,
      AuthRoutes.login_valid L req = true ->
      userByEmail db (login_email L req) = Some user ->
      User.isActive user = true ->
      locked_out env (User.id user) db = false ->
      password_ok L req user = true ->
      fst (AuthRoutes.login L env req db) =
      Returned (mkResponse 200 (BMfaRequired (User.id user) "MFA required")))
  /\ (forall req r,
         userByEmail db (login_email L req) = Some user ->
         fst (AuthRoutes.login L env req db) = Returned r ->
         carries_token r = false)
  /\ (forall req,
         Js.truthy (body_userId req) = true ->
         Js.truthy (body_token req) = true ->
         userById db (Js.or_lit (body_userId req) "") = Some user ->
         Js.truthy (User.mfaSecret user) = true ->
         exists r,
           fst (AuthRoutes.mfa_login L env req db) = Returned r
           /\ (carries_token r = true <->
               totp_verify L (Js.or_lit (User.mfaSecret user) "")
                 (Js.or_lit (body_token req) "") 2 (now env) = true)
           /\ (carries_token r = true ->
               r = mkResponse 200
                     (BLogin "Login successful with MFA" (AuthRoutes.safeUser user)
                        (AuthRoutes.token_for L user))))
  /\ (forall req r,
         fst (AuthRoutes.mfa_login L env req db) = Returned r ->
         carries_token r = true ->
         exists user',
           userById db (Js.or_lit (body_userId req) "") = Some user'
           /\ User.mfaEnabled user' = true
           /\ totp_verify L (Js.or_lit (User.mfaSecret user') "")
                (Js.or_lit (body_token req) "") 2 (now env) = true)
  /\ (forall frontend_url,
         let issued provider :=
           Js.or_lit frontend_url "http://localhost:3000" +:+ "/auth/callback?token="
           +:+ AuthRoutes.token_for L user +:+ "&provider=" +:+ provider in
         OAuthCallbacks.google_callback L frontend_url (Some user) = issued "google"
         /\ OAuthCallbacks.facebook_callback L frontend_url (Some user) = issued "facebook"
         /\ OAuthCallbacks.github_callback L frontend_url (Some user) = issued "github"
         /\ OAuthCallbacks.twitter_callback L frontend_url (Some user) = issued "twitter").
Proof.
  intros Hm. split; [|split; [|split; [|split]]].
  - intros req Hv Hu Ha Hl Hp. rewrite login_fst. unfold login_response.
    rewrite Hv, Hu, Ha, Hl, Hp. unfold success_response. rewrite Hm. reflexivity.
  - intros req r Hu Hr. rewrite login_fst in Hr. injection Hr as <-.
    unfold login_response. rewrite Hu.
    destruct (AuthRoutes.login_valid L req); [|reflexivity].
    destruct (User.isActive user); [|reflexivity].
    destruct (locked_out env (User.id user) db); [reflexivity|].
    destruct (password_ok L req user); [|reflexivity].
    unfold success_response. rewrite Hm. reflexivity.
  - intros req Hu Ht Hf Hs. eexists. split.
    + apply (mfa_login_configured L env req db user); assumption.
    + destruct (totp_verify L _ _ _ _); cbn.
      * split; [tauto | reflexivity].
      * split; [split; discriminate | discriminate].
  - intros req r Hr Hc.
    destruct (mfa_login_token_inv L env req db r Hr Hc) as (user' & H1 & H2 & _ & H4).
    exists user'. repeat split; assumption.
  - intros frontend_url issued. repeat split; reflexivity.
Qed.

(** An active MFA user with the correct password is asked for the code. *)
Lemma C7_mfa_required_witness :
  fst (AuthRoutes.login Sample.libs Sample.env
         (Sample.login_request "alice@example.com" "correct horse" "10.0.0.1" "Firefox")
         (Sample.db_of Sample.alice_mfa [])) =
  Returned (mkResponse 200 (BMfaRequired "u1" "MFA required")).
Proof.
  exact (proj1 (C7_mfa_user_token_by_code_or_oauth Sample.libs Sample.env
                  (Sample.db_of Sample.alice_mfa []) Sample.alice_mfa eq_refl)
           (Sample.login_request "alice@example.com" "correct horse" "10.0.0.1" "Firefox")
           eq_refl eq_refl eq_refl eq_refl eq_refl).
Defined.

(** C7 as stated fails twice.  For a locked-out user: MFA is on and the
    password is correct, yet the login answers 423 and not "MFA required".
    And [/mfa/login] is not the only issuer: the Google callback, run for the
    same user with MFA on, redirects with the very token [/mfa/login] issues
    for the right code, and no code was asked for. *)
Lemma C7_lockout_and_oauth_counterexample :
  let req := Sample.login_request "alice@example.com" "correct horse" "10.0.0.1" "Firefox" in
  let db := Sample.db_of Sample.alice_mfa (Sample.five_failures "u1") in
  userByEmail db "alice@example.com" = Some Sample.alice_mfa
  /\ User.mfaEnabled Sample.alice_mfa = true
  /\ password_ok Sample.libs req Sample.alice_mfa = true
  /\ fst (AuthRoutes.login Sample.libs Sample.env req db) = Returned AuthRoutes.account_locked
  /\ statusCode AuthRoutes.account_locked = 423%nat
  /\ fst (AuthRoutes.mfa_login Sample.libs Sample.env (Sample.mfa_request "u1" "123456")
            (Sample.db_of Sample.alice_mfa [])) =
     Returned (mkResponse 200
                 (BLogin "Login successful with MFA" (AuthRoutes.safeUser Sample.alice_mfa)
                    "jwt.u1"))
  /\ OAuthCallbacks.google_callback Sample.libs None (Some Sample.alice_mfa) =
     "http://localhost:3000/auth/callback?token=jwt.u1&provider=google".
Proof. cbv zeta. repeat split; reflexivity. Qed.

(** C10: [/mfa/login] answers every user record with [mfaEnabled = true] and
    a stored secret with a signed token whenever the code verifies; it reads
    neither [isActive] nor the activity log.  So a deactivated user with five
    recent failures, whom [/login] turns away with 401, and an active
    locked-out user, whom [/login] turns away with 423, both get a token. *)
Theorem C10_mfa_login_skips_active_and_lockout_checks :
  (forall L env req db user,
      Js.truthy (body_userId req) = true ->
      Js.truthy (body_token req) = true ->
      userById db (Js.or_lit (body_userId req) "") = Some user ->
      User.mfaEnabled user = true ->
      Js.truthy (User.mfaSecret user) = true ->
      totp_verify L (Js.or_lit (User.mfaSecret user) "") (Js.or_lit (body_token req) "")
        2 (now env) = true ->
      AuthRoutes.mfa_login L env req db =
      (Returned (mkResponse 200
                   (BLogin "Login successful with MFA" (AuthRoutes.safeUser user)
                      (AuthRoutes.token_for L user))), db))
  /\ (forall L env req db logs,
         fst (AuthRoutes.mfa_login L env req (set_activityLogs logs db)) =
         fst (AuthRoutes.mfa_login L env req db))
  /\ (let db := Sample.db_of Sample.alice_inactive_mfa (Sample.five_failures "u1") in
      User.isActive Sample.alice_inactive_mfa = false
      /\ (5 <= recent_failures Sample.env "u1" db)%nat
      /\ fst (AuthRoutes.login Sample.libs Sample.env
                (Sample.login_request "alice@example.com" "correct horse" "10.0.0.1" "Firefox")
                db) = Returned AuthRoutes.invalid_credentials
      /\ fst (AuthRoutes.mfa_login Sample.libs Sample.env (Sample.mfa_request "u1" "123456") db) =
         Returned (mkResponse 200
                     (BLogin "Login successful with MFA"
                        (AuthRoutes.safeUser Sample.alice_inactive_mfa) "jwt.u1")))
  /\ (let db := Sample.db_of Sample.alice_mfa (Sample.five_failures "u1") in
      locked_out Sample.env "u1" db = true
      /\ fst (AuthRoutes.login Sample.libs Sample.env
                (Sample.login_request "alice@example.com" "correct horse" "10.0.0.1" "Firefox")
                db) = Returned AuthRoutes.account_locked
      /\ fst (AuthRoutes.mfa_login Sample.libs Sample.env (Sample.mfa_request "u1" "123456") db) =
         Returned (mkResponse 200
                     (BLogin "Login successful with MFA"
                        (AuthRoutes.safeUser Sample.alice_mfa) "jwt.u1"))).
Proof.
  split; [|split; [|split]].
  - intros L env req db user Hu Ht Hf Hm Hs Hv.
    pose proof (mfa_login_configured L env req db user Hu Ht Hf Hm Hs) as Hr.
    rewrite Hv in Hr. pose proof (mfa_login_db L env req db) as Hd.
    destruct (AuthRoutes.mfa_login L env req db) as [o d]. cbn in Hr, Hd. subst. reflexivity.
  - intros L env req db logs.
    unfold AuthRoutes.mfa_login, try_catch, bind, user_findUnique_id, gets, ret.
    destruct (negb (Js.truthy (body_userId req)) || negb (Js.truthy (body_token req)));
      [reflexivity|].
    cbv beta iota. change (userById (set_activityLogs logs db)) with (userById db).
    destruct (userById db _) as [user|]; cbn [AuthRoutes.mfa_not_configured];
      [|reflexivity].
    destruct (negb (User.mfaEnabled user) || negb (Js.truthy (User.mfaSecret user)));
      [reflexivity|].
    destruct (negb (totp_verify L _ _ _ _)); reflexivity.
  - cbv zeta. split; [reflexivity|]. split; [vm_compute; lia|]. split; reflexivity.
  - cbv zeta. repeat split; reflexivity.
Qed.

(** The deactivated, locked-out sample user still gets a token. *)
Lemma C10_inactive_user_token_witness :
  AuthRoutes.mfa_login Sample.libs Sample.env (Sample.mfa_request "u1" "123456")
    (Sample.db_of Sample.alice_inactive_mfa (Sample.five_failures "u1")) =
  (Returned (mkResponse 200
               (BLogin "Login successful with MFA"
                  (AuthRoutes.safeUser Sample.alice_inactive_mfa) "jwt.u1")),
   Sample.db_of Sample.alice_inactive_mfa (Sample.five_failures "u1")).
Proof.
  exact (proj1 C10_mfa_login_skips_active_and_lockout_checks Sample.libs Sample.env
           (Sample.mfa_request "u1" "123456")
           (Sample.db_of Sample.alice_inactive_mfa (Sample.five_failures "u1"))
           Sample.alice_inactive_mfa eq_refl eq_refl eq_refl eq_refl eq_refl eq_refl).
Defined.

(** ** Log writes of a login *)

(** A login that reaches the lockout check writes one row (when the write
    succeeds): LOGIN_BLOCKED/INFO when locked out, LOGIN/FAILURE on a wrong
    password, LOGIN/SUCCESS on the correct one. *)
Lemma login_writes_one_row (L : Libs) (env : Env) (req : Request) (db : Db) (user : User.t) :
  AuthRoutes.login_valid L req = true ->
  userByEmail db (login_email L req) = Some user ->
  User.isActive user = true ->
  activityLogCreateFails (faults env) = false ->
  exists entry,
    activityLogs (snd (AuthRoutes.login L env req db)) = entry :: activityLogs db
    /\ ActivityLog.userId entry = User.id user
    /\ (ActivityLog.action entry, ActivityLog.status entry) =
       (if locked_out env (User.id user) db then ("LOGIN_BLOCKED", "INFO")
        else if password_ok L req user then ("LOGIN", "SUCCESS")
             else ("LOGIN", "FAILURE")).
Proof.
  intros Hv Hu Ha Hw.
  destruct (locked_out env (User.id user) db) eqn:Hl.
  { rewrite (login_locked L env req db user) by assumption.
    unfold after_log. rewrite Hw. eexists. repeat split. }
  destruct (password_ok L req user) eqn:Hp.
  - rewrite (login_success L env req db user) by assumption. cbn [snd].
    rewrite (proj1 (after_detection_logs env user req _)).
    unfold after_log. rewrite Hw. eexists. repeat split.
  - rewrite (login_wrong_password L env req db user) by assumption.
    unfold after_log. rewrite Hw. eexists. repeat split.
Qed.

(** A login for an unknown or deactivated user leaves the database as it
    was: nothing is logged. *)
Lemma login_unknown_or_inactive_writes_nothing (L : Libs) (env : Env) (req : Request) (db : Db) :
  match userByEmail db (login_email L req) with
  | None => True
  | Some user => User.isActive user = false
  end ->
  snd (AuthRoutes.login L env req db) = db.
Proof.
  intros H. destruct (AuthRoutes.login_valid L req) eqn:Hv.
  2:{ rewrite login_invalid by exact Hv. reflexivity. }
  destruct (userByEmail db (login_email L req)) as [user|] eqn:Hu.
  - rewrite (login_inactive L env req db user) by assumption. reflexivity.
  - rewrite login_unknown by assumption. reflexivity.
Qed.

(** C8: one activity-log write per login attempt.  The handler does so for
    a blocked attempt (LOGIN_BLOCKED/INFO), a wrong password (LOGIN/FAILURE)
    and a correct password (LOGIN/SUCCESS), but, against its own comment
    ("we log the attempt"), an attempt for a deactivated or an unknown user
    is answered 401 with no row written. *)
Theorem C8_no_log_for_inactive_or_unknown_user :
  let req := Sample.login_request "alice@example.com" "correct horse" "10.0.0.1" "Firefox" in
  let bad := Sample.login_request "alice@example.com" "guess" "10.0.0.1" "Firefox" in
  let other := Sample.login_request "nobody@example.com" "guess" "10.0.0.1" "Firefox" in
  let rows db := List.map (fun l => (ActivityLog.action l, ActivityLog.status l)) (activityLogs db) in
  AuthRoutes.login Sample.libs Sample.env req (Sample.db_of Sample.alice_inactive []) =
  (Returned AuthRoutes.invalid_credentials, Sample.db_of Sample.alice_inactive [])
  /\ AuthRoutes.login Sample.libs Sample.env other (Sample.db_of Sample.alice []) =
     (Returned AuthRoutes.invalid_credentials, Sample.db_of Sample.alice [])
  /\ rows (snd (AuthRoutes.login Sample.libs Sample.env req (Sample.db_of Sample.alice []))) =
     [("LOGIN", "SUCCESS")]
  /\ rows (snd (AuthRoutes.login Sample.libs Sample.env bad (Sample.db_of Sample.alice []))) =
     [("LOGIN", "FAILURE")]
  /\ firstn 1 (rows (snd (AuthRoutes.login Sample.libs Sample.env req
                            (Sample.db_of Sample.alice (Sample.five_failures "u1"))))) =
     [("LOGIN_BLOCKED", "INFO")].
Proof. cbv zeta. repeat split; reflexivity. Qed.

(** ** Failures of the monitoring calls *)

(** C9, as amended: failures of the monitoring calls never fail a login.
    [logActivity] never throws, whether its write fails or not; the response
    of a login is the same whether or not the log write, the login-history
    read and the notification write fail, and it is never the 500 of the
    outer handler; when the lockout count cannot be read, [isAccountLocked]
    answers false and the login goes on to the password check, whose result
    is then the response (also for an account that the count would lock). *)
Theorem C9_monitoring_failures_do_not_fail_login :
  (forall env userId fullAction req details db,
      exists db', AuthRoutes.logActivity env userId fullAction req details db = (Returned tt, db')
                  /\ (activityLogCreateFails (faults env) = true -> db' = db))
  /\ (forall L time f req db,
         fst (AuthRoutes.login L (mkEnv time f) req db) =
         fst (AuthRoutes.login L (mkEnv time (only_count_fault f)) req db))
  /\ (forall L env req db,
         exists r, fst (AuthRoutes.login L env req db) = Returned r
                   /\ r <> AuthRoutes.internal_error /\ statusCode r <> 500%nat)
  /\ (forall env userId db,
         activityLogCountFails (faults env) = true ->
         AuthRoutes.isAccountLocked env userId db = (Returned false, db))
  /\ (forall L env req db user,
         activityLogCountFails (faults env) = true ->
         AuthRoutes.login_valid L req = true ->
         userByEmail db (login_email L req) = Some user ->
         User.isActive user = true ->
         fst (AuthRoutes.login L env req db) =
         Returned (if password_ok L req user then success_response L user
                   else AuthRoutes.invalid_credentials)).
Proof.
  split; [|split; [|split; [|split]]].
  - intros env userId fullAction req details db. rewrite logActivity_run.
    eexists. split; [reflexivity|]. intros ->. reflexivity.
  - intros L time f req db. rewrite !login_fst. reflexivity.
  - intros L env req db. rewrite login_fst. eexists. split; [reflexivity|].
    unfold login_response, success_response.
    destruct (AuthRoutes.login_valid L req); [|split; [discriminate | cbn; lia]].
    destruct (userByEmail db (login_email L req)) as [user|];
      [|split; [discriminate | cbn; lia]].
    destruct (User.isActive user); [|split; [discriminate | cbn; lia]].
    destruct (locked_out env (User.id user) db); [split; [discriminate | cbn; lia]|].
    destruct (password_ok L req user); [|split; [discriminate | cbn; lia]].
    destruct (User.mfaEnabled user); split; try discriminate; cbn; lia.
  - intros env userId db Hc. rewrite isAccountLocked_run, Hc. reflexivity.
  - intros L env req db user Hc Hv Hu Ha. rewrite login_fst. unfold login_response.
    rewrite Hv, Hu, Ha. unfold locked_out. rewrite Hc. reflexivity.
Qed.

(** Five recent failures and a lockout count that cannot be read: the
    correct password signs in. *)
Lemma C9_count_failure_witness :
  fst (AuthRoutes.login Sample.libs (mkEnv Sample.t0 (mkFaults false true false false))
         (Sample.login_request "alice@example.com" "correct horse" "10.0.0.1" "Firefox")
         (Sample.db_of Sample.alice (Sample.five_failures "u1"))) =
  Returned (mkResponse 200
              (BLogin "Login successful" (AuthRoutes.userWithoutPassword Sample.alice) "jwt.u1")).
Proof.
  exact (proj2 (proj2 (proj2 (proj2 C9_monitoring_failures_do_not_fail_login)))
           Sample.libs (mkEnv Sample.t0 (mkFaults false true false false))
           (Sample.login_request "alice@example.com" "correct horse" "10.0.0.1" "Firefox")
           (Sample.db_of Sample.alice (Sample.five_failures "u1")) Sample.alice
           eq_refl eq_refl eq_refl eq_refl).
Defined.

(** C9 as stated fails for the lockout count: on the same locked-out account
    and request, the login answers 423 when the count is read and signs the
    user in when the count read fails. *)
Lemma C9_count_failure_changes_response_counterexample :
  let req := Sample.login_request "alice@example.com" "correct horse" "10.0.0.1" "Firefox" in
  let db := Sample.db_of Sample.alice (Sample.five_failures "u1") in
  fst (AuthRoutes.login Sample.libs (mkEnv Sample.t0 noFaults) req db) =
  Returned AuthRoutes.account_locked
  /\ fst (AuthRoutes.login Sample.libs (mkEnv Sample.t0 (mkFaults false true false false)) req db) =
     Returned (mkResponse 200
                 (BLogin "Login successful" (AuthRoutes.userWithoutPassword Sample.alice) "jwt.u1"))
  /\ fst (AuthRoutes.login Sample.libs (mkEnv Sample.t0 noFaults) req db) <>
     fst (AuthRoutes.login Sample.libs (mkEnv Sample.t0 (mkFaults false true false false)) req db).
Proof. cbv zeta. split; [reflexivity|]. split; [reflexivity|]. vm_compute. discriminate. Qed.

(** * Further properties *)

(** ** Lockout over a sequence of attempts *)

Section LoginSequences.

Variable L : Libs.

Lemma recent_failures_times env userId db :
  recent_failures env userId db =
  length (List.filter (fun t => now env - 15 * 60 * 1000 <=? t) (failure_times userId db)).
Proof.
  unfold recent_failures, failure_times.
  induction (activityLogs db) as [|l logs IH]; [reflexivity|].
  cbn [List.filter]. unfold AuthRoutes.is_recent_failure at 1. unfold is_failure_row at 1.
  destruct (String.eqb (ActivityLog.userId l) userId && String.eqb (ActivityLog.action l) "LOGIN"
            && String.eqb (ActivityLog.status l) "FAILURE"); cbn [andb].
  - cbn [List.map List.filter].
    destruct (now env - 15 * 60 * 1000 <=? ActivityLog.createdAt l); cbn [length]; rewrite IH;
      reflexivity.
  - exact IH.
Qed.

Lemma recent_failures_le env userId db :
  (recent_failures env userId db <= length (failure_times userId db))%nat.
Proof. rewrite recent_failures_times. apply List.filter_length_le. Qed.

Lemma recent_failures_all env userId db :
  Forall (fun t => now env - 15 * 60 * 1000 <= t) (failure_times userId db) ->
  recent_failures env userId db = length (failure_times userId db).
Proof.
  rewrite recent_failures_times. induction 1 as [|t ts Ht Hts IH]; [reflexivity|].
  cbn [List.filter]. apply Z.leb_le in Ht. rewrite Ht. cbn [length]. rewrite IH. reflexivity.
Qed.

(** The failure rows after a call of [logActivity]. *)
Lemma failure_times_after_log env userId uid fullAction req details db :
  failure_times userId (after_log env uid fullAction req details db) =
  if activityLogCreateFails (faults env) then failure_times userId db
  else if is_failure_row userId (AuthRoutes.log_entry env uid fullAction req details)
       then now env :: failure_times userId db
       else failure_times userId db.
Proof.
  unfold after_log, failure_times.
  destruct (activityLogCreateFails (faults env)); [reflexivity|].
  cbn [activityLogs set_activityLogs List.filter].
  destruct (is_failure_row userId _); reflexivity.
Qed.

Lemma failure_times_after_detection env userId user req db :
  failure_times userId (after_detection env user req db) = failure_times userId db.
Proof.
  unfold failure_times. rewrite (proj1 (after_detection_logs env user req db)). reflexivity.
Qed.

Lemma is_failure_row_blocked env userId uid req details :
  is_failure_row userId (AuthRoutes.log_entry env uid "LOGIN_BLOCKED" req details) = false.
Proof.
  unfold is_failure_row, AuthRoutes.log_entry. rewrite split_action_blocked.
  cbn [fst snd ActivityLog.status ActivityLog.action ActivityLog.userId].
  replace (String.eqb "LOGIN_BLOCKED" "LOGIN") with false by reflexivity.
  rewrite andb_false_r. reflexivity.
Qed.

Lemma is_failure_row_success env userId uid req details :
  is_failure_row userId (AuthRoutes.log_entry env uid "LOGIN_SUCCESS" req details) = false.
Proof.
  unfold is_failure_row, AuthRoutes.log_entry. rewrite split_action_success.
  cbn [fst snd ActivityLog.status ActivityLog.action ActivityLog.userId].
  replace (String.eqb "SUCCESS" "FAILURE") with false by reflexivity.
  rewrite andb_false_r. reflexivity.
Qed.

Lemma is_failure_row_failed env uid req details :
  is_failure_row uid (AuthRoutes.log_entry env uid "LOGIN_FAILED" req details) = true.
Proof.
  unfold is_failure_row, AuthRoutes.log_entry. rewrite split_action_failed.
  cbn [fst snd ActivityLog.status ActivityLog.action ActivityLog.userId].
  rewrite String.eqb_refl. reflexivity.
Qed.

(** The one path of [/login] that adds a failure row for the user of the
    request: active, not locked out, wrong password, write succeeding. *)
Lemma login_failure_times env req db user :
  AuthRoutes.login_valid L req = true ->
  userByEmail db (login_email L req) = Some user ->
  failure_times (User.id user) (snd (AuthRoutes.login L env req db)) =
  if User.isActive user && negb (locked_out env (User.id user) db)
     && negb (password_ok L req user) && negb (activityLogCreateFails (faults env))
  then now env :: failure_times (User.id user) db
  else failure_times (User.id user) db.
Proof.
  intros Hv Hu.
  destruct (User.isActive user) eqn:Ha; cbn [andb].
  2:{ rewrite (login_inactive L env req db user) by assumption. reflexivity. }
  destruct (locked_out env (User.id user) db) eqn:Hl; cbn [andb negb].
  { rewrite (login_locked L env req db user) by assumption. cbn [snd].
    rewrite failure_times_after_log, is_failure_row_blocked.
    destruct (activityLogCreateFails (faults env)); reflexivity. }
  destruct (password_ok L req user) eqn:Hp; cbn [andb negb].
  - rewrite (login_success L env req db user) by assumption. cbn [snd].
    rewrite failure_times_after_detection, failure_times_after_log, is_failure_row_success.
    destruct (activityLogCreateFails (faults env)); reflexivity.
  - rewrite (login_wrong_password L env req db user) by assumption. cbn [snd].
    rewrite failure_times_after_log, is_failure_row_failed.
    destruct (activityLogCreateFails (faults env)); reflexivity.
Qed.

(** [/login] never writes to the user table. *)
Lemma login_users env req db : users (snd (AuthRoutes.login L env req db)) = users db.
Proof.
  destruct (AuthRoutes.login_valid L req) eqn:Hv.
  2:{ rewrite login_invalid by exact Hv. reflexivity. }
  destruct (userByEmail db (login_email L req)) as [user|] eqn:Hu.
  2:{ rewrite login_unknown by assumption. reflexivity. }
  destruct (User.isActive user) eqn:Ha.
  2:{ rewrite (login_inactive L env req db user) by assumption. reflexivity. }
  assert (Hlog : forall a d, users (after_log env (User.id user) a req d db) = users db).
  { intros a d. unfold after_log. destruct (activityLogCreateFails (faults env)); reflexivity. }
  destruct (locked_out env (User.id user) db) eqn:Hl.
  { rewrite (login_locked L env req db user) by assumption. apply Hlog. }
  destruct (password_ok L req user) eqn:Hp.
  - rewrite (login_success L env req db user) by assumption. cbn [snd].
    rewrite (proj2 (after_detection_logs env user req _)). apply Hlog.
  - rewrite (login_wrong_password L env req db user) by assumption. apply Hlog.
Qed.

Lemma userByEmail_users db db' email :
  users db' = users db -> userByEmail db' email = userByEmail db email.
Proof. unfold userByEmail. intros ->. reflexivity. Qed.

End LoginSequences.

Section Lockout.

Variable L : Libs.

Lemma attempts_cons env req rest db :
  attempts L ((env, req) :: rest) db =
  (fst (AuthRoutes.login L env req db) :: fst (attempts L rest (snd (AuthRoutes.login L env req db))),
   snd (attempts L rest (snd (AuthRoutes.login L env req db)))).
Proof.
  cbn [attempts]. destruct (AuthRoutes.login L env req db) as [r db1]. cbn [fst snd].
  destruct (attempts L rest db1) as [rs db2]. reflexivity.
Qed.

(** Attempts never write to the user table. *)
Lemma attempts_users steps db : users (snd (attempts L steps db)) = users db.
Proof.
  revert db. induction steps as [|[env req] rest IH]; intros db; [reflexivity|].
  rewrite attempts_cons. cbn [snd]. rewrite IH. apply login_users.
Qed.

(** While fewer than five failures are on record, every wrong password adds
    one; all rows stay within the window [w]. *)
Lemma attempts_failure_rows (user : User.t) (w : Z) steps db :
  User.isActive user = true ->
  Forall (fun s => AuthRoutes.login_valid L (snd s) = true
                   /\ userByEmail db (login_email L (snd s)) = Some user) steps ->
  Forall (fun s => wrong_password L user s = true ->
                   activityLogCreateFails (faults (fst s)) = false /\ w <= now (fst s)) steps ->
  Forall (fun t => w <= t) (failure_times (User.id user) db) ->
  Forall (fun t => w <= t) (failure_times (User.id user) (snd (attempts L steps db)))
  /\ (Nat.min 5 (length (failure_times (User.id user) db)
                 + length (List.filter (wrong_password L user) steps))
      <= length (failure_times (User.id user) (snd (attempts L steps db))))%nat.
Proof.
  intros Ha. revert db. induction steps as [|[env req] rest IH]; intros db Hsteps Hwrong Hw.
  - cbn [attempts snd List.filter length]. rewrite Nat.add_0_r.
    split; [exact Hw | apply Nat.le_min_r].
  - apply Forall_cons in Hsteps as [[Hv Hu] Hsteps].
    apply Forall_cons in Hwrong as [Hthis Hwrong].
    cbn [fst snd] in Hv, Hu, Hthis.
    rewrite attempts_cons. cbn [snd].
    set (db1 := snd (AuthRoutes.login L env req db)).
    assert (Hft : failure_times (User.id user) db1 =
                  if User.isActive user && negb (locked_out env (User.id user) db)
                     && negb (password_ok L req user)
                     && negb (activityLogCreateFails (faults env))
                  then now env :: failure_times (User.id user) db
                  else failure_times (User.id user) db)
      by (apply login_failure_times; assumption).
    assert (Hsteps1 : Forall (fun s => AuthRoutes.login_valid L (snd s) = true
                        /\ userByEmail db1 (login_email L (snd s)) = Some user) rest).
    { eapply List.Forall_impl; [|exact Hsteps]. intros s [H1 H2]. split; [exact H1|].
      rewrite (userByEmail_users db db1); [exact H2 | apply login_users]. }
    cbn [List.filter].
    replace (wrong_password L user (env, req)) with (negb (password_ok L req user))
      by reflexivity.
    unfold wrong_password in Hthis. cbn [snd fst] in Hthis.
    rewrite Ha in Hft. cbn [andb] in Hft.
    destruct (password_ok L req user) eqn:Hp; cbn [negb andb] in *.
    + rewrite andb_false_r in Hft. cbn [andb] in Hft.
      assert (Hw1 : Forall (fun t => w <= t) (failure_times (User.id user) db1))
        by (rewrite Hft; exact Hw).
      destruct (IH db1 Hsteps1 Hwrong Hw1) as [IH1 IH2].
      split; [exact IH1|]. rewrite Hft in IH2. exact IH2.
    + destruct (Hthis eq_refl) as [Hcreate Htime]. rewrite Hcreate in Hft.
      cbn [negb] in Hft. rewrite andb_true_r in Hft.
      destruct (locked_out env (User.id user) db) eqn:Hl; cbn [negb andb] in Hft.
      * assert (Hw1 : Forall (fun t => w <= t) (failure_times (User.id user) db1))
          by (rewrite Hft; exact Hw).
        destruct (IH db1 Hsteps1 Hwrong Hw1) as [IH1 IH2].
        split; [exact IH1|]. rewrite Hft in IH2.
        assert (5 <= length (failure_times (User.id user) db))%nat.
        { unfold locked_out in Hl. destruct (activityLogCountFails (faults env)); [discriminate|].
          apply Nat.leb_le in Hl. pose proof (recent_failures_le env (User.id user) db). lia. }
        cbn [length]. lia.
      * assert (Hw1 : Forall (fun t => w <= t) (failure_times (User.id user) db1))
          by (rewrite Hft; constructor; assumption).
        destruct (IH db1 Hsteps1 Hwrong Hw1) as [IH1 IH2].
        split; [exact IH1|]. rewrite Hft in IH2. cbn [length] in IH2 |- *. lia.
Qed.

End Lockout.

(** X1: five wrong passwords lock the account, also with correct logins in
    between.  Take any sequence of validated login attempts for one active
    user.  If every failed login on record at the start and every
    wrong-password attempt of the sequence lies within the 15 minutes before a
    further attempt, the writes of the wrong-password attempts succeed, and at
    least five attempts of the sequence have a wrong password, then the
    further attempt is answered 423, whatever its password. *)
Theorem five_wrong_passwords_lock_the_account (L : Libs) (steps : list (Env * Request))
    (db : Db) (user : User.t) (env : Env) (req : Request) :
  User.isActive user = true ->
  Forall (fun s => AuthRoutes.login_valid L (snd s) = true
                   /\ userByEmail db (login_email L (snd s)) = Some user) steps ->
  Forall (fun s => wrong_password L user s = true ->
                   activityLogCreateFails (faults (fst s)) = false
                   /\ now env - 15 * 60 * 1000 <= now (fst s)) steps ->
  Forall (fun t => now env - 15 * 60 * 1000 <= t) (failure_times (User.id user) db) ->
  (5 <= length (List.filter (wrong_password L user) steps))%nat ->
  AuthRoutes.login_valid L req = true ->
  userByEmail db (login_email L req) = Some user ->
  activityLogCountFails (faults env) = false ->
  forall cmp,
    fst (AuthRoutes.login (with_bcrypt L cmp) env req (snd (attempts L steps db))) =
    Returned AuthRoutes.account_locked.
Proof.
  intros Ha Hsteps Hwrong Hw H5 Hv Hu Hc cmp.
  destruct (attempts_failure_rows L user (now env - 15 * 60 * 1000) steps db Ha Hsteps Hwrong Hw)
    as [Hin Hlen].
  rewrite (login_locked (with_bcrypt L cmp) env req _ user); [reflexivity | exact Hv | | exact Ha |].
  - change (login_email (with_bcrypt L cmp) req) with (login_email L req).
    rewrite (userByEmail_users db); [exact Hu | apply attempts_users].
  - unfold locked_out. rewrite Hc. apply Nat.leb_le.
    rewrite recent_failures_all by exact Hin. lia.
Qed.

Section BlockedAttempts.

Variable L : Libs.

(** An attempt answered 423 adds no failure row, for any user. *)
Lemma blocked_login_failure_times env req db userId :
  fst (AuthRoutes.login L env req db) = Returned AuthRoutes.account_locked ->
  failure_times userId (snd (AuthRoutes.login L env req db)) = failure_times userId db.
Proof.
  intros Hr. rewrite login_fst in Hr. unfold login_response in Hr.
  destruct (AuthRoutes.login_valid L req) eqn:Hv; [|discriminate Hr].
  destruct (userByEmail db (login_email L req)) as [user|] eqn:Hu; [|discriminate Hr].
  destruct (User.isActive user) eqn:Ha; [|discriminate Hr].
  destruct (locked_out env (User.id user) db) eqn:Hl.
  - rewrite (login_locked L env req db user) by assumption. cbn [snd].
    rewrite failure_times_after_log, is_failure_row_blocked.
    destruct (activityLogCreateFails (faults env)); reflexivity.
  - destruct (password_ok L req user); [|discriminate Hr].
    unfold success_response in Hr. destruct (User.mfaEnabled user); discriminate Hr.
Qed.

Lemma locked_out_failure_times env userId db db' :
  failure_times userId db' = failure_times userId db ->
  locked_out env userId db' = locked_out env userId db.
Proof.
  intros H. unfold locked_out. rewrite !recent_failures_times, H. reflexivity.
Qed.

End BlockedAttempts.

(** X2: attempts answered 423 do not prolong a lockout.  After any sequence
    of login attempts that were all answered 423, the failed logins on record
    are those on record before, for every user; so whether a later attempt is
    locked out is decided by the database as it was before the sequence. *)
Theorem blocked_attempts_do_not_extend_lockout (L : Libs) (steps : list (Env * Request))
    (db : Db) :
  Forall (fun r => r = Returned AuthRoutes.account_locked) (fst (attempts L steps db)) ->
  forall userId,
    failure_times userId (snd (attempts L steps db)) = failure_times userId db
    /\ (forall env, locked_out env userId (snd (attempts L steps db)) = locked_out env userId db).
Proof.
  intros Hall userId.
  assert (H : failure_times userId (snd (attempts L steps db)) = failure_times userId db).
  { revert db Hall. induction steps as [|[env req] rest IH]; intros db Hall; [reflexivity|].
    rewrite attempts_cons in Hall |- *. cbn [fst snd] in Hall |- *.
    apply Forall_cons in Hall as [Hr Hall].
    rewrite (IH _ Hall). apply blocked_login_failure_times. exact Hr. }
  split; [exact H|]. intros env. apply locked_out_failure_times. exact H.
Qed.

Section NewContext.

Variable L : Libs.
Variable env : Env.

Lemma isNewDevice_no_header req history :
  header_user_agent req = None -> AuthRoutes.isNewDevice req history = true.
Proof.
  intros H. unfold AuthRoutes.isNewDevice. rewrite H.
  induction history as [|l history IH]; [reflexivity|]. cbn [existsb Js.strict_eq orb]. exact IH.
Qed.

End NewContext.

(** X3: a client that sends no User-Agent header is alerted at every
    successful login.  The row written stores 'Unknown' and the comparison is
    with [undefined], so no earlier login ever matches: when the history read
    and the notification write succeed, exactly one notification, worded for a
    new device, is created, whatever the login history holds. *)
Theorem no_user_agent_always_notified (L : Libs) (env : Env) (req : Request) (db : Db)
    (user : User.t) :
  AuthRoutes.login_valid L req = true ->
  userByEmail db (login_email L req) = Some user ->
  User.isActive user = true ->
  locked_out env (User.id user) db = false ->
  password_ok L req user = true ->
  header_user_agent req = None ->
  activityLogFindManyFails (faults env) = false ->
  notificationCreateFails (faults env) = false ->
  exists n,
    notifications (snd (AuthRoutes.login L env req db)) = n :: notifications db
    /\ Notification.what n = "device"
    /\ Notification.userId n = User.id user.
Proof.
  intros Hv Hu Ha Hl Hp Hua Hr Hn.
  rewrite (login_success L env req db user Hv Hu Ha Hl Hp). cbn [snd].
  rewrite after_detection_run, Hr, Hn. unfold new_context.
  rewrite (isNewDevice_no_header req _ Hua). cbn [orb].
  set (db1 := after_log env (User.id user) "LOGIN_SUCCESS" req [] db).
  assert (Hsame : notifications db1 = notifications db).
  { subst db1. unfold after_log. destruct (activityLogCreateFails (faults env)); reflexivity. }
  exists (AuthRoutes.security_notification env user req (previousHistory env (User.id user) db1)).
  split.
  - cbn [notifications set_notifications]. rewrite Hsame. reflexivity.
  - unfold AuthRoutes.security_notification.
    rewrite (isNewDevice_no_header req _ Hua). split; reflexivity.
Qed.

Lemma strict_eq_or_lit (v : Js.value) (d : string) :
  Js.truthy v = true -> Js.strict_eq (Js.or_lit v d) v = true.
Proof.
  destruct v as [s|]; [|discriminate]. cbn. destruct (String.eqb s "") eqn:E; [discriminate|].
  intros _. apply String.eqb_refl.
Qed.

Lemma is_recent_success_entry env env' userId req details :
  now env' - 30 * 24 * 60 * 60 * 1000 <= now env ->
  AuthRoutes.is_recent_success env' userId
    (AuthRoutes.log_entry env userId "LOGIN_SUCCESS" req details) = true.
Proof.
  intros Ht. unfold AuthRoutes.is_recent_success, AuthRoutes.log_entry.
  rewrite split_action_success.
  cbn [fst snd ActivityLog.userId ActivityLog.action ActivityLog.status ActivityLog.createdAt].
  rewrite String.eqb_refl.
  replace (String.eqb "LOGIN" "LOGIN") with true by reflexivity.
  replace (String.eqb "SUCCESS" "SUCCESS") with true by reflexivity.
  cbn [andb]. apply Z.leb_le. exact Ht.
Qed.

(** X4: signing in again from the same browser and address raises no second
    alert.  After a successful login whose row was written, a second
    successful login with the same request, at most 30 days later, creates no
    notification (its own row being written, and no row dated after the first
    login). *)
Theorem same_device_second_login_not_notified (L : Libs) (env1 env2 : Env) (req : Request)
    (db : Db) (user : User.t) :
  AuthRoutes.login_valid L req = true ->
  userByEmail db (login_email L req) = Some user ->
  User.isActive user = true ->
  locked_out env1 (User.id user) db = false ->
  locked_out env2 (User.id user) db = false ->
  password_ok L req user = true ->
  activityLogCreateFails (faults env1) = false ->
  activityLogCreateFails (faults env2) = false ->
  Forall (fun l => ActivityLog.createdAt l <= now env1) (activityLogs db) ->
  now env1 <= now env2 ->
  now env2 - 30 * 24 * 60 * 60 * 1000 <= now env1 ->
  Js.truthy (header_user_agent req) = true ->
  Js.truthy (AuthRoutes.request_ip req) = true ->
  let db1 := snd (AuthRoutes.login L env1 req db) in
  fst (AuthRoutes.login L env2 req db1) = Returned (success_response L user)
  /\ notifications (snd (AuthRoutes.login L env2 req db1)) = notifications db1.
Proof.
  intros Hv Hu Ha Hl1 Hl2 Hp Hw1 Hw2 Hpast Ht Hmonth Hua Hip db1.
  set (entry1 := AuthRoutes.log_entry env1 (User.id user) "LOGIN_SUCCESS" req []).
  assert (Hdb1 : db1 = after_detection env1 user req
                         (after_log env1 (User.id user) "LOGIN_SUCCESS" req [] db)).
  { subst db1. rewrite (login_success L env1 req db user Hv Hu Ha Hl1 Hp). reflexivity. }
  assert (Hlogs1 : activityLogs db1 = entry1 :: activityLogs db).
  { rewrite Hdb1, (proj1 (after_detection_logs env1 user req _)).
    unfold after_log. rewrite Hw1. reflexivity. }
  assert (Hu1 : userByEmail db1 (login_email L req) = Some user).
  { rewrite (userByEmail_users db db1); [exact Hu | apply login_users]. }
  assert (Hl2' : locked_out env2 (User.id user) db1 = false).
  { rewrite (locked_out_failure_times env2 (User.id user) db db1); [exact Hl2|].
    unfold failure_times. rewrite Hlogs1. cbn [List.filter].
    subst entry1. rewrite is_failure_row_success. reflexivity. }
  rewrite (login_success L env2 req db1 user Hv Hu1 Ha Hl2' Hp). cbn [fst snd].
  split; [reflexivity|].
  set (db2 := after_log env2 (User.id user) "LOGIN_SUCCESS" req [] db1).
  assert (Hn2 : notifications db2 = notifications db1).
  { subst db2. unfold after_log. rewrite Hw2. reflexivity. }
  rewrite after_detection_run.
  destruct (activityLogFindManyFails (faults env2)); [exact Hn2|].
  assert (Hhist : previousHistory env2 (User.id user) db2 =
                  entry1 :: firstn 18 (orderBy_createdAt_desc
                                         (List.filter (AuthRoutes.is_recent_success env2 (User.id user))
                                            (activityLogs db)))).
  { subst db2. rewrite previousHistory_after_log.
    - rewrite Hlogs1. cbn [List.filter]. subst entry1.
      rewrite (is_recent_success_entry env1 env2 _ _ _ Hmonth).
      unfold orderBy_createdAt_desc. cbn [List.fold_right].
      rewrite insert_desc_newest; [reflexivity|].
      apply orderBy_Forall, filter_Forall. exact Hpast.
    - exact Hw2.
    - rewrite Hlogs1. constructor.
      + subst entry1. cbn. exact Ht.
      + eapply List.Forall_impl; [|exact Hpast]. cbn. intros l Hle. lia. }
  unfold new_context. rewrite Hhist.
  unfold AuthRoutes.isNewDevice, AuthRoutes.isNewIp. cbn [existsb].
  subst entry1. unfold AuthRoutes.log_entry.
  cbn [ActivityLog.userAgent ActivityLog.ipAddress].
  rewrite (strict_eq_or_lit _ _ Hua), (strict_eq_or_lit _ _ Hip). cbn [orb negb].
  exact Hn2.
Qed.

(** Two wrong passwords, a correct login and three more wrong passwords:
    the correct password is then answered 423. *)
Lemma five_wrong_passwords_witness :
  fst (AuthRoutes.login Sample.libs Sample.env Cases.good
         (snd (attempts Sample.libs Cases.six_attempts (Sample.db_of Sample.alice [])))) =
  Returned AuthRoutes.account_locked.
Proof.
  exact (five_wrong_passwords_lock_the_account Sample.libs Cases.six_attempts
           (Sample.db_of Sample.alice []) Sample.alice Sample.env Cases.good
           eq_refl
           ltac:(repeat (apply List.Forall_cons; [split; reflexivity|]); apply List.Forall_nil)
           ltac:(repeat (apply List.Forall_cons;
                         [intros _; split; [reflexivity | vm_compute; discriminate]|]);
                 apply List.Forall_nil)
           (List.Forall_nil _)
           ltac:(vm_compute; lia)
           eq_refl eq_refl eq_refl String.eqb).
Defined.

(** Three attempts on a locked-out account leave the five failures on record. *)
Lemma blocked_attempts_witness :
  failure_times "u1"
    (snd (attempts Sample.libs Cases.three_attempts
            (Sample.db_of Sample.alice (Sample.five_failures "u1")))) =
  failure_times "u1" (Sample.db_of Sample.alice (Sample.five_failures "u1")).
Proof.
  exact (proj1 (blocked_attempts_do_not_extend_lockout Sample.libs Cases.three_attempts
                  (Sample.db_of Sample.alice (Sample.five_failures "u1"))
                  ltac:(repeat (apply List.Forall_cons; [reflexivity|]); apply List.Forall_nil)
                  "u1")).
Defined.

(** No User-Agent header: alerted although the same address signed in before. *)
Lemma no_user_agent_witness :
  exists n,
    notifications
      (snd (AuthRoutes.login Sample.libs Sample.env Cases.no_agent
              (Sample.db_of Sample.alice
                 [Sample.success "u1" "10.0.0.1" "Unknown" (Sample.t0 - 1000)]))) = [n]
    /\ Notification.what n = "device"
    /\ Notification.userId n = "u1".
Proof.
  exact (no_user_agent_always_notified Sample.libs Sample.env Cases.no_agent
           (Sample.db_of Sample.alice
              [Sample.success "u1" "10.0.0.1" "Unknown" (Sample.t0 - 1000)])
           Sample.alice eq_refl eq_refl eq_refl eq_refl eq_refl eq_refl eq_refl eq_refl).
Defined.

(** A first login and a second one a minute later: one notification in all. *)
Lemma same_device_witness :
  fst (AuthRoutes.login Sample.libs (Cases.at_time (Sample.t0 + 60000)) Cases.good
         (snd (AuthRoutes.login Sample.libs Sample.env Cases.good (Sample.db_of Sample.alice [])))) =
  Returned (success_response Sample.libs Sample.alice)
  /\ notifications
       (snd (AuthRoutes.login Sample.libs (Cases.at_time (Sample.t0 + 60000)) Cases.good
               (snd (AuthRoutes.login Sample.libs Sample.env Cases.good
                       (Sample.db_of Sample.alice []))))) =
     notifications
       (snd (AuthRoutes.login Sample.libs Sample.env Cases.good (Sample.db_of Sample.alice []))).
Proof.
  exact (same_device_second_login_not_notified Sample.libs Sample.env
           (Cases.at_time (Sample.t0 + 60000)) Cases.good (Sample.db_of Sample.alice [])
           Sample.alice eq_refl eq_refl eq_refl eq_refl eq_refl eq_refl eq_refl eq_refl
           (List.Forall_nil _)
           ltac:(vm_compute; discriminate) ltac:(vm_compute; discriminate)
           eq_refl eq_refl).
Defined.

(** ** The [auth] middleware and [/me] *)

Lemma substring_all (s : string) : String.substring 0 (String.length s) s = s.
Proof. induction s as [|c s IH]; [reflexivity|]. cbn. rewrite IH. reflexivity. Qed.

(** Removing the scheme from a header that starts with it leaves the rest. *)
Lemma replace_bearer_prefix (t : string) :
  Js.replace (String.append "Bearer " t) "Bearer " "" = t.
Proof.
  change (String.append "Bearer " t)
    with (String "B" (String "e" (String "a" (String "r" (String "e" (String "r"
            (String " " t))))))).
  cbn. rewrite Nat.sub_0_r.
  replace (String.prefix "" t) with true by (destruct t; reflexivity).
  exact (substring_all t).
Qed.

(** [replace] leaves a string without the pattern as it is. *)
Lemma replace_absent (s pat rep : string) :
  Js.includes s pat = false -> Js.replace s pat rep = s.
Proof.
  induction s as [|c s IH]; cbn [Js.includes Js.replace].
  - destruct (String.prefix pat ""); [discriminate | reflexivity].
  - destruct (String.prefix pat (String c s)); [discriminate|].
    intros H. rewrite (IH H). reflexivity.
Qed.

Section Middleware.

Variable M : MoreLibs.

Lemma auth_run authorization db :
  AuthMiddleware.auth M authorization db =
  (Returned
     (if Js.truthy (AuthMiddleware.bearer_token authorization) then
        match jwt_verify M (Js.or_lit (AuthMiddleware.bearer_token authorization) "") with
        | None => Denied "Access denied. Invalid token."
        | Some decoded =>
            match userById db (jwt_userId decoded) with
            | None => Denied "Access denied. User not found or inactive."
            | Some user =>
                if User.isActive user then Next (AuthMiddleware.selected user)
                else Denied "Access denied. User not found or inactive."
            end
        end
      else Denied "Access denied. No token provided."), db).
Proof.
  unfold AuthMiddleware.auth, try_catch, bind, user_findUnique_id, gets, ret, throw.
  destruct (Js.truthy (AuthMiddleware.bearer_token authorization)); [|reflexivity].
  cbn [negb].
  destruct (jwt_verify M _) as [decoded|]; [|reflexivity].
  destruct (userById db (jwt_userId decoded)) as [user|]; [|reflexivity].
  destruct (User.isActive user); reflexivity.
Qed.

Lemma me_run authorization db :
  AuthMiddleware.me M authorization db =
  (Returned
     (if Js.truthy (AuthMiddleware.bearer_token authorization) then
        match jwt_verify M (Js.or_lit (AuthMiddleware.bearer_token authorization) "") with
        | None => mkReply 401 (PMessage false "Invalid token")
        | Some decoded =>
            match userById db (jwt_userId decoded) with
            | None => mkReply 401 (PMessage false "User not found")
            | Some user =>
                mkReply 200
                  (PUser user ["id"; "email"; "firstName"; "lastName"; "role"; "isActive"])
            end
        end
      else mkReply 401 (PMessage false "No token")), db).
Proof.
  unfold AuthMiddleware.me, try_catch, bind, user_findUnique_id, gets, ret, throw.
  destruct (Js.truthy (AuthMiddleware.bearer_token authorization)); [|reflexivity].
  cbn [negb].
  destruct (jwt_verify M _) as [decoded|]; [|reflexivity].
  destruct (userById db (jwt_userId decoded)) as [user|]; reflexivity.
Qed.

End Middleware.

(** X5: the [auth] middleware lets a request through exactly when its
    header carries a token that verifies, the user the token names exists and
    is active; [req.user] is then that user.  It never throws and never
    writes.  [authorize] after it lets through exactly the users whose role
    is one of the listed roles. *)
Theorem auth_admits_active_token_holders (M : MoreLibs) (authorization : Js.value) (db : Db) :
  snd (AuthMiddleware.auth M authorization db) = db
  /\ (exists a, fst (AuthMiddleware.auth M authorization db) = Returned a)
  /\ (forall ru,
        fst (AuthMiddleware.auth M authorization db) = Returned (Next ru) <->
        exists decoded user,
          Js.truthy (AuthMiddleware.bearer_token authorization) = true
          /\ jwt_verify M (Js.or_lit (AuthMiddleware.bearer_token authorization) "") = Some decoded
          /\ userById db (jwt_userId decoded) = Some user
          /\ User.isActive user = true
          /\ ru = AuthMiddleware.selected user)
  /\ (forall roles ru,
        AuthMiddleware.authorize roles (Some ru) = Next ru <-> In (ru_role ru) roles)
  /\ (forall roles, exists m, AuthMiddleware.authorize roles None = Denied m).
Proof.
  rewrite auth_run. cbn [fst snd].
  split; [reflexivity|]. split; [eexists; reflexivity|]. split; [|split].
  - intros ru. split.
    + destruct (Js.truthy (AuthMiddleware.bearer_token authorization)); [|discriminate].
      destruct (jwt_verify M _) as [decoded|] eqn:Hd; [|discriminate].
      destruct (userById db (jwt_userId decoded)) as [user|] eqn:Hu; [|discriminate].
      destruct (User.isActive user) eqn:Ha; [|discriminate].
      intros [= <-]. exists decoded, user. repeat split; assumption.
    + intros (decoded & user & Ht & Hd & Hu & Ha & ->).
      rewrite Ht, Hd, Hu, Ha. reflexivity.
  - intros roles ru. unfold AuthMiddleware.authorize.
    destruct (existsb (String.eqb (ru_role ru)) roles) eqn:E; cbn [negb].
    + split; [|reflexivity]. intros _. apply List.existsb_exists in E as (r & Hin & Heq).
      apply String.eqb_eq in Heq. subst r. exact Hin.
    + split; [discriminate|]. intros Hin.
      assert (existsb (String.eqb (ru_role ru)) roles = true).
      { apply List.existsb_exists. exists (ru_role ru). split; [exact Hin | apply String.eqb_refl]. }
      congruence.
  - intros roles. eexists. reflexivity.
Qed.

(** X6: the Authorization scheme is not enforced.  A header that holds the
    bare token, without 'Bearer ', is treated by [auth] and by [/me] exactly
    as the header 'Bearer <token>' (for a token that does not itself contain
    'Bearer '). *)
Theorem bearer_scheme_is_optional (M : MoreLibs) (token : string) (db : Db) :
  Js.includes token "Bearer " = false ->
  AuthMiddleware.auth M (Some token) db =
  AuthMiddleware.auth M (Some (String.append "Bearer " token)) db
  /\ AuthMiddleware.me M (Some token) db =
     AuthMiddleware.me M (Some (String.append "Bearer " token)) db.
Proof.
  intros H. rewrite !auth_run, !me_run. unfold AuthMiddleware.bearer_token.
  rewrite replace_bearer_prefix, (replace_absent token _ _ H). split; reflexivity.
Qed.

(** X7: a deactivated user keeps access to [/me].  With a token that
    verifies and names a user whose [isActive] is false, the [auth]
    middleware answers 401, while [/me], which checks the token itself,
    answers 200 with the user. *)
Theorem me_answers_deactivated_users (M : MoreLibs) (authorization : Js.value) (db : Db)
    (decoded : JwtPayload) (user : User.t) :
  Js.truthy (AuthMiddleware.bearer_token authorization) = true ->
  jwt_verify M (Js.or_lit (AuthMiddleware.bearer_token authorization) "") = Some decoded ->
  userById db (jwt_userId decoded) = Some user ->
  User.isActive user = false ->
  AuthMiddleware.auth M authorization db =
  (Returned (Denied "Access denied. User not found or inactive."), db)
  /\ AuthMiddleware.me M authorization db =
     (Returned (mkReply 200
                  (PUser user ["id"; "email"; "firstName"; "lastName"; "role"; "isActive"])), db).
Proof.
  intros Ht Hd Hu Ha. rewrite auth_run, me_run, Ht, Hd, Hu, Ha. split; reflexivity.
Qed.

(** ** MFA setup and disable *)

Lemma find_map_same {A} (p : A -> bool) (g : A -> A) (l : list A) :
  (forall a, p (g a) = p a) ->
  List.find p (List.map g l) = option_map g (List.find p l).
Proof.
  intros H. induction l as [|a l IH]; [reflexivity|].
  cbn [List.map List.find]. rewrite H. destruct (p a); [reflexivity | exact IH].
Qed.

Lemma find_some_holds {A} (p : A -> bool) (l : list A) (a : A) :
  List.find p l = Some a -> p a = true.
Proof. intros H. apply List.find_some in H. tauto. Qed.

Section UserUpdates.

Variable id : string.
Variable data : User.t -> User.t.
Hypothesis data_id : forall u, User.id (data u) = User.id u.
Hypothesis data_email : forall u, User.email (data u) = User.email u.

Lemma user_update_run db user :
  userById db id = Some user ->
  user_update id data db = (Returned tt, update_user_row id data db).
Proof. intros H. unfold user_update. rewrite H. reflexivity. Qed.

Lemma user_update_missing db :
  userById db id = None ->
  user_update id data db = (Thrown "Record to update not found.", db).
Proof. intros H. unfold user_update. rewrite H. reflexivity. Qed.

Lemma userById_update db id' :
  userById (update_user_row id data db) id' =
  option_map (fun u => if String.eqb (User.id u) id then data u else u) (userById db id').
Proof.
  unfold userById, update_user_row. cbn [users set_users].
  apply find_map_same. intros u. destruct (String.eqb (User.id u) id); [|reflexivity].
  rewrite data_id. reflexivity.
Qed.

Lemma userByEmail_update db email :
  userByEmail (update_user_row id data db) email =
  option_map (fun u => if String.eqb (User.id u) id then data u else u) (userByEmail db email).
Proof.
  unfold userByEmail, update_user_row. cbn [users set_users].
  apply find_map_same. intros u. destruct (String.eqb (User.id u) id); [|reflexivity].
  rewrite data_email. reflexivity.
Qed.

(** The row of the user updated. *)
Lemma userById_update_same db user :
  userById db id = Some user ->
  userById (update_user_row id data db) id = Some (data user).
Proof.
  intros H. rewrite userById_update, H. cbn [option_map].
  apply find_some_holds in H. cbn in H. rewrite H. reflexivity.
Qed.

Lemma userByEmail_update_same db email user :
  userByEmail db email = Some user ->
  User.id user = id ->
  userByEmail (update_user_row id data db) email = Some (data user).
Proof.
  intros H Hid. rewrite userByEmail_update, H. cbn [option_map].
  rewrite Hid, String.eqb_refl. reflexivity.
Qed.

(** The rows of the other users. *)
Lemma userById_update_other db id' :
  id' <> id -> userById (update_user_row id data db) id' = userById db id'.
Proof.
  intros Hne. rewrite userById_update.
  destruct (userById db id') as [u|] eqn:H; [|reflexivity]. cbn [option_map].
  apply find_some_holds in H. cbn in H. apply String.eqb_eq in H.
  assert (E : String.eqb (User.id u) id = false) by (apply String.eqb_neq; congruence).
  rewrite E. reflexivity.
Qed.

Lemma locked_out_update env userId db :
  locked_out env userId (update_user_row id data db) = locked_out env userId db.
Proof. reflexivity. Qed.

End UserUpdates.

Lemma userById_id db id user : userById db id = Some user -> User.id user = id.
Proof. intros H. apply find_some_holds in H. cbn in H. apply String.eqb_eq. exact H. Qed.

Section SetupRuns.

Variable M : MoreLibs.

Lemma auth_setup_run generated req db user :
  userById db (req_user_id req) = Some user ->
  AuthMfa.mfa_setup M generated req db =
  (Returned
     (match qrcode_toDataURL M (otpauth_url generated) with
      | Some qr => mkReply 200 (PSetup qr (base32 generated) "Scan QR code with authenticator app")
      | None => mkReply 500 (PError "Failed to generate MFA setup")
      end),
   update_user_row (req_user_id req) (store_secret (base32 generated)) db).
Proof.
  intros H. unfold AuthMfa.mfa_setup, try_catch, bind.
  rewrite (user_update_run _ _ db user H).
  destruct (qrcode_toDataURL M (otpauth_url generated)); reflexivity.
Qed.

Lemma file_setup_run generated req db user :
  userById db (req_user_id req) = Some user ->
  MfaFile.setup M generated req db =
  (Returned
     (match qrcode_toDataURL M (otpauth_url generated) with
      | Some qr => mkReply 200 (PSetup qr (base32 generated) "Scan with your authenticator app")
      | None => mkReply 500 (PError "Failed to generate MFA setup")
      end),
   update_user_row (req_user_id req) (store_secret (base32 generated)) db).
Proof.
  intros H. unfold MfaFile.setup, try_catch, bind.
  rewrite (user_update_run _ _ db user H).
  destruct (qrcode_toDataURL M (otpauth_url generated)); reflexivity.
Qed.

Lemma auth_disable_run req db user :
  userById db (req_user_id req) = Some user ->
  AuthMfa.mfa_disable req db =
  (Returned (mkReply 200 (PMessage true "Two-Factor Authentication has been disabled.")),
   update_user_row (req_user_id req) clear_mfa db).
Proof.
  intros H. unfold AuthMfa.mfa_disable, try_catch, bind.
  rewrite (user_update_run _ _ db user H). reflexivity.
Qed.

Lemma file_disable_run req db user :
  userById db (req_user_id req) = Some user ->
  MfaFile.disable req db =
  (Returned (mkReply 200 (PMessage true "MFA disabled")),
   update_user_row (req_user_id req) clear_mfa db).
Proof.
  intros H. unfold MfaFile.disable, try_catch, bind.
  rewrite (user_update_run _ _ db user H). reflexivity.
Qed.

End SetupRuns.

(** X8: MFA setup replaces the stored secret at once, also when it fails.
    For an existing user, the setup handlers of both files store the generated
    secret and leave [mfaEnabled], the user's other columns and every other
    user as they were; when the QR code cannot be drawn the answer is 500 and
    the new secret is stored all the same. *)
Theorem mfa_setup_stores_secret_even_on_failure (M : MoreLibs) (generated : GeneratedSecret)
    (req : Request) (db : Db) (user : User.t) :
  userById db (req_user_id req) = Some user ->
  let db' := snd (AuthMfa.mfa_setup M generated req db) in
  snd (MfaFile.setup M generated req db) = db'
  /\ userById db' (req_user_id req) = Some (store_secret (base32 generated) user)
  /\ User.mfaEnabled (store_secret (base32 generated) user) = User.mfaEnabled user
  /\ (forall id', id' <> req_user_id req -> userById db' id' = userById db id')
  /\ activityLogs db' = activityLogs db
  /\ (qrcode_toDataURL M (otpauth_url generated) = None ->
      fst (AuthMfa.mfa_setup M generated req db) =
      Returned (mkReply 500 (PError "Failed to generate MFA setup"))
      /\ fst (MfaFile.setup M generated req db) =
         Returned (mkReply 500 (PError "Failed to generate MFA setup"))).
Proof.
  intros Hu db'. subst db'.
  rewrite (auth_setup_run M generated req db user Hu), (file_setup_run M generated req db user Hu).
  cbn [fst snd]. split; [reflexivity|]. split.
  { apply userById_update_same; [reflexivity | exact Hu]. }
  split; [reflexivity|]. split.
  { intros id' Hne. apply userById_update_other; [reflexivity | exact Hne]. }
  split; [reflexivity|].
  intros Hq. rewrite Hq. split; reflexivity.
Qed.

(** X9: a secret set up on an account with MFA already on takes effect
    without being verified.  After setup for such a user, [/mfa/login] checks
    the submitted code against the newly generated secret: the token is issued
    exactly when the code verifies against it, whatever secret was stored
    before. *)
Theorem setup_replaces_active_secret (L : Libs) (M : MoreLibs) (env : Env)
    (generated : GeneratedSecret) (req reqLogin : Request) (db : Db) (user : User.t) :
  userById db (req_user_id req) = Some user ->
  User.mfaEnabled user = true ->
  base32 generated <> "" ->
  body_userId reqLogin = Some (req_user_id req) ->
  req_user_id req <> "" ->
  Js.truthy (body_token reqLogin) = true ->
  fst (AuthRoutes.mfa_login L env reqLogin (snd (AuthMfa.mfa_setup M generated req db))) =
  Returned
    (if totp_verify L (base32 generated) (Js.or_lit (body_token reqLogin) "") 2 (now env)
     then mkResponse 200
            (BLogin "Login successful with MFA"
               (AuthRoutes.safeUser (store_secret (base32 generated) user))
               (AuthRoutes.token_for L user))
     else mkResponse 401 (BMessage false "Invalid or expired MFA code")).
Proof.
  intros Hu Hm Hs Hid Hne Ht.
  rewrite (auth_setup_run M generated req db user Hu). cbn [snd].
  assert (Hsecret : String.eqb (base32 generated) "" = false) by (apply String.eqb_neq; exact Hs).
  assert (Hidne : String.eqb (req_user_id req) "" = false) by (apply String.eqb_neq; exact Hne).
  rewrite (mfa_login_configured L env reqLogin _ (store_secret (base32 generated) user)).
  - cbn [store_secret User.mfaSecret Js.or_lit]. rewrite Hsecret. reflexivity.
  - rewrite Hid. cbn [Js.truthy]. rewrite Hidne. reflexivity.
  - exact Ht.
  - rewrite Hid. cbn [Js.or_lit]. rewrite Hidne.
    apply userById_update_same; [reflexivity | exact Hu].
  - exact Hm.
  - cbn [store_secret User.mfaSecret Js.truthy]. rewrite Hsecret. reflexivity.
Qed.

Lemma userById_users db db' id : users db' = users db -> userById db' id = userById db id.
Proof. unfold userById. intros ->. reflexivity. Qed.

(** X10: enrolment end to end.  For an active user: setup, then verify with
    a code that verifies against the generated secret, switches MFA on; a
    password login then answers "MFA required" with the user's id instead of
    a token; and [/mfa/login] with that id and a verifying code issues the
    token. *)
Theorem mfa_enrolment_round_trip (L : Libs) (M : MoreLibs) (env1 env2 env3 : Env)
    (generated : GeneratedSecret) (reqSetup reqCode reqPw reqMfa : Request) (db : Db)
    (user : User.t) :
  userById db (req_user_id reqSetup) = Some user ->
  userByEmail db (login_email L reqPw) = Some user ->
  User.isActive user = true ->
  base32 generated <> "" ->
  req_user_id reqSetup <> "" ->
  req_user_id reqCode = req_user_id reqSetup ->
  AuthRoutes.bad_code (body_token reqCode) = false ->
  totp_verify L (base32 generated) (Js.or_lit (body_token reqCode) "") 2 (now env1) = true ->
  AuthRoutes.login_valid L reqPw = true ->
  locked_out env2 (User.id user) db = false ->
  password_ok L reqPw user = true ->
  body_userId reqMfa = Some (req_user_id reqSetup) ->
  Js.truthy (body_token reqMfa) = true ->
  totp_verify L (base32 generated) (Js.or_lit (body_token reqMfa) "") 2 (now env3) = true ->
  let db1 := snd (AuthMfa.mfa_setup M generated reqSetup db) in
  let db2 := snd (AuthRoutes.mfa_verify L env1 reqCode db1) in
  let db3 := snd (AuthRoutes.login L env2 reqPw db2) in
  fst (AuthRoutes.mfa_verify L env1 reqCode db1) =
  Returned (mkResponse 200 (BMessage true "Two-Factor Authentication enabled successfully!"))
  /\ fst (AuthRoutes.login L env2 reqPw db2) =
     Returned (mkResponse 200 (BMfaRequired (req_user_id reqSetup) "MFA required"))
  /\ fst (AuthRoutes.mfa_login L env3 reqMfa db3) =
     Returned (mkResponse 200
                 (BLogin "Login successful with MFA"
                    (AuthRoutes.safeUser
                       (AuthRoutes.enable_mfa (store_secret (base32 generated) user)))
                    (AuthRoutes.token_for L user))).
Proof.
  intros Hu He Ha Hs Hne Hcid Hbad Hv1 Hvalid Hl Hp Hmid Hmt Hv3 db1 db2 db3.
  set (uid := req_user_id reqSetup) in *.
  set (user1 := store_secret (base32 generated) user).
  set (user2 := AuthRoutes.enable_mfa user1).
  assert (Hid : User.id user = uid) by (apply (userById_id db); exact Hu).
  assert (Hsecret : String.eqb (base32 generated) "" = false) by (apply String.eqb_neq; exact Hs).
  assert (Hidne : String.eqb uid "" = false) by (apply String.eqb_neq; exact Hne).
  assert (Hdb1 : db1 = update_user_row uid (store_secret (base32 generated)) db).
  { subst db1. rewrite (auth_setup_run M generated reqSetup db user Hu). reflexivity. }
  assert (Hu1 : userById db1 uid = Some user1).
  { rewrite Hdb1. apply userById_update_same; [reflexivity | exact Hu]. }
  assert (He1 : userByEmail db1 (login_email L reqPw) = Some user1).
  { rewrite Hdb1. apply userByEmail_update_same; [reflexivity | exact He | exact Hid]. }
  assert (Hcv : code_verifies L env1 2 reqCode db1 = true).
  { unfold code_verifies. rewrite Hcid. fold uid. rewrite Hu1.
    subst user1. cbn [store_secret User.mfaSecret Js.truthy Js.or_lit].
    rewrite Hsecret. cbn [negb andb]. exact Hv1. }
  assert (Hrun2 : AuthRoutes.mfa_verify L env1 reqCode db1 =
                  (Returned (mkResponse 200
                               (BMessage true "Two-Factor Authentication enabled successfully!")),
                   update_user_row uid AuthRoutes.enable_mfa db1)).
  { rewrite auth_mfa_verify_run, Hbad, Hcv, Hcid. reflexivity. }
  assert (Hdb2 : db2 = update_user_row uid AuthRoutes.enable_mfa db1)
    by (subst db2; rewrite Hrun2; reflexivity).
  assert (Hu2 : userById db2 uid = Some user2).
  { rewrite Hdb2. apply userById_update_same; [reflexivity | exact Hu1]. }
  assert (He2 : userByEmail db2 (login_email L reqPw) = Some user2).
  { rewrite Hdb2. apply userByEmail_update_same; [reflexivity | exact He1 | exact Hid]. }
  assert (Hl2 : locked_out env2 (User.id user2) db2 = false).
  { rewrite Hdb2, Hdb1. exact Hl. }
  split; [rewrite Hrun2; reflexivity|]. split.
  - rewrite login_fst. unfold login_response. rewrite Hvalid, He2, Hl2.
    change (User.isActive user2) with (User.isActive user). rewrite Ha.
    change (password_ok L reqPw user2) with (password_ok L reqPw user). rewrite Hp.
    unfold success_response. cbn [user2 AuthRoutes.enable_mfa User.mfaEnabled User.id].
    rewrite <- Hid. reflexivity.
  - rewrite (mfa_login_configured L env3 reqMfa db3 user2).
    + subst user2 user1.
      cbn [AuthRoutes.enable_mfa store_secret User.mfaSecret Js.or_lit].
      rewrite Hsecret, Hv3. reflexivity.
    + rewrite Hmid. cbn [Js.truthy]. rewrite Hidne. reflexivity.
    + exact Hmt.
    + rewrite Hmid. cbn [Js.or_lit]. rewrite Hidne.
      rewrite (userById_users db2 db3); [exact Hu2 | apply login_users].
    + reflexivity.
    + subst user2 user1. cbn [AuthRoutes.enable_mfa store_secret User.mfaSecret Js.truthy].
      rewrite Hsecret. reflexivity.
Qed.

(** X11: disabling MFA removes the second factor at once.  After disable
    (the handlers of both files write the same), [mfaEnabled] is false and the
    secret is gone: a password login of the active, not locked-out user is
    answered with the token directly, [/mfa/login] for that user is answered
    400 whatever the code, and so is [/mfa/verify]. *)
Theorem mfa_disable_removes_second_factor (L : Libs) (env env' : Env) (req reqPw : Request)
    (db : Db) (user : User.t) :
  userById db (req_user_id req) = Some user ->
  userByEmail db (login_email L reqPw) = Some user ->
  User.isActive user = true ->
  AuthRoutes.login_valid L reqPw = true ->
  locked_out env (User.id user) db = false ->
  password_ok L reqPw user = true ->
  let db' := snd (AuthMfa.mfa_disable req db) in
  snd (MfaFile.disable req db) = db'
  /\ userById db' (req_user_id req) = Some (clear_mfa user)
  /\ fst (AuthRoutes.login L env reqPw db') =
     Returned (mkResponse 200
                 (BLogin "Login successful" (AuthRoutes.userWithoutPassword (clear_mfa user))
                    (AuthRoutes.token_for L user)))
  /\ (forall reqMfa,
        Js.or_lit (body_userId reqMfa) "" = req_user_id req ->
        exists m, AuthRoutes.mfa_login L env' reqMfa db' =
                  (Returned (mkResponse 400 (BMessage false m)), db'))
  /\ (forall reqCode,
        req_user_id reqCode = req_user_id req ->
        exists m, AuthRoutes.mfa_verify L env' reqCode db' =
                  (Returned (mkResponse 400 (BMessage false m)), db')).
Proof.
  intros Hu He Ha Hvalid Hl Hp db'.
  assert (Hid : User.id user = req_user_id req) by (apply (userById_id db); exact Hu).
  assert (Hdb : db' = update_user_row (req_user_id req) clear_mfa db).
  { subst db'. rewrite (auth_disable_run req db user Hu). reflexivity. }
  assert (Hu' : userById db' (req_user_id req) = Some (clear_mfa user)).
  { rewrite Hdb. apply userById_update_same; [reflexivity | exact Hu]. }
  assert (He' : userByEmail db' (login_email L reqPw) = Some (clear_mfa user)).
  { rewrite Hdb. apply userByEmail_update_same; [reflexivity | exact He | exact Hid]. }
  split; [rewrite (file_disable_run req db user Hu), Hdb; reflexivity|].
  split; [exact Hu'|]. split; [|split].
  - rewrite login_fst. unfold login_response. rewrite Hvalid, He'.
    change (User.isActive (clear_mfa user)) with (User.isActive user). rewrite Ha.
    replace (locked_out env (User.id (clear_mfa user)) db') with false
      by (rewrite Hdb; symmetry; exact Hl).
    change (password_ok L reqPw (clear_mfa user)) with (password_ok L reqPw user). rewrite Hp.
    reflexivity.
  - intros reqMfa Hm.
    unfold AuthRoutes.mfa_login, try_catch, bind, user_findUnique_id, gets, ret.
    destruct (negb (Js.truthy (body_userId reqMfa)) || negb (Js.truthy (body_token reqMfa)));
      [eexists; reflexivity|].
    rewrite Hm, Hu'. cbn. eexists. reflexivity.
  - intros reqCode Hc. rewrite auth_mfa_verify_run.
    destruct (AuthRoutes.bad_code (body_token reqCode)); [eexists; reflexivity|].
    unfold code_verifies. rewrite Hc, Hu'. cbn. eexists. reflexivity.
Qed.

(** ** The monitoring service *)

Section MonitoringFacts.

Variable env : ServiceEnv.

Lemma createAlert_run userId type severity n ip s :
  Monitoring.createAlert env userId type severity n ip s =
  (Returned tt,
   if alertCreateFails env then s
   else mkStore (logs s) (SecurityAlert.mk userId type severity n ip :: securityAlerts s)).
Proof.
  unfold Monitoring.createAlert, try_on. destruct (alertCreateFails env); reflexivity.
Qed.

Lemma checkBruteForce_run ip userId s :
  Monitoring.checkBruteForce env ip userId s =
  (Returned tt,
   if negb (logCountFails env) && (5 <=? recent_ip_failures env ip s)%nat
      && negb (alertCreateFails env)
   then mkStore (logs s)
          (SecurityAlert.mk userId "BRUTE_FORCE_ATTACK" "HIGH" (recent_ip_failures env ip s) ip
             :: securityAlerts s)
   else s).
Proof.
  unfold Monitoring.checkBruteForce, try_on, bind_on.
  destruct (logCountFails env); [reflexivity|].
  unfold gets_on. cbv beta iota. fold (recent_ip_failures env ip s).
  unfold Monitoring.maxAttempts. cbn [negb andb].
  destruct (5 <=? recent_ip_failures env ip s)%nat; [|reflexivity].
  rewrite createAlert_run. destruct (alertCreateFails env); reflexivity.
Qed.

Lemma recent_ip_failures_cons ip row s alerts :
  recent_ip_failures env ip (mkStore (row :: logs s) alerts) =
  ((if Monitoring.is_recent_ip_failure env ip row then 1 else 0) + recent_ip_failures env ip s)%nat.
Proof.
  unfold recent_ip_failures. cbn [logs List.filter].
  destruct (Monitoring.is_recent_ip_failure env ip row); reflexivity.
Qed.

Lemma failure_row_is_recent userId ip userAgent details :
  Monitoring.is_recent_ip_failure env ip (service_row env userId "LOGIN" "FAILURE" ip userAgent details)
  = true.
Proof.
  unfold Monitoring.is_recent_ip_failure, service_row, Monitoring.windowMinutes.
  cbn [ActivityLog.ipAddress ActivityLog.action ActivityLog.status ActivityLog.createdAt].
  rewrite String.eqb_refl.
  replace (String.eqb "LOGIN" "LOGIN") with true by reflexivity.
  replace (String.eqb "FAILURE" "FAILURE") with true by reflexivity.
  cbn [andb]. apply Z.leb_le. lia.
Qed.

Lemma logActivity_service_run userId action status ip userAgent details s :
  Monitoring.logActivity env userId action status ip userAgent details s =
  (Returned tt,
   if logCreateFails env then s
   else
     let s1 := mkStore (service_row env userId action status ip userAgent details :: logs s)
                 (securityAlerts s) in
     if String.eqb action "LOGIN" && String.eqb status "FAILURE"
        && negb (logCountFails env) && (5 <=? recent_ip_failures env ip s1)%nat
        && negb (alertCreateFails env)
     then mkStore (logs s1)
            (SecurityAlert.mk userId "BRUTE_FORCE_ATTACK" "HIGH" (recent_ip_failures env ip s1) ip
               :: securityAlerts s1)
     else s1).
Proof.
  unfold Monitoring.logActivity, try_on, bind_on.
  destruct (logCreateFails env); [reflexivity|].
  unfold modify_on. cbv beta iota zeta. fold (service_row env userId action status ip userAgent details).
  destruct (String.eqb action "LOGIN" && String.eqb status "FAILURE"); cbn [andb].
  - rewrite checkBruteForce_run.
    destruct (negb (logCountFails env) && _ && negb (alertCreateFails env)); reflexivity.
  - reflexivity.
Qed.

End MonitoringFacts.

(** X12: the brute-force rule of the monitoring service.  [logActivity]
    never throws.  It raises an alert exactly when a LOGIN/FAILURE row was
    written, the count and the alert write succeed, and at least four earlier
    LOGIN/FAILURE rows of the last 15 minutes carry the same address: the row
    just written counts as the fifth, and the rows of all users count.  Any
    other action or status never raises an alert. *)
Theorem brute_force_alert_at_fifth_failure (env : ServiceEnv)
    (userId action status ip userAgent : string) (details : list (string * string))
    (s : Store) :
  let s' := snd (Monitoring.logActivity env userId action status ip userAgent details s) in
  fst (Monitoring.logActivity env userId action status ip userAgent details s) = Returned tt
  /\ logs s' =
     (if logCreateFails env then logs s
      else service_row env userId action status ip userAgent details :: logs s)
  /\ securityAlerts s' =
     (if negb (logCreateFails env) && String.eqb action "LOGIN" && String.eqb status "FAILURE"
         && negb (logCountFails env) && negb (alertCreateFails env)
         && (4 <=? recent_ip_failures env ip s)%nat
      then SecurityAlert.mk userId "BRUTE_FORCE_ATTACK" "HIGH"
             (S (recent_ip_failures env ip s)) ip :: securityAlerts s
      else securityAlerts s).
Proof.
  intros s'. subst s'. rewrite logActivity_service_run. cbn [fst snd].
  split; [reflexivity|].
  destruct (logCreateFails env); cbn [negb andb]; [split; reflexivity|]. cbv zeta.
  destruct (String.eqb action "LOGIN") eqn:Ea; cbn [andb]; [|split; reflexivity].
  destruct (String.eqb status "FAILURE") eqn:Es; cbn [andb]; [|split; reflexivity].
  apply String.eqb_eq in Ea, Es. subst action status.
  rewrite recent_ip_failures_cons, failure_row_is_recent.
  change (1 + recent_ip_failures env ip s)%nat with (S (recent_ip_failures env ip s)).
  change (5 <=? S (recent_ip_failures env ip s))%nat
    with (4 <=? recent_ip_failures env ip s)%nat.
  destruct (logCountFails env); cbn [negb andb]; [split; reflexivity|].
  destruct (4 <=? recent_ip_failures env ip s)%nat; cbn [andb];
    destruct (alertCreateFails env); cbn [negb andb]; split; reflexivity.
Qed.

Section RepeatedFailures.

Variable env : ServiceEnv.
Hypothesis no_faults :
  logCreateFails env = false /\ logCountFails env = false /\ alertCreateFails env = false.

Lemma report_failures_alerts ip userAgent userIds s :
  fst (Monitoring.report_failures env ip userAgent userIds s) = Returned tt
  /\ length (securityAlerts (snd (Monitoring.report_failures env ip userAgent userIds s))) =
     (length (securityAlerts s)
      + (length userIds - (4 - recent_ip_failures env ip s)))%nat
  /\ recent_ip_failures env ip (snd (Monitoring.report_failures env ip userAgent userIds s)) =
     (recent_ip_failures env ip s + length userIds)%nat.
Proof.
  destruct no_faults as (Hc & Hn & Ha).
  revert s. induction userIds as [|u rest IH]; intros s.
  - cbn [Monitoring.report_failures ret_on fst snd length]. repeat split; lia.
  - cbn [Monitoring.report_failures]. unfold bind_on.
    rewrite logActivity_service_run, Hc, Hn, Ha. cbv zeta.
    replace (String.eqb "LOGIN" "LOGIN") with true by reflexivity.
    replace (String.eqb "FAILURE" "FAILURE") with true by reflexivity.
    cbn [negb andb]. rewrite recent_ip_failures_cons, failure_row_is_recent.
    rewrite andb_true_r.
    set (k := recent_ip_failures env ip s).
    destruct (5 <=? 1 + k)%nat eqn:E.
    + apply Nat.leb_le in E.
      match goal with |- context [Monitoring.report_failures env ip userAgent rest ?s1] =>
        destruct (IH s1) as (I1 & I2 & I3) end.
      split; [exact I1|]. rewrite I2, I3. cbn [logs securityAlerts length].
      rewrite ?recent_ip_failures_cons, ?failure_row_is_recent. fold k. split; lia.
    + apply Nat.leb_gt in E.
      match goal with |- context [Monitoring.report_failures env ip userAgent rest ?s1] =>
        destruct (IH s1) as (I1 & I2 & I3) end.
      split; [exact I1|]. rewrite I2, I3. cbn [logs securityAlerts length].
      rewrite ?recent_ip_failures_cons, ?failure_row_is_recent. fold k. split; lia.
Qed.

End RepeatedFailures.

(** X13: alerts are raised again at every further failure.  When nothing
    fails, reporting n failed logins from one address, for any users, to a
    store that holds k recent failures from that address adds exactly
    n - (4 - k) alerts (none while fewer than five failures are on record, one
    per failure from the fifth on), and k + n failures are then on record. *)
Theorem every_failure_past_the_fourth_alerts (env : ServiceEnv) (ip userAgent : string)
    (userIds : list string) (s : Store) :
  logCreateFails env = false ->
  logCountFails env = false ->
  alertCreateFails env = false ->
  length (securityAlerts (snd (Monitoring.report_failures env ip userAgent userIds s))) =
  (length (securityAlerts s) + (length userIds - (4 - recent_ip_failures env ip s)))%nat
  /\ recent_ip_failures env ip (snd (Monitoring.report_failures env ip userAgent userIds s)) =
     (recent_ip_failures env ip s + length userIds)%nat.
Proof.
  intros Hc Hn Ha.
  destruct (report_failures_alerts env (conj Hc (conj Hn Ha)) ip userAgent userIds s)
    as (_ & H1 & H2).
  split; assumption.
Qed.

(** ** OAuth link and unlink *)

Section OAuthFacts.

Context {R : Type}.
Variable M : MoreLibs.

Lemma linked_to_other_false fieldName providerId userId (m : gmap string (Account R)) :
  OAuth.linked_to_other fieldName providerId userId m = false ->
  forall k a, m !! k = Some a -> k <> userId ->
              providerIds a !! fieldName <> Some providerId.
Proof.
  intros H k a Hk Hne Hp.
  assert (E : OAuth.linked_to_other fieldName providerId userId m = true).
  { unfold OAuth.linked_to_other. apply List.existsb_exists. exists (k, a). split.
    - apply list_elem_of_In, elem_of_map_to_list. exact Hk.
    - cbn [fst snd]. apply andb_true_intro. split.
      + apply negb_true_iff, String.eqb_neq. exact Hne.
      + apply bool_decide_eq_true. exact Hp. }
  congruence.
Qed.

Lemma linked_to_other_true fieldName providerId userId (m : gmap string (Account R)) :
  OAuth.linked_to_other fieldName providerId userId m = true ->
  exists k a, m !! k = Some a /\ k <> userId /\ providerIds a !! fieldName = Some providerId.
Proof.
  unfold OAuth.linked_to_other. intros H.
  apply List.existsb_exists in H as ([k a] & Hin & Hc). cbn [fst snd] in Hc.
  apply andb_prop in Hc as [Hne Hp].
  exists k, a. split; [|split].
  - apply elem_of_map_to_list, list_elem_of_In. exact Hin.
  - apply negb_true_iff, String.eqb_neq in Hne. exact Hne.
  - apply bool_decide_eq_true in Hp. exact Hp.
Qed.

Lemma link_run authorization provider providerId (m : gmap string (Account R)) :
  OAuth.link M authorization provider providerId m =
  if Js.truthy (AuthMiddleware.bearer_token authorization) then
    match jwt_verify M (bearer_of authorization) with
    | None => (Returned (OAuth.message false 500 "Internal server error"), m)
    | Some decoded =>
        if Js.truthy provider && Js.truthy providerId then
          let p := Js.or_lit provider "" in
          let pid := Js.or_lit providerId "" in
          if existsb (String.eqb p) OAuth.providers then
            if OAuth.linked_to_other (String.append p "Id") pid (jwt_userId decoded) m then
              (Returned (OAuth.message false 409
                           (String.append "This "
                              (String.append p " account is already linked to another user"))), m)
            else
              match m !! jwt_userId decoded with
              | None => (Returned (OAuth.message false 500 "Internal server error"), m)
              | Some a =>
                  let a' := mkAccount (<[String.append p "Id" := pid]> (providerIds a))
                              (columns a) in
                  (Returned (mkOAuthReply 200
                               (OUser (String.append p " account linked successfully") a')),
                   <[jwt_userId decoded := a']> m)
              end
          else (Returned (OAuth.message false 400 "Invalid provider"), m)
        else (Returned (OAuth.message false 400 "Provider and providerId are required"), m)
    end
  else (Returned (OAuth.message false 401 "No token provided"), m).
Proof.
  unfold OAuth.link, try_on, bind_on, gets_on, ret_on, throw_on, bearer_of.
  destruct (Js.truthy (AuthMiddleware.bearer_token authorization)); [|reflexivity].
  cbn [negb]. destruct (jwt_verify M _) as [decoded|]; [|reflexivity].
  destruct (Js.truthy provider); [|reflexivity].
  destruct (Js.truthy providerId); [|reflexivity]. cbn [negb orb andb]. cbv zeta.
  destruct (existsb _ OAuth.providers); [|reflexivity]. cbn [negb].
  destruct (OAuth.linked_to_other _ _ _ m); [reflexivity|].
  unfold OAuth.account_update. destruct (m !! jwt_userId decoded); reflexivity.
Qed.

Lemma unlink_run authorization provider (m : gmap string (Account R)) :
  OAuth.unlink M authorization provider m =
  if Js.truthy (AuthMiddleware.bearer_token authorization) then
    match jwt_verify M (bearer_of authorization) with
    | None => (Returned (OAuth.message false 500 "Internal server error"), m)
    | Some decoded =>
        if Js.truthy provider then
          let p := Js.or_lit provider "" in
          if existsb (String.eqb p) OAuth.providers then
            match m !! jwt_userId decoded with
            | None => (Returned (OAuth.message false 500 "Internal server error"), m)
            | Some a =>
                let a' := mkAccount (delete (String.append p "Id") (providerIds a))
                            (columns a) in
                (Returned (mkOAuthReply 200
                             (OUser (String.append p " account unlinked successfully") a')),
                 <[jwt_userId decoded := a']> m)
            end
          else (Returned (OAuth.message false 400 "Invalid provider"), m)
        else (Returned (OAuth.message false 400 "Provider is required"), m)
    end
  else (Returned (OAuth.message false 401 "No token provided"), m).
Proof.
  unfold OAuth.unlink, try_on, bind_on, gets_on, ret_on, throw_on, bearer_of.
  destruct (Js.truthy (AuthMiddleware.bearer_token authorization)); [|reflexivity].
  cbn [negb]. destruct (jwt_verify M _) as [decoded|]; [|reflexivity].
  destruct (Js.truthy provider); [|reflexivity]. cbn [negb]. cbv zeta.
  destruct (existsb _ OAuth.providers); [|reflexivity]. cbn [negb].
  unfold OAuth.account_update. destruct (m !! jwt_userId decoded); reflexivity.
Qed.

End OAuthFacts.

(** X14: linking keeps provider ids unique.  If no provider id is held by
    two users, then after [/oauth/link] and after [/oauth/unlink], with any
    header and body, none is: a provider id that another user holds is
    refused with 409. *)
Theorem oauth_link_keeps_ids_unique {R : Type} (M : MoreLibs)
    (authorization provider providerId : Js.value) (m : gmap string (Account R)) :
  ids_unique m ->
  ids_unique (snd (OAuth.link M authorization provider providerId m))
  /\ ids_unique (snd (OAuth.unlink M authorization provider m)).
Proof.
  intros Hu. split.
  - rewrite link_run.
    destruct (Js.truthy (AuthMiddleware.bearer_token authorization)); [|exact Hu].
    destruct (jwt_verify M _) as [decoded|]; [|exact Hu].
    destruct (Js.truthy provider && Js.truthy providerId); [|exact Hu]. cbv zeta.
    destruct (existsb _ OAuth.providers); [|exact Hu].
    destruct (OAuth.linked_to_other _ _ _ m) eqn:Hl; [exact Hu|].
    destruct (m !! jwt_userId decoded) as [a|] eqn:Ha; [|exact Hu]. cbn [snd].
    set (me := jwt_userId decoded) in *.
    set (f := String.append (Js.or_lit provider "") "Id") in *.
    set (pid := Js.or_lit providerId "") in *.
    pose proof (linked_to_other_false f pid me m Hl) as Hfree.
    intros f' k1 k2 a1 a2 pid' H1 H2 P1 P2.
    destruct (decide (k1 = me)) as [E1|N1]; destruct (decide (k2 = me)) as [E2|N2].
    + congruence.
    + subst k1. rewrite lookup_insert_eq in H1. injection H1 as <-.
      rewrite lookup_insert_ne in H2 by congruence. cbn [providerIds] in P1.
      destruct (decide (f = f')) as [Ef|Nf].
      * subst f'. rewrite lookup_insert_eq in P1. injection P1 as <-.
        exfalso. exact (Hfree k2 a2 H2 N2 P2).
      * rewrite lookup_insert_ne in P1 by exact Nf.
        exact (Hu f' me k2 a a2 pid' Ha H2 P1 P2).
    + subst k2. rewrite lookup_insert_eq in H2. injection H2 as <-.
      rewrite lookup_insert_ne in H1 by congruence. cbn [providerIds] in P2.
      destruct (decide (f = f')) as [Ef|Nf].
      * subst f'. rewrite lookup_insert_eq in P2. injection P2 as <-.
        exfalso. exact (Hfree k1 a1 H1 N1 P1).
      * rewrite lookup_insert_ne in P2 by exact Nf.
        exact (Hu f' k1 me a1 a pid' H1 Ha P1 P2).
    + rewrite lookup_insert_ne in H1 by congruence.
      rewrite lookup_insert_ne in H2 by congruence.
      exact (Hu f' k1 k2 a1 a2 pid' H1 H2 P1 P2).
  - rewrite unlink_run.
    destruct (Js.truthy (AuthMiddleware.bearer_token authorization)); [|exact Hu].
    destruct (jwt_verify M _) as [decoded|]; [|exact Hu].
    destruct (Js.truthy provider); [|exact Hu]. cbv zeta.
    destruct (existsb _ OAuth.providers); [|exact Hu].
    destruct (m !! jwt_userId decoded) as [a|] eqn:Ha; [|exact Hu]. cbn [snd].
    set (me := jwt_userId decoded) in *.
    set (f := String.append (Js.or_lit provider "") "Id") in *.
    assert (Hdel : forall f' pid', delete f (providerIds a) !! f' = Some pid' ->
                                   providerIds a !! f' = Some pid').
    { intros f' pid' H. destruct (decide (f = f')) as [<-|N].
      - rewrite lookup_delete_eq in H. discriminate.
      - rewrite lookup_delete_ne in H by exact N. exact H. }
    intros f' k1 k2 a1 a2 pid' H1 H2 P1 P2.
    destruct (decide (k1 = me)) as [E1|N1]; destruct (decide (k2 = me)) as [E2|N2].
    + congruence.
    + subst k1. rewrite lookup_insert_eq in H1. injection H1 as <-.
      rewrite lookup_insert_ne in H2 by congruence. cbn [providerIds] in P1.
      exact (Hu f' me k2 a a2 pid' Ha H2 (Hdel _ _ P1) P2).
    + subst k2. rewrite lookup_insert_eq in H2. injection H2 as <-.
      rewrite lookup_insert_ne in H1 by congruence. cbn [providerIds] in P2.
      exact (Hu f' k1 me a1 a pid' H1 Ha P1 (Hdel _ _ P2)).
    + rewrite lookup_insert_ne in H1 by congruence.
      rewrite lookup_insert_ne in H2 by congruence.
      exact (Hu f' k1 k2 a1 a2 pid' H1 H2 P1 P2).
Qed.

(** X15: link, then unlink, is a round trip.  For a user whose token
    verifies and whose column for the provider is null, linking a provider id
    that no other user holds succeeds and stores it in that column only;
    unlinking the provider afterwards succeeds and gives back the table as it
    was.  The handler asks for no proof that the caller owns the provider
    id. *)
Theorem oauth_link_unlink_round_trip {R : Type} (M : MoreLibs) (authorization : Js.value)
    (provider providerId : string) (m : gmap string (Account R)) (decoded : JwtPayload)
    (a : Account R) :
  Js.truthy (AuthMiddleware.bearer_token authorization) = true ->
  jwt_verify M (bearer_of authorization) = Some decoded ->
  m !! jwt_userId decoded = Some a ->
  In provider OAuth.providers ->
  providerId <> "" ->
  providerIds a !! String.append provider "Id" = None ->
  OAuth.linked_to_other (String.append provider "Id") providerId (jwt_userId decoded) m = false ->
  let linked := mkAccount (<[String.append provider "Id" := providerId]> (providerIds a))
                  (columns a) in
  OAuth.link M authorization (Some provider) (Some providerId) m =
  (Returned (mkOAuthReply 200
               (OUser (String.append provider " account linked successfully") linked)),
   <[jwt_userId decoded := linked]> m)
  /\ OAuth.unlink M authorization (Some provider)
       (snd (OAuth.link M authorization (Some provider) (Some providerId) m)) =
     (Returned (mkOAuthReply 200
                  (OUser (String.append provider " account unlinked successfully") a)), m).
Proof.
  intros Ht Hd Ha Hp Hpid Hnull Hfree linked.
  assert (Hprov : existsb (String.eqb provider) OAuth.providers = true).
  { apply List.existsb_exists. exists provider. split; [exact Hp | apply String.eqb_refl]. }
  assert (Hpne : String.eqb provider "" = false).
  { apply String.eqb_neq. intros ->. cbn in Hp. intuition discriminate. }
  assert (Hpidne : String.eqb providerId "" = false) by (apply String.eqb_neq; exact Hpid).
  assert (Hlink : OAuth.link M authorization (Some provider) (Some providerId) m =
                  (Returned (mkOAuthReply 200
                               (OUser (String.append provider " account linked successfully")
                                  linked)),
                   <[jwt_userId decoded := linked]> m)).
  { rewrite link_run, Ht, Hd. cbn [Js.truthy Js.or_lit]. rewrite Hpne, Hpidne.
    cbn [negb andb]. cbv zeta. rewrite Hprov, Hfree, Ha. reflexivity. }
  split; [exact Hlink|].
  rewrite Hlink. cbn [snd]. rewrite unlink_run, Ht, Hd. cbn [Js.truthy Js.or_lit].
  rewrite Hpne. cbn [negb]. cbv zeta. rewrite Hprov, lookup_insert_eq.
  subst linked. cbn [providerIds columns].
  rewrite delete_insert_eq, insert_insert_eq.
  rewrite (delete_id (providerIds a)) by exact Hnull.
  destruct a as [ids cols]. cbn [providerIds columns] in *.
  rewrite insert_id by exact Ha. reflexivity.
Qed.

(** X16: the error answers of link and unlink.  A header without a token is
    answered 401, but a token that does not verify is answered 500 "Internal
    server error" (the verification throws into the handler's own catch); a
    provider outside the five known ones is answered 400; and in none of these
    cases, nor on any answer other than 200, is the table changed. *)
Theorem oauth_errors_change_nothing {R : Type} (M : MoreLibs)
    (authorization provider providerId : Js.value) (m : gmap string (Account R)) :
  (Js.truthy (AuthMiddleware.bearer_token authorization) = true ->
   jwt_verify M (bearer_of authorization) = None ->
   OAuth.link M authorization provider providerId m =
   (Returned (OAuth.message false 500 "Internal server error"), m)
   /\ OAuth.unlink M authorization provider m =
      (Returned (OAuth.message false 500 "Internal server error"), m))
  /\ (Js.truthy (AuthMiddleware.bearer_token authorization) = false ->
      OAuth.link M authorization provider providerId m =
      (Returned (OAuth.message false 401 "No token provided"), m)
      /\ OAuth.unlink M authorization provider m =
         (Returned (OAuth.message false 401 "No token provided"), m))
  /\ (forall r m', OAuth.link M authorization provider providerId m = (Returned r, m') ->
                   oauthStatus r <> 200%nat -> m' = m)
  /\ (forall r m', OAuth.unlink M authorization provider m = (Returned r, m') ->
                   oauthStatus r <> 200%nat -> m' = m)
  /\ (exists r, fst (OAuth.link M authorization provider providerId m) = Returned r)
  /\ (exists r, fst (OAuth.unlink M authorization provider m) = Returned r).
Proof.
  rewrite link_run, unlink_run.
  split; [|split; [|split; [|split; [|split]]]].
  - intros Ht Hd. rewrite Ht, Hd. split; reflexivity.
  - intros Ht. rewrite Ht. split; reflexivity.
  - intros r m'.
    destruct (Js.truthy (AuthMiddleware.bearer_token authorization)); [|intros [= <- <-]; reflexivity].
    destruct (jwt_verify M _) as [decoded|]; [|intros [= <- <-]; reflexivity].
    destruct (Js.truthy provider && Js.truthy providerId); [|intros [= <- <-]; reflexivity].
    cbv zeta. destruct (existsb _ OAuth.providers); [|intros [= <- <-]; reflexivity].
    destruct (OAuth.linked_to_other _ _ _ m); [intros [= <- <-]; reflexivity|].
    destruct (m !! jwt_userId decoded); [|intros [= <- <-]; reflexivity].
    intros [= <- <-]. cbn [oauthStatus]. congruence.
  - intros r m'.
    destruct (Js.truthy (AuthMiddleware.bearer_token authorization)); [|intros [= <- <-]; reflexivity].
    destruct (jwt_verify M _) as [decoded|]; [|intros [= <- <-]; reflexivity].
    destruct (Js.truthy provider); [|intros [= <- <-]; reflexivity].
    cbv zeta. destruct (existsb _ OAuth.providers); [|intros [= <- <-]; reflexivity].
    destruct (m !! jwt_userId decoded); [|intros [= <- <-]; reflexivity].
    intros [= <- <-]. cbn [oauthStatus]. congruence.
  - destruct (Js.truthy (AuthMiddleware.bearer_token authorization)); [|eexists; reflexivity].
    destruct (jwt_verify M _) as [decoded|]; [|eexists; reflexivity].
    destruct (Js.truthy provider && Js.truthy providerId); [|eexists; reflexivity].
    cbv zeta. destruct (existsb _ OAuth.providers); [|eexists; reflexivity].
    destruct (OAuth.linked_to_other _ _ _ m); [eexists; reflexivity|].
    destruct (m !! jwt_userId decoded); eexists; reflexivity.
  - destruct (Js.truthy (AuthMiddleware.bearer_token authorization)); [|eexists; reflexivity].
    destruct (jwt_verify M _) as [decoded|]; [|eexists; reflexivity].
    destruct (Js.truthy provider); [|eexists; reflexivity].
    cbv zeta. destruct (existsb _ OAuth.providers); [|eexists; reflexivity].
    destruct (m !! jwt_userId decoded); eexists; reflexivity.
Qed.

(** ** The profile update *)

Section ProfileFacts.

Context {Num : Type}.
Variable is_zero : Num -> bool.
Variable date_of_string : string -> option string.
Variable date_of_number : Num -> option string.

Lemma collect_sound fields (body : gmap string (Json Num)) data :
  UsersController.collect is_zero date_of_string date_of_number fields body = Returned data ->
  forall field v,
    In (field, v) data ->
    In field fields
    /\ exists v0,
         body !! field = Some v0
         /\ (field <> "dateOfBirth" -> v = v0)
         /\ (field = "dateOfBirth" ->
             UsersController.dateOfBirth_value is_zero date_of_string date_of_number v0
             = Returned v).
Proof.
  revert data. induction fields as [|f rest IH]; intros data H field v Hin.
  - cbn in H. injection H as <-. destruct Hin.
  - cbn [UsersController.collect] in H.
    destruct (body !! f) as [value|] eqn:Hf.
    2:{ destruct (IH data H field v Hin) as [I1 I2]. split; [right; exact I1 | exact I2]. }
    destruct (String.eqb f "dateOfBirth") eqn:Ef.
    + destruct (UsersController.dateOfBirth_value _ _ _ value) as [v1|e] eqn:Ev; [|discriminate].
      destruct (UsersController.collect _ _ _ rest body) as [data'|e]; [|discriminate].
      injection H as <-. destruct Hin as [Hhd|Hin].
      * injection Hhd as <- <-. split; [left; reflexivity|]. exists value.
        apply String.eqb_eq in Ef. split; [exact Hf|]. split; [congruence|]. intros _. exact Ev.
      * destruct (IH data' eq_refl field v Hin) as [I1 I2]. split; [right; exact I1 | exact I2].
    + destruct (UsersController.collect _ _ _ rest body) as [data'|e]; [|discriminate].
      injection H as <-. destruct Hin as [Hhd|Hin].
      * injection Hhd as <- <-. split; [left; reflexivity|]. exists value.
        apply String.eqb_neq in Ef. split; [exact Hf|]. split; [reflexivity | congruence].
      * destruct (IH data' eq_refl field v Hin) as [I1 I2]. split; [right; exact I1 | exact I2].
Qed.

Lemma collect_complete fields (body : gmap string (Json Num)) data :
  UsersController.collect is_zero date_of_string date_of_number fields body = Returned data ->
  forall field, In field fields -> is_Some (body !! field) -> In field (List.map fst data).
Proof.
  revert data. induction fields as [|f rest IH]; intros data H field Hin Hsome; [destruct Hin|].
  cbn [UsersController.collect] in H.
  destruct (body !! f) as [value|] eqn:Hf.
  - destruct (if String.eqb f "dateOfBirth" then _ else _) as [v1|e]; [|discriminate].
    destruct (UsersController.collect _ _ _ rest body) as [data'|e]; [|discriminate].
    injection H as <-. cbn [List.map fst]. destruct Hin as [->|Hin]; [left; reflexivity|].
    right. exact (IH data' eq_refl field Hin Hsome).
  - destruct Hin as [->|Hin].
    + rewrite Hf in Hsome. destruct Hsome as [x Hx]. discriminate.
    + exact (IH data H field Hin Hsome).
Qed.

Lemma collect_thrown fields (body : gmap string (Json Num)) e :
  UsersController.collect is_zero date_of_string date_of_number fields body = Thrown e ->
  e = "Invalid date format."
  /\ exists v0, body !! "dateOfBirth" = Some v0
                /\ UsersController.json_truthy is_zero v0 = true.
Proof.
  induction fields as [|f rest IH]; cbn [UsersController.collect]; [discriminate|].
  destruct (body !! f) as [value|] eqn:Hf; [|exact IH].
  destruct (String.eqb f "dateOfBirth") eqn:Ef.
  - apply String.eqb_eq in Ef. subst f.
    unfold UsersController.dateOfBirth_value.
    destruct (UsersController.json_truthy is_zero value) eqn:Ht.
    + destruct (match value with JString _ => _ | _ => _ end) as [iso|].
      * destruct (UsersController.collect _ _ _ rest body); [discriminate | exact IH].
      * intros [= <-]. split; [reflexivity|]. exists value. split; assumption.
    + destruct (UsersController.collect _ _ _ rest body); [discriminate | exact IH].
  - destruct (UsersController.collect _ _ _ rest body); [discriminate | exact IH].
Qed.

End ProfileFacts.

(** X17: a profile update passes on the five allowed fields only.  Whatever
    the request body holds, the data that [updateProfile] hands to the users
    service has exactly the keys among firstName, lastName, dateOfBirth, phone
    and profilePicture that the body has; every value but the date is the
    body's own, the date is null or a parsed date string; no other key of the
    body (role, isActive, password, ...) is passed on.  Building the data
    fails only with "Invalid date format.", on a truthy dateOfBirth. *)
Theorem profile_update_passes_only_allowed_fields {Num : Type} (is_zero : Num -> bool)
    (date_of_string : string -> option string) (date_of_number : Num -> option string)
    (body : gmap string (Json Num)) :
  (forall data,
      UsersController.profileUpdateData is_zero date_of_string date_of_number body
      = Returned data ->
      (forall field v,
          In (field, v) data ->
          In field UsersController.allowedFields
          /\ exists v0,
               body !! field = Some v0
               /\ (field <> "dateOfBirth" -> v = v0)
               /\ (field = "dateOfBirth" -> v = JNull \/ exists iso, v = JString iso))
      /\ (forall field,
            In field UsersController.allowedFields -> is_Some (body !! field) ->
            In field (List.map fst data)))
  /\ (forall e,
        UsersController.profileUpdateData is_zero date_of_string date_of_number body = Thrown e ->
        e = "Invalid date format."
        /\ exists v0, body !! "dateOfBirth" = Some v0
                      /\ UsersController.json_truthy is_zero v0 = true).
Proof.
  split.
  - intros data H. split.
    + intros field v Hin.
      destruct (collect_sound _ _ _ _ _ _ H field v Hin) as [H1 (v0 & H2 & H3 & H4)].
      split; [exact H1|]. exists v0. split; [exact H2|]. split; [exact H3|].
      intros Hd. specialize (H4 Hd). unfold UsersController.dateOfBirth_value in H4.
      destruct (UsersController.json_truthy is_zero v0).
      * destruct (match v0 with JString _ => _ | _ => _ end) as [iso|]; [|discriminate].
        injection H4 as <-. right. exists iso. reflexivity.
      * injection H4 as <-. left. reflexivity.
    + intros field Hin Hsome. exact (collect_complete _ _ _ _ _ _ H field Hin Hsome).
  - intros e H. exact (collect_thrown _ _ _ _ _ _ H).
Qed.

(** ** Sample runs *)

Lemma bearer_scheme_witness :
  AuthMiddleware.auth Cases.more (Some "jwt.u1") (Sample.db_of Sample.alice []) =
  AuthMiddleware.auth Cases.more (Some "Bearer jwt.u1") (Sample.db_of Sample.alice [])
  /\ AuthMiddleware.me Cases.more (Some "jwt.u1") (Sample.db_of Sample.alice []) =
     AuthMiddleware.me Cases.more (Some "Bearer jwt.u1") (Sample.db_of Sample.alice []).
Proof.
  exact (bearer_scheme_is_optional Cases.more "jwt.u1" (Sample.db_of Sample.alice []) eq_refl).
Defined.

Lemma deactivated_user_witness :
  AuthMiddleware.auth Cases.more (Some "Bearer jwt.u1") (Sample.db_of Sample.alice_inactive []) =
  (Returned (Denied "Access denied. User not found or inactive."),
   Sample.db_of Sample.alice_inactive [])
  /\ AuthMiddleware.me Cases.more (Some "Bearer jwt.u1") (Sample.db_of Sample.alice_inactive []) =
     (Returned (mkReply 200
                  (PUser Sample.alice_inactive
                     ["id"; "email"; "firstName"; "lastName"; "role"; "isActive"])),
      Sample.db_of Sample.alice_inactive []).
Proof.
  exact (me_answers_deactivated_users Cases.more (Some "Bearer jwt.u1")
           (Sample.db_of Sample.alice_inactive []) (mkJwtPayload "u1" "" "") Sample.alice_inactive
           eq_refl eq_refl eq_refl eq_refl).
Defined.

(** The QR code cannot be drawn: the secret of an MFA user is replaced. *)
Lemma failed_setup_witness :
  userById (snd (AuthMfa.mfa_setup Cases.no_qr Cases.generated Cases.as_u1
                   (Sample.db_of Sample.alice_mfa []))) "u1" =
  Some (store_secret "KRSXG5CTMVRXEZLU" Sample.alice_mfa)
  /\ fst (AuthMfa.mfa_setup Cases.no_qr Cases.generated Cases.as_u1
            (Sample.db_of Sample.alice_mfa [])) =
     Returned (mkReply 500 (PError "Failed to generate MFA setup")).
Proof.
  pose proof (mfa_setup_stores_secret_even_on_failure Cases.no_qr Cases.generated Cases.as_u1
                (Sample.db_of Sample.alice_mfa []) Sample.alice_mfa eq_refl)
    as (_ & H1 & _ & _ & _ & H2).
  split; [exact H1 | exact (proj1 (H2 eq_refl))].
Defined.

Lemma unverified_secret_witness :
  fst (AuthRoutes.mfa_login Sample.libs Sample.env (Sample.mfa_request "u1" "123456")
         (snd (AuthMfa.mfa_setup Cases.more Cases.generated Cases.as_u1
                 (Sample.db_of Sample.alice_mfa [])))) =
  Returned (mkResponse 200
              (BLogin "Login successful with MFA"
                 (AuthRoutes.safeUser (store_secret "KRSXG5CTMVRXEZLU" Sample.alice_mfa))
                 "jwt.u1")).
Proof.
  exact (setup_replaces_active_secret Sample.libs Cases.more Sample.env Cases.generated
           Cases.as_u1 (Sample.mfa_request "u1" "123456") (Sample.db_of Sample.alice_mfa [])
           Sample.alice_mfa eq_refl eq_refl ltac:(discriminate) eq_refl ltac:(discriminate)
           eq_refl).
Defined.

Lemma enrolment_witness :
  fst (AuthRoutes.login Sample.libs Sample.env Cases.good
         (snd (AuthRoutes.mfa_verify Sample.libs Sample.env (Sample.code_request "u1" "123456")
                 (snd (AuthMfa.mfa_setup Cases.more Cases.generated Cases.as_u1
                         (Sample.db_of Sample.alice [])))))) =
  Returned (mkResponse 200 (BMfaRequired "u1" "MFA required")).
Proof.
  exact (proj1 (proj2
           (mfa_enrolment_round_trip Sample.libs Cases.more Sample.env Sample.env Sample.env
              Cases.generated Cases.as_u1 (Sample.code_request "u1" "123456") Cases.good
              (Sample.mfa_request "u1" "123456") (Sample.db_of Sample.alice []) Sample.alice
              eq_refl eq_refl eq_refl ltac:(discriminate) ltac:(discriminate) eq_refl eq_refl
              eq_refl eq_refl eq_refl eq_refl eq_refl eq_refl eq_refl))).
Defined.

Lemma disable_witness :
  fst (AuthRoutes.login Sample.libs Sample.env Cases.good
         (snd (AuthMfa.mfa_disable Cases.as_u1 (Sample.db_of Sample.alice_mfa [])))) =
  Returned (mkResponse 200
              (BLogin "Login successful"
                 (AuthRoutes.userWithoutPassword (clear_mfa Sample.alice_mfa)) "jwt.u1")).
Proof.
  pose proof (mfa_disable_removes_second_factor Sample.libs Sample.env Sample.env Cases.as_u1
                Cases.good (Sample.db_of Sample.alice_mfa []) Sample.alice_mfa
                eq_refl eq_refl eq_refl eq_refl eq_refl eq_refl) as (_ & _ & H & _).
  exact H.
Defined.

(** Six failed logins from one address, for six users: two alerts. *)
Lemma repeated_alerts_witness :
  length (securityAlerts
            (snd (Monitoring.report_failures Cases.service_env "10.0.0.9" "curl"
                    ["u1"; "u2"; "u3"; "u4"; "u5"; "u6"] (mkStore [] [])))) = 2%nat.
Proof.
  exact (proj1 (every_failure_past_the_fourth_alerts Cases.service_env "10.0.0.9" "curl"
                  ["u1"; "u2"; "u3"; "u4"; "u5"; "u6"] (mkStore [] []) eq_refl eq_refl eq_refl)).
Defined.

Lemma one_account_unique : ids_unique Cases.one_account.
Proof.
  intros f k1 k2 a1 a2 pid H1 H2 _ _. unfold Cases.one_account in *.
  apply lookup_singleton_Some in H1 as [<- _].
  apply lookup_singleton_Some in H2 as [<- _]. reflexivity.
Qed.

Lemma link_unique_witness :
  ids_unique (snd (OAuth.link Cases.more (Some "Bearer jwt.u1") (Some "google") (Some "g-1")
                     Cases.one_account)).
Proof.
  exact (proj1 (oauth_link_keeps_ids_unique Cases.more (Some "Bearer jwt.u1") (Some "google")
                  (Some "g-1") Cases.one_account one_account_unique)).
Defined.

Lemma link_unlink_witness :
  OAuth.unlink Cases.more (Some "Bearer jwt.u1") (Some "google")
    (snd (OAuth.link Cases.more (Some "Bearer jwt.u1") (Some "google") (Some "g-1")
            Cases.two_accounts)) =
  (Returned (mkOAuthReply 200 (OUser "google account unlinked successfully" (mkAccount ∅ tt))),
   Cases.two_accounts).
Proof.
  exact (proj2 (oauth_link_unlink_round_trip Cases.more (Some "Bearer jwt.u1") "google" "g-1"
                  Cases.two_accounts (mkJwtPayload "u1" "" "") (mkAccount ∅ tt)
                  eq_refl eq_refl eq_refl (or_introl eq_refl) ltac:(discriminate)
                  eq_refl eq_refl)).
Defined.

(** The Google account of the second user is refused to the first. *)
Example link_taken_provider_id :
  OAuth.link Cases.more (Some "Bearer jwt.u1") (Some "google") (Some "g-2") Cases.two_accounts =
  (Returned (OAuth.message false 409 "This google account is already linked to another user"),
   Cases.two_accounts).
Proof. vm_compute. reflexivity. Qed.

(** A body that asks for a role: the role is not passed on. *)
Example profile_body_without_role :
  UsersController.profileUpdateData (Z.eqb 0) (fun s => Some s) (fun _ => None)
    Cases.profile_body =
  Returned [("firstName", JString "Al"); ("phone", JNull)].
Proof. vm_compute. reflexivity. Qed.
